(** * auto-QSR: the Platform Summarizer and the Aggregator

    A shallow embedding of [src/platform_agent.py] and
    [src/aggregate_agent.py].  Python strings are sequences of code
    points, JSON values are a tree type with the reader and the writer of
    Python's [json] module over it, and the two [main] functions are
    functions from a world (files, database, environment, LLM provider) to
    an outcome and the world they leave behind. *)

From Stdlib Require Import ZArith NArith List Ascii String Lia Bool.
From stdpp Require Import base option list gmap.
Import ListNotations.
Local Open Scope nat_scope.
Set Warnings "-register-all".

(** ** Python strings *)

(** A [str] is a sequence of Unicode code points. *)
Abbreviation str := (list N).

(** A literal of the source, written as a Rocq string of ASCII characters. *)
Definition py (s : string) : str := map N_of_ascii (list_ascii_of_string s).

(** The same, with every apostrophe of [s] standing for a double quote
    (code point 34): JSON texts are written this way below. *)
Definition pyq (s : string) : str :=
  map (fun c => if (c =? 39)%N then 34%N else c) (py s).

Module PyStr.

(** [str.isspace] on one code point: the characters [str.strip] removes. *)
Definition isspace (c : N) : bool :=
  ((9 <=? c) && (c <=? 13) || (28 <=? c) && (c <=? 32)
   || (c =? 133) || (c =? 160) || (c =? 5760)
   || (8192 <=? c) && (c <=? 8202)
   || (c =? 8232) || (c =? 8233) || (c =? 8239) || (c =? 8287)
   || (c =? 12288))%N.

Fixpoint lstrip (s : str) : str :=
  match s with
  | c :: s' => if isspace c then lstrip s' else s
  | [] => []
  end.

Definition rstrip (s : str) : str := rev (lstrip (rev s)).

(** [s.strip()] *)
Definition strip (s : str) : str := rstrip (lstrip s).

Definition eqc (a b : N) : bool := (a =? b)%N.

(** [s.startswith(p)] *)
Fixpoint startswith (p s : str) : bool :=
  match p, s with
  | [], _ => true
  | a :: p', b :: s' => eqc a b && startswith p' s'
  | _ :: _, [] => false
  end.

(** [p in s] *)
Fixpoint contains (p s : str) : bool :=
  startswith p s || match s with [] => false | _ :: s' => contains p s' end.

(** The number of positions of [s] at which [p] starts. *)
Fixpoint occurrences (p s : str) : nat :=
  (if startswith p s then 1 else 0)
  + match s with [] => 0 | _ :: s' => occurrences p s' end.

(** The text before and the text after the leftmost occurrence of [sep]
    ([str.partition] without its middle), [None] when there is none. *)
Fixpoint cut (sep s : str) : option (str * str) :=
  if startswith sep s then Some ([], skipn (length sep) s)
  else match s with
       | [] => None
       | c :: s' =>
           match cut sep s' with
           | Some (a, b) => Some (c :: a, b)
           | None => None
           end
       end.

(** The text before the leftmost [sep], all of [s] when there is none:
    the first piece of a split. *)
Definition piece (sep s : str) : str :=
  match cut sep s with
  | Some (a, _) => a
  | None => s
  end.

Fixpoint split_fuel (fuel : nat) (sep s : str) : list str :=
  match cut sep s with
  | None => [s]
  | Some (a, b) =>
      match fuel with
      | O => [a]
      | S f => a :: split_fuel f sep b
      end
  end.

(** [s.split(sep)] for a separator that is not empty (Python raises
    [ValueError] on the empty one; the source only splits on ["TASK"] and
    ["{surface}"]).  Every cut consumes the separator, so the length of
    [s] is fuel enough. *)
Definition split (sep s : str) : list str := split_fuel (length s) sep s.

(** [sep.join(l)] *)
Fixpoint join (sep : str) (l : list str) : str :=
  match l with
  | [] => []
  | [x] => x
  | x :: l' => x ++ sep ++ join sep l'
  end.

(** [s.replace(old, new)] *)
Definition replace (old new s : str) : str := join new (split old s).

(** [s[a:-b]] for literal offsets [a] and [b > 0]. *)
Definition slice (a b : nat) (s : str) : str :=
  firstn (length s - b - a) (skipn a s).

Definition upper1 (c : N) : N :=
  if ((97 <=? c) && (c <=? 122))%N then (c - 32)%N else c.
Definition lower1 (c : N) : N :=
  if ((65 <=? c) && (c <=? 90))%N then (c + 32)%N else c.

(** [s.lower()] and [s.capitalize()], on the letters of ASCII; other
    characters are left as they are. *)
Definition lower (s : str) : str := map lower1 s.
Definition capitalize (s : str) : str :=
  match s with
  | [] => []
  | c :: s' => upper1 c :: lower s'
  end.

End PyStr.

(** ** Python values

    The values [json.loads] builds and [json.dump] writes.  A [dict] keeps
    its keys in insertion order, so it is an association list whose keys
    are strings.  A float is kept as the literal that denotes it: Python
    rounds the literal to a double when it reads it and writes the double's
    shortest literal, which denotes the same double; nothing below depends
    on which of the two stands in a file. *)
Module Py.

Inductive value : Type :=
| PyNone
| PyBool (b : bool)
| PyInt (z : Z)
| PyFloat (lit : str)
| PyStr (s : str)
| PyList (l : list value)
| PyDict (d : list (str * value)).

Definition str_eqb (a b : str) : bool := bool_decide (a = b).

(** [k in d] *)
Fixpoint dict_has (k : str) (d : list (str * value)) : bool :=
  match d with
  | [] => false
  | (k', _) :: d' => str_eqb k k' || dict_has k d'
  end.

(** [d.get(k)], [None] of Rocq when the key is absent. *)
Fixpoint dict_lookup (k : str) (d : list (str * value)) : option value :=
  match d with
  | [] => None
  | (k', v) :: d' => if str_eqb k k' then Some v else dict_lookup k d'
  end.

(** [d[k] = v]: a key already there keeps its place. *)
Fixpoint dict_set (k : str) (v : value) (d : list (str * value))
  : list (str * value) :=
  match d with
  | [] => [(k, v)]
  | (k', v') :: d' =>
      if str_eqb k k' then (k', v) :: d' else (k', v') :: dict_set k v d'
  end.

(** [dict(pairs)] *)
Definition dict_of_pairs (pairs : list (str * value)) : list (str * value) :=
  fold_left (fun d kv => dict_set (fst kv) (snd kv) d) pairs [].

End Py.
Export Py.

(** ** The [json] module: [dump], [dumps], [load], [loads]

    The writer escapes as [ensure_ascii=True] does; the reader is the
    strict scanner of [json.decoder].  Python's limits on the number of
    digits of an integer and on the depth of nesting are not modelled. *)
Module Json.

(** *** Writing *)

Definition hexdigit (d : N) : N :=
  if (d <? 10)%N then (48 + d)%N else (87 + d)%N.

(** [\uXXXX] for a code unit below 65536. *)
Definition u_escape (c : N) : str :=
  [92; 117; hexdigit (c / 4096); hexdigit ((c / 256) mod 16);
   hexdigit ((c / 16) mod 16); hexdigit (c mod 16)]%N.

Definition encode_char (c : N) : str :=
  if (c =? 34)%N then py "\" ++ [34%N]
  else if (c =? 92)%N then py "\\"
  else if (c =? 10)%N then py "\n"
  else if (c =? 13)%N then py "\r"
  else if (c =? 9)%N then py "\t"
  else if (c =? 8)%N then py "\b"
  else if (c =? 12)%N then py "\f"
  else if ((32 <=? c) && (c <=? 126))%N then [c]
  else if (c <? 65536)%N then u_escape c
  else u_escape (55296 + ((c - 65536) / 1024) mod 1024)
       ++ u_escape (56320 + (c - 65536) mod 1024).

(** A string literal: [py_encode_basestring_ascii]. *)
Definition encode_str (s : str) : str :=
  [34%N] ++ flat_map encode_char s ++ [34%N].

Fixpoint digits_fuel (fuel : nat) (n : N) (acc : str) : str :=
  match fuel with
  | O => acc
  | S f =>
      if (n <? 10)%N then (48 + n)%N :: acc
      else digits_fuel f (n / 10)%N ((48 + n mod 10)%N :: acc)
  end.

(** The decimal digits of [n]; it has no more of them than bits. *)
Definition digits (n : N) : str := digits_fuel (S (N.to_nat (N.size n))) n [].

(** [int.__repr__] *)
Definition encode_int (z : Z) : str :=
  if (z <? 0)%Z then 45%N :: digits (Z.to_N (- z)) else digits (Z.to_N z).

(** A line break and the indentation of [level], when there is an indent. *)
Definition newline_indent (indent : option nat) (level : nat) : str :=
  match indent with
  | None => []
  | Some n => 10%N :: repeat 32%N (n * level)
  end.

Definition item_separator (indent : option nat) (level : nat) : str :=
  match indent with
  | None => py ", "
  | Some _ => py "," ++ newline_indent indent level
  end.

(** [json.dumps(v, indent=indent)], at nesting depth [level]. *)
Fixpoint encode (indent : option nat) (level : nat) (v : value) : str :=
  match v with
  | PyNone => py "null"
  | PyBool true => py "true"
  | PyBool false => py "false"
  | PyInt z => encode_int z
  | PyFloat lit => lit
  | PyStr s => encode_str s
  | PyList [] => py "[]"
  | PyList (x :: l) =>
      py "[" ++ newline_indent indent (S level)
      ++ encode indent (S level) x
      ++ (fix items (l : list value) : str :=
            match l with
            | [] => []
            | y :: l' =>
                item_separator indent (S level)
                ++ encode indent (S level) y ++ items l'
            end) l
      ++ newline_indent indent level ++ py "]"
  | PyDict [] => py "{}"
  | PyDict ((k, x) :: d) =>
      py "{" ++ newline_indent indent (S level)
      ++ encode_str k ++ py ": " ++ encode indent (S level) x
      ++ (fix items (d : list (str * value)) : str :=
            match d with
            | [] => []
            | (k', y) :: d' =>
                item_separator indent (S level)
                ++ encode_str k' ++ py ": "
                ++ encode indent (S level) y ++ items d'
            end) d
      ++ newline_indent indent level ++ py "}"
  end.

Definition dumps (indent : option nat) (v : value) : str := encode indent 0 v.

(** *** Reading *)

Definition is_ws (c : N) : bool :=
  ((c =? 32) || (c =? 9) || (c =? 10) || (c =? 13))%N.

Fixpoint skip_ws (s : str) : str :=
  match s with
  | c :: r => if is_ws c then skip_ws r else s
  | [] => []
  end.

Definition is_digit (c : N) : bool := ((48 <=? c) && (c <=? 57))%N.

(** The longest run of digits at the head of [s], and what follows it. *)
Fixpoint span_digits (s : str) : str * str :=
  match s with
  | c :: r =>
      if is_digit c then let '(ds, r') := span_digits r in (c :: ds, r')
      else ([], s)
  | [] => ([], [])
  end.

Definition digits_value (ds : str) : N :=
  fold_left (fun a d => (10 * a + (d - 48))%N) ds 0%N.

Definition hexval (c : N) : option N :=
  if is_digit c then Some (c - 48)%N
  else if ((97 <=? c) && (c <=? 102))%N then Some (c - 87)%N
  else if ((65 <=? c) && (c <=? 70))%N then Some (c - 55)%N
  else None.

Definition hex4 (a b c d : N) : option N :=
  match hexval a, hexval b, hexval c, hexval d with
  | Some x, Some y, Some z, Some t => Some (4096 * x + 256 * y + 16 * z + t)%N
  | _, _, _, _ => None
  end.

Definition is_high_surrogate (u : N) : bool := ((55296 <=? u) && (u <=? 56319))%N.
Definition is_low_surrogate (u : N) : bool := ((56320 <=? u) && (u <=? 57343))%N.
Definition join_surrogates (hi lo : N) : N :=
  (65536 + (hi - 55296) * 1024 + (lo - 56320))%N.

Definition simple_escape (e : N) : option N :=
  if (e =? 34)%N then Some 34%N
  else if (e =? 92)%N then Some 92%N
  else if (e =? 47)%N then Some 47%N
  else if (e =? 98)%N then Some 8%N
  else if (e =? 102)%N then Some 12%N
  else if (e =? 110)%N then Some 10%N
  else if (e =? 114)%N then Some 13%N
  else if (e =? 116)%N then Some 9%N
  else None.

(** The low surrogate a [\uXXXX] at the head of [s] denotes, if any. *)
Definition low_escape (s : str) : option N :=
  match s with
  | b :: u :: r =>
      if ((b =? 92) && (u =? 117))%N then
        match r with
        | k1 :: k2 :: k3 :: k4 :: _ =>
            match hex4 k1 k2 k3 k4 with
            | Some lo => if is_low_surrogate lo then Some lo else None
            | None => None
            end
        | _ => None
        end
      else None
  | _ => None
  end.

(** [scanstring] from just after the opening quote: the string and what
    follows its closing quote. *)
Fixpoint scanstring (s : str) : option (str * str) :=
  match s with
  | [] => None
  | c :: r =>
      if (c =? 34)%N then Some ([], r)
      else if (c =? 92)%N then
        match r with
        | [] => None
        | e :: r1 =>
            if (e =? 117)%N then
              match r1 with
              | h1 :: h2 :: h3 :: h4 :: r2 =>
                  match hex4 h1 h2 h3 h4 with
                  | None => None
                  | Some u =>
                      match (if is_high_surrogate u then low_escape r2 else None), r2 with
                      | Some lo, _ :: _ :: _ :: _ :: _ :: _ :: r3 =>
                          match scanstring r3 with
                          | Some (k, t) => Some (join_surrogates u lo :: k, t)
                          | None => None
                          end
                      | _, _ =>
                          match scanstring r2 with
                          | Some (k, t) => Some (u :: k, t)
                          | None => None
                          end
                      end
                  end
              | _ => None
              end
            else
              match simple_escape e with
              | Some x =>
                  match scanstring r1 with
                  | Some (k, t) => Some (x :: k, t)
                  | None => None
                  end
              | None => None
              end
        end
      else if (c <? 32)%N then None
      else
        match scanstring r with
        | Some (k, t) => Some (c :: k, t)
        | None => None
        end
  end.

(** The integer part of a number: [0] or a digit from 1 to 9 and the digits
    after it. *)
Definition scan_int (s : str) : option (str * str) :=
  match s with
  | c :: r =>
      if (c =? 48)%N then Some ([c], r)
      else if is_digit c then Some (span_digits s)
      else None
  | [] => None
  end.

(** [(\.\d+)?] *)
Definition scan_frac (s : str) : str * str :=
  match s with
  | c :: r =>
      if (c =? 46)%N then
        match span_digits r with
        | ([], _) => ([], s)
        | (ds, r') => (c :: ds, r')
        end
      else ([], s)
  | [] => ([], s)
  end.

(** [([eE][-+]?\d+)?] *)
Definition scan_exp (s : str) : str * str :=
  match s with
  | c :: r =>
      if ((c =? 101) || (c =? 69))%N then
        let '(sign, r1) :=
          match r with
          | g :: r' => if ((g =? 45) || (g =? 43))%N then ([g], r') else ([], r)
          | [] => ([], r)
          end in
        match span_digits r1 with
        | ([], _) => ([], s)
        | (ds, r2) => (c :: sign ++ ds, r2)
        end
      else ([], s)
  | [] => ([], s)
  end.

(** [NUMBER_RE] and the choice between [int] and [float]. *)
Definition scan_number (s : str) : option (value * str) :=
  let '(sign, s1) :=
    match s with
    | c :: r => if (c =? 45)%N then ([c], r) else ([], s)
    | [] => ([], s)
    end in
  match scan_int s1 with
  | None => None
  | Some (int, s2) =>
      let '(frac, s3) := scan_frac s2 in
      let '(exp, s4) := scan_exp s3 in
      match frac, exp with
      | [], [] =>
          Some (PyInt (if sign is [] then Z.of_N (digits_value int)
                       else (- Z.of_N (digits_value int))%Z), s4)
      | _, _ => Some (PyFloat (sign ++ int ++ frac ++ exp), s4)
      end
  end.

(** The words of the scanner, tried in its order after the number. *)
Definition scan_word (s : str) : option (value * str) :=
  if PyStr.startswith (py "null") s then Some (PyNone, skipn 4 s)
  else if PyStr.startswith (py "true") s then Some (PyBool true, skipn 4 s)
  else if PyStr.startswith (py "false") s then Some (PyBool false, skipn 5 s)
  else
    match scan_number s with
    | Some r => Some r
    | None =>
        if PyStr.startswith (py "NaN") s then Some (PyFloat (py "NaN"), skipn 3 s)
        else if PyStr.startswith (py "Infinity") s
        then Some (PyFloat (py "Infinity"), skipn 8 s)
        else if PyStr.startswith (py "-Infinity") s
        then Some (PyFloat (py "-Infinity"), skipn 9 s)
        else None
    end.

(** [scan_once], [JSONArray] and [JSONObject]: a value at the head of [s]
    and what follows it.  Each call passes on less fuel than it got. *)
Fixpoint scan_once (fuel : nat) (s : str) {struct fuel} : option (value * str) :=
  match fuel with
  | O => None
  | S f =>
      match s with
      | [] => None
      | c :: r =>
          if (c =? 34)%N then
            match scanstring r with
            | Some (k, t) => Some (PyStr k, t)
            | None => None
            end
          else if (c =? 123)%N then
            match skip_ws r with
            | c' :: r' =>
                if (c' =? 125)%N then Some (PyDict [], r')
                else
                  match object_items f (skip_ws r) with
                  | Some (pairs, t) => Some (PyDict (dict_of_pairs pairs), t)
                  | None => None
                  end
            | [] => None
            end
          else if (c =? 91)%N then
            match skip_ws r with
            | c' :: r' =>
                if (c' =? 93)%N then Some (PyList [], r')
                else
                  match array_items f (skip_ws r) with
                  | Some (l, t) => Some (PyList l, t)
                  | None => None
                  end
            | [] => None
            end
          else scan_word s
      end
  end
with array_items (fuel : nat) (s : str) {struct fuel} : option (list value * str) :=
  match fuel with
  | O => None
  | S f =>
      match scan_once f s with
      | None => None
      | Some (v, r) =>
          match skip_ws r with
          | c :: r' =>
              if (c =? 93)%N then Some ([v], r')
              else if (c =? 44)%N then
                match array_items f (skip_ws r') with
                | Some (l, t) => Some (v :: l, t)
                | None => None
                end
              else None
          | [] => None
          end
      end
  end
with object_items (fuel : nat) (s : str) {struct fuel}
  : option (list (str * value) * str) :=
  match fuel with
  | O => None
  | S f =>
      match s with
      | q :: r =>
          if (q =? 34)%N then
            match scanstring r with
            | None => None
            | Some (k, r1) =>
                match skip_ws r1 with
                | c :: r2 =>
                    if (c =? 58)%N then
                      match scan_once f (skip_ws r2) with
                      | None => None
                      | Some (v, r3) =>
                          match skip_ws r3 with
                          | c' :: r4 =>
                              if (c' =? 125)%N then Some ([(k, v)], r4)
                              else if (c' =? 44)%N then
                                match object_items f (skip_ws r4) with
                                | Some (d, t) => Some ((k, v) :: d, t)
                                | None => None
                                end
                              else None
                          | [] => None
                          end
                      end
                    else None
                | [] => None
                end
            end
          else None
      | [] => None
      end
  end.

(** [json.loads(s)] for a [str]: [None] stands for [JSONDecodeError].  The
    fuel is more than any text needs ([loads_fuel] below), so that no text
    is rejected for want of it. *)
Definition loads (s : str) : option value :=
  if PyStr.startswith [65279%N] s then None
  else
    match scan_once (3 * length s + 3) (skip_ws s) with
    | Some (v, r) => if skip_ws r is [] then Some v else None
    | None => None
    end.

(** *** Values that come back as they went

    What [json.dump] writes is read back as the same value when: no string
    holds a code point beyond the last one of Unicode, or a high surrogate
    right before a low one (the reader would join the two); a float is a
    number of JSON, with a fraction or an exponent, and not one of the
    words [NaN], [Infinity] and [-Infinity], which JSON does not have; and
    the keys of a [dict] differ from one another, as the keys of a [dict]
    do. *)

Fixpoint no_surrogate_pair (s : str) : bool :=
  match s with
  | c :: s' =>
      match s' with
      | d :: _ => negb (is_high_surrogate c && is_low_surrogate d)
      | [] => true
      end && no_surrogate_pair s'
  | [] => true
  end.

Definition text_ok (s : str) : bool :=
  forallb (fun c => (c <=? 1114111)%N) s && no_surrogate_pair s.

Definition float_literal (lit : str) : bool :=
  match scan_number lit with
  | Some (PyFloat l, []) => bool_decide (l = lit)
  | _ => false
  end.

Fixpoint representable (v : value) : bool :=
  match v with
  | PyNone | PyBool _ | PyInt _ => true
  | PyFloat lit => float_literal lit
  | PyStr s => text_ok s
  | PyList l => forallb representable l
  | PyDict d =>
      forallb (fun kv => text_ok (fst kv) && representable (snd kv)) d
      && bool_decide (NoDup (map fst d))
  end.

(** The characters a JSON value can start with. *)
Definition value_start (c : N) : bool :=
  ((c =? 34) || (c =? 45) || is_digit c || (c =? 73) || (c =? 78) || (c =? 91)
   || (c =? 102) || (c =? 110) || (c =? 116) || (c =? 123))%N.

(** The characters that follow a value in what [dumps] writes: a comma, a
    line break, or a closing bracket or brace; or nothing at all. *)
Definition delimited (rest : str) : bool :=
  match rest with
  | [] => true
  | c :: _ => ((c =? 44) || (c =? 10) || (c =? 93) || (c =? 125))%N
  end.

(** *** Truth values *)

(** The exponent a literal's [e...] part denotes. *)
Definition exp_value (exp : str) : Z :=
  match exp with
  | _ :: g :: ds =>
      if (g =? 45)%N then (- Z.of_N (digits_value ds))%Z
      else if (g =? 43)%N then Z.of_N (digits_value ds)
      else Z.of_N (digits_value (g :: ds))
  | _ => 0%Z
  end.

(** Whether the double a float literal denotes is zero: its digits are all
    zero, or it lies at most half the least positive double, [2^-1075],
    from zero. *)
Definition float_is_zero (lit : str) : bool :=
  let s1 :=
    match lit with
    | c :: r => if (c =? 45)%N then r else lit
    | [] => lit
    end in
  match scan_int s1 with
  | None => false
  | Some (int, s2) =>
      let '(frac, s3) := scan_frac s2 in
      let '(exp, _) := scan_exp s3 in
      let m := Z.of_N (digits_value (int ++ tl frac)) in
      let e := (exp_value exp - Z.of_nat (length (tl frac)))%Z in
      ((m =? 0) || (e <? 0) && (m * 2 ^ 1075 <=? 10 ^ (- e)))%Z
  end.

(** The truth value of an object, as [if x] and [x or y] read it. *)
Definition truthy (v : value) : bool :=
  match v with
  | PyNone => false
  | PyBool b => b
  | PyInt z => negb (z =? 0)%Z
  | PyFloat lit => negb (float_is_zero lit)
  | PyStr s => negb (bool_decide (s = []))
  | PyList l => negb (bool_decide (l = []))
  | PyDict d => negb (bool_decide (d = []))
  end.

End Json.

(** ** Exceptions, the world of a run, and the monad of a run *)
Module Run.

(** The classes of exception the two programs tell apart: [except
    json.JSONDecodeError] takes the third only, [except Exception] all of
    them.  [LibraryError] is any other exception a library raises. *)
Inductive exn_class : Type :=
| IndexError | ValueError | JSONDecodeError | TypeError | AttributeError
| OSError | LibraryError.

(** An exception; [exn_msg e] is [str(e)]. *)
Record exn : Type := Exn { exn_kind : exn_class; exn_msg : str }.

(** A text file, or one that exists and cannot be read. *)
Inductive file : Type :=
| Text (content : str)
| Unreadable (e : exn).

(** The provider tag [get_llm_client_and_model] returns: ["openai"] or
    ["google"]. *)
Inductive provider : Type := OpenAIProvider | GoogleProvider.

(** The client object: [OpenAI(api_key=...)] or, after
    [genai.configure(api_key=...)], [genai.GenerativeModel(model_name)]. *)
Inductive client : Type :=
| OpenAIClient (api_key : str)
| GenerativeModel (api_key : str) (model_name : str).

(** An attribute of a response object that should hold a string:
    [hasattr] is false, or the value is [None], or it is a [str]. *)
Inductive attr : Type := NoAttr | AttrNone | AttrStr (s : str).

Record prompt_feedback : Type := {
  block_reason : option str;
  block_reason_message : option str
}.

(** What [generate_content] returns.  An object one of whose attributes
    raises when read is the same to the caller as a call that raises. *)
Record gemini_response : Type := {
  resp_text : attr;
  resp_parts : option (list attr);
  resp_prompt_feedback : option prompt_feedback
}.

(** One row of the table [qsr_reports]. *)
Record report_row : Type := {
  report_ts : Z;
  narrative : value;
  risk_vector : str;
  macro_patterns : str;
  recommended_action : str;
  raw_json : str
}.

(** The database file: the windowed tables, each a name and its rows (a
    row is written as the JSON record [DataFrame.to_json] makes of it), and
    the table [qsr_reports] once it has been created. *)
Record Database : Type := {
  tables : list (str * list str);
  qsr_reports : option (list report_row)
}.

(** What the programs ask of DuckDB. *)
Inductive db_op : Type :=
| Connect (read_only : bool)
| ShowTables
| SelectAll (table : str)
| CreateReports
| InsertReport (narrative : value) (risk macro action raw : str).

(** What a run does to its surroundings besides writing files and rows. *)
Inductive event : Type :=
| Getenv (name : str)
| LLMRequest (p : provider) (model system user : str)
| Db (op : db_op).

Record World : Type := {
  (** read only *)
  environ : gmap str str;
  openai_installed : bool;
  genai_installed : bool;
  openai_create : str -> str -> str -> exn + option str;
  generate_content : str -> str -> exn + gemini_response;
  decode_error : str -> str;
  duckdb_fault : db_op -> option exn;
  now : Z;
  (** read and written *)
  files : gmap str file;
  database : option Database;
  log : list event
}.

Definition set_files (f : gmap str file) (w : World) : World :=
  {| environ := environ w; openai_installed := openai_installed w;
     genai_installed := genai_installed w; openai_create := openai_create w;
     generate_content := generate_content w; decode_error := decode_error w;
     duckdb_fault := duckdb_fault w; now := now w;
     files := f; database := database w; log := log w |}.

Definition set_database (d : option Database) (w : World) : World :=
  {| environ := environ w; openai_installed := openai_installed w;
     genai_installed := genai_installed w; openai_create := openai_create w;
     generate_content := generate_content w; decode_error := decode_error w;
     duckdb_fault := duckdb_fault w; now := now w;
     files := files w; database := d; log := log w |}.

Definition set_log (l : list event) (w : World) : World :=
  {| environ := environ w; openai_installed := openai_installed w;
     genai_installed := genai_installed w; openai_create := openai_create w;
     generate_content := generate_content w; decode_error := decode_error w;
     duckdb_fault := duckdb_fault w; now := now w;
     files := files w; database := database w; log := l |}.

Definition add_event (ev : event) (w : World) : World := set_log (log w ++ [ev]) w.

(** How a computation ends: with a value, with an exception on its way up,
    or with [sys.exit(code)], which [except Exception] does not catch. *)
Inductive res (A : Type) : Type :=
| Ok (a : A)
| Raise (e : exn)
| SysExit (code : Z).
Arguments Ok {A} a.
Arguments Raise {A} e.
Arguments SysExit {A} code.

Definition M (A : Type) : Type := World -> res A * World.

Definition ret {A} (a : A) : M A := fun w => (Ok a, w).

Definition bind {A B} (m : M A) (k : A -> M B) : M B :=
  fun w =>
    match m w with
    | (Ok a, w') => k a w'
    | (Raise e, w') => (Raise e, w')
    | (SysExit c, w') => (SysExit c, w')
    end.

Definition raise {A} (e : exn) : M A := fun w => (Raise e, w).
Definition sys_exit {A} (code : Z) : M A := fun w => (SysExit code, w).

(** [try: m  except Exception as e: h e] *)
Definition try_except {A} (m : M A) (h : exn -> M A) : M A :=
  fun w =>
    match m w with
    | (Raise e, w') => h e w'
    | r => r
    end.

Definition ask {A} (f : World -> A) : M A := fun w => (Ok (f w), w).
Definition record (ev : event) : M unit := fun w => (Ok tt, add_event ev w).

(** A value or an exception a library hands back. *)
Definition lift {A} (r : exn + A) : M A :=
  match r with
  | inl e => raise e
  | inr a => ret a
  end.

(** [l[i]] *)
Definition item {A} (l : list A) (i : nat) : exn + A :=
  match nth_error l i with
  | Some x => inr x
  | None => inl (Exn IndexError (py "list index out of range"))
  end.

(** [os.getenv(name)] *)
Definition getenv (name : str) : M (option str) :=
  fun w => (Ok (environ w !! name), add_event (Getenv name) w).

(** [path.exists()] *)
Definition path_exists (path : str) : M bool :=
  ask (fun w => bool_decide (is_Some (files w !! path))).

(** [with open(path, 'r') as f: f.read()] *)
Definition read_text (path : str) : M str :=
  fun w =>
    match files w !! path with
    | Some (Text s) => (Ok s, w)
    | Some (Unreadable e) => (Raise e, w)
    | None => (Raise (Exn OSError (py "No such file or directory")), w)
    end.

(** [with open(path, 'w') as f: json.dump(v, f, indent=2)], after the
    directory of [path] has been made; making it and opening the file are
    taken to succeed. *)
Definition dump_to (path : str) (v : value) : M unit :=
  fun w => (Ok tt, set_files (<[path := Text (Json.dumps (Some 2) v)]> (files w)) w).

(** [json.loads(raw)] on what [query_llm] returned. *)
Definition loads (raw : option str) : M value :=
  match raw with
  | None =>
      raise (Exn TypeError
               (py "the JSON object must be str, bytes or bytearray, not NoneType"))
  | Some s =>
      match Json.loads s with
      | Some v => ret v
      | None => fun w => (Raise (Exn JSONDecodeError (decode_error w s)), w)
      end
  end.

(** One request to DuckDB: it is logged, and raises when the world says so. *)
Definition duckdb (op : db_op) : M unit :=
  fun w =>
    match duckdb_fault w op with
    | Some e => (Raise e, add_event (Db op) w)
    | None => (Ok tt, add_event (Db op) w)
    end.

End Run.
Export Run.

Declare Scope run_scope.
Delimit Scope run_scope with run.
Notation "'let*' x ':=' m 'in' k" := (bind m (fun x => k))
  (at level 10, x pattern, m at level 200, k at level 200) : run_scope.
Notation "'let+' x ':=' r 'in' k" :=
  (match r with inl e => inl e | inr x => k end)
  (at level 10, x pattern, r at level 200, k at level 200) : run_scope.

(** ** What the two programs share

    [aggregate_agent.py] repeats these parts of [platform_agent.py] (its
    comments say so); where the two copies differ, each module below has
    its own. *)
Module Shared.
Local Open Scope run_scope.

Definition DEFAULT_LLM_MODEL : str := py "gpt-4o-mini".

(** A line break, ["\n"] of Python. *)
Definition nl : str := [10%N].

(** The literal marker that divides a prompt template. *)
Definition TASK : str := py "TASK".

(** [not s] for a value of [os.getenv]: unset or empty. *)
Definition unset (v : option str) : bool :=
  match v with
  | None => true
  | Some s => bool_decide (s = [])
  end.

(** The branches of [get_llm_client_and_model], which are the same in both
    files; [no_key] and [no_library] are the two messages, which are not. *)
Definition get_llm_client_and_model_with (no_key no_library : str)
  : M (client * str * provider) :=
  let* api_key := getenv (py "LLM_API_KEY") in
  let* model_env := getenv (py "LLM_MODEL") in
  let model_preference := default DEFAULT_LLM_MODEL model_env in
  let* openai := ask openai_installed in
  let* genai := ask genai_installed in
  if unset api_key then raise (Exn ValueError no_key)
  else
    let key := default [] api_key in
    if PyStr.startswith (py "gpt") model_preference && openai
    then ret (OpenAIClient key, model_preference, OpenAIProvider)
    else if PyStr.startswith (py "gemini") model_preference && genai
    then ret (GenerativeModel key model_preference, model_preference, GoogleProvider)
    else if openai
    then ret (OpenAIClient key, model_preference, OpenAIProvider)
    else if genai
    then
      let gemini_model_name :=
        if PyStr.startswith (py "gemini") model_preference
        then model_preference else py "gemini-pro" in
      ret (GenerativeModel key gemini_model_name, gemini_model_name, GoogleProvider)
    else raise (Exn ValueError no_library).

(** The tail of [query_llm]'s Gemini branch: "Clean up potential markdown
    formatting around JSON". *)
Definition clean_markdown (json_text : str) : str :=
  if PyStr.startswith (py "```json") (PyStr.strip json_text)
  then PyStr.strip (PyStr.slice 7 3 (PyStr.strip json_text))
  else if PyStr.startswith (py "```") (PyStr.strip json_text)
  then PyStr.strip (PyStr.slice 3 3 (PyStr.strip json_text))
  else json_text.

(** [x and x.text] read as a condition: the attribute is there and holds
    a string that is not empty. *)
Definition attr_truthy (a : attr) : bool :=
  match a with
  | AttrStr s => negb (bool_decide (s = []))
  | _ => false
  end.

(** [hasattr(x, 'text')] *)
Definition has_attr (a : attr) : bool :=
  match a with
  | NoAttr => false
  | _ => true
  end.

Definition attr_str (a : attr) : str :=
  match a with
  | AttrStr s => s
  | _ => []
  end.

(** The two [raise ValueError] of the Gemini branch when no text was found;
    [no_text] is the message of the second, which differs between the
    files. *)
Definition no_text_error (no_text : str) (response : gemini_response) : exn :=
  match resp_prompt_feedback response with
  | Some fb =>
      match block_reason fb with
      | Some reason =>
          if bool_decide (reason = []) then Exn ValueError no_text
          else
            Exn ValueError
              (py "Gemini content generation stopped due to: "
               ++ (if unset (block_reason_message fb) then reason
                   else default [] (block_reason_message fb)))
      | None => Exn ValueError no_text
      end
  | None => Exn ValueError no_text
  end.

(** [query_llm]; [extract] is the way the file reads the text of a Gemini
    response, and [no_text] its message when there is none. *)
Definition query_llm_with (extract : gemini_response -> exn + str) (no_text : str)
    (client_or_model : client) (model_name : str) (llm_provider : provider)
    (system_prompt user_content : str) : M (option str) :=
  match llm_provider, client_or_model with
  | OpenAIProvider, OpenAIClient _ =>
      let* _ := record (LLMRequest OpenAIProvider model_name system_prompt user_content) in
      let* create := ask openai_create in
      lift (create model_name system_prompt user_content)
  | GoogleProvider, GenerativeModel _ name =>
      let full_prompt := system_prompt ++ nl ++ nl ++ user_content in
      let* _ := record (LLMRequest GoogleProvider name system_prompt user_content) in
      let* generate := ask generate_content in
      let* response := lift (generate name full_prompt) in
      let* json_text := lift (extract response) in
      if bool_decide (json_text = []) then raise (no_text_error no_text response)
      else ret (Some (clean_markdown json_text))
  | _, _ =>
      raise (Exn AttributeError (py "object has no such attribute"))
  end.

End Shared.

(** ** [src/platform_agent.py]: the Platform Summarizer *)
Module Platform.
Local Open Scope run_scope.
Import Shared.

Definition get_llm_client_and_model : M (client * str * provider) :=
  get_llm_client_and_model_with
    (py "LLM_API_KEY environment variable not set.")
    (py "Neither OpenAI nor Google Generative AI libraries are installed, or LLM_MODEL is incompatible.").

(** [response.text] when it is there and not empty, else the texts of the
    parts that have one, put together. *)
Definition response_text (response : gemini_response) : exn + str :=
  if attr_truthy (resp_text response) then inr (attr_str (resp_text response))
  else
    match resp_parts response with
    | Some parts => inr (concat (map attr_str (filter (fun a => attr_truthy a = true) parts)))
    | None => inr []
    end.

Definition query_llm : client -> str -> provider -> str -> str -> M (option str) :=
  query_llm_with response_text
    (py "Could not extract text from Gemini response. Response may be empty or malformed.").

(** The two halves of the prompt template, as [main] computes them. *)
Definition system_prompt_content (platform_prompt_template surface : str) : exn + str :=
  match item (PyStr.split TASK platform_prompt_template) 0 with
  | inr before =>
      inr (PyStr.strip (PyStr.replace (py "{surface}") (PyStr.capitalize surface) before))
  | inl e => inl e
  end.

Definition user_task_instruction (platform_prompt_template : str) : exn + str :=
  match item (PyStr.split TASK platform_prompt_template) 1 with
  | inr after => inr (TASK ++ PyStr.strip after)
  | inl e => inl e
  end.

(** [DataFrame.to_json(orient="records")] of the rows of a table. *)
Definition to_json_records (rows : list str) : str :=
  py "[" ++ PyStr.join (py ",") rows ++ py "]".

(** The table a [SELECT * FROM name] reads: DuckDB compares the name
    without regard to case. *)
Fixpoint find_table (name : str) (ts : list (str * list str)) : option (list str) :=
  match ts with
  | [] => None
  | (n, rows) :: ts' =>
      if bool_decide (PyStr.lower n = PyStr.lower name) then Some rows
      else find_table name ts'
  end.

(** The names [SHOW TABLES] lists. *)
Definition show_tables (db : Database) : list str :=
  map fst (tables db)
  ++ (if qsr_reports db is Some _ then [py "qsr_reports"] else []).

(** The body of the [try] that reads the windowed table. *)
Definition read_window (surface : str) : M (list str) :=
  let* _ := duckdb (Connect true) in
  let* db := ask database in
  match db with
  | None => raise (Exn LibraryError (py "database does not exist"))
  | Some db =>
      let table_name := surface ++ py "_24h" in
      let* _ := duckdb ShowTables in
      if negb (existsb (fun t => PyStr.contains (PyStr.lower table_name) (PyStr.lower t))
                 (show_tables db))
      then sys_exit 1
      else
        let* _ := duckdb (SelectAll table_name) in
        match find_table table_name (tables db) with
        | Some rows => ret rows
        | None => raise (Exn LibraryError (py "table does not exist"))
        end
  end.

Definition empty_summary (surface : str) : value :=
  PyDict [(py "incidents", PyList []);
          (py "summary", PyStr (py "No activity recorded for " ++ surface
                                ++ py " in the last 24 hours."))].

Definition error_summary (surface : str) (e : exn) : value :=
  PyDict [(py "incidents", PyList []);
          (py "summary", PyStr (py "Error processing data for " ++ surface
                                ++ py ": " ++ exn_msg e));
          (py "error", PyBool true)].

(** The start of [main]: the prompt template and its two halves, then the
    rows of the windowed table. *)
Definition prepare (surface : str) : M (str * str * list str) :=
  let prompt_file := py "prompts/platform_prompt.txt" in
  let* found := path_exists prompt_file in
  if negb found then sys_exit 1
  else
    let* platform_prompt_template := read_text prompt_file in
    let* system_prompt_content :=
      lift (system_prompt_content platform_prompt_template surface) in
    let* user_task_instruction := lift (user_task_instruction platform_prompt_template) in
    let* db := ask database in
    if negb (bool_decide (is_Some db)) then sys_exit 1
    else
      let* data_df := try_except (read_window surface) (fun e => sys_exit 1) in
      ret (system_prompt_content, user_task_instruction, data_df).

(** The middle of [main]: [summary_data], from an empty table, from the
    LLM, or from the exception on the way. *)
Definition summarize (surface system_prompt_content user_task_instruction : str)
    (data_df : list str) : M value :=
  if bool_decide (data_df = []) then ret (empty_summary surface)
  else
    let events_json_str := to_json_records data_df in
    let user_content_for_llm :=
      py "Analyze the following user activity events for surface '"
      ++ surface ++ py "'. The events are provided as a JSON array:" ++ nl
      ++ events_json_str ++ nl ++ nl ++ user_task_instruction in
    try_except
      (let* (client, model_name, llm_provider) := get_llm_client_and_model in
       let* raw_llm_response_str :=
         query_llm client model_name llm_provider
           system_prompt_content user_content_for_llm in
       loads raw_llm_response_str)
      (fun e => ret (error_summary surface e)).

(** [main], given [--surface] and [--out]. *)
Definition main (surface out : str) : M unit :=
  let* (system_prompt_content, user_task_instruction, data_df) := prepare surface in
  let* summary_data :=
    summarize surface system_prompt_content user_task_instruction data_df in
  dump_to out summary_data.

End Platform.

(** ** [src/aggregate_agent.py]: the Aggregator *)
Module Aggregate.
Local Open Scope run_scope.
Import Shared.

Definition PLATFORM_SURFACES : list str := [py "gemini"; py "imagen"; py "search"].

Definition get_llm_client_and_model : M (client * str * provider) :=
  get_llm_client_and_model_with (py "LLM_API_KEY not set.") (py "LLM client setup failed.").

(** The index of the first item of [items] that is [None], if any. *)
Fixpoint first_none (items : list attr) (i : nat) : option nat :=
  match items with
  | [] => None
  | AttrNone :: _ => Some i
  | _ :: items' => first_none items' (S i)
  end.

(** ["".join(p.text for p in resp.parts if hasattr(p, 'text'))] *)
Definition join_parts (parts : list attr) : exn + str :=
  let items := filter (fun a => has_attr a = true) parts in
  match first_none items 0 with
  | Some i =>
      inl (Exn TypeError
             (py "sequence item " ++ Json.digits (N.of_nat i)
              ++ py ": expected str instance, NoneType found"))
  | None => inr (concat (map attr_str items))
  end.

Definition response_text (resp : gemini_response) : exn + str :=
  if attr_truthy (resp_text resp) then inr (attr_str (resp_text resp))
  else
    match resp_parts resp with
    | Some [] | None => inr []
    | Some parts => join_parts parts
    end.

Definition query_llm : client -> str -> provider -> str -> str -> M (option str) :=
  query_llm_with response_text (py "No text from Gemini response").

(** The two halves of the prompt template, as [main] computes them. *)
Definition system_prompt_content (aggregate_prompt_template : str) : exn + str :=
  match item (PyStr.split TASK aggregate_prompt_template) 0 with
  | inr before => inr (PyStr.strip before)
  | inl e => inl e
  end.

Definition user_task_instruction (aggregate_prompt_template : str) : exn + str :=
  match item (PyStr.split TASK aggregate_prompt_template) 1 with
  | inr after => inr (TASK ++ PyStr.strip after)
  | inl e => inl e
  end.

Definition pss_file (surface : str) : str := surface ++ py ".pss.json".

(** The object that stands in for a summary that is missing or malformed. *)
Definition placeholder (error summary : str) : value :=
  PyDict [(py "error", PyStr error); (py "incidents", PyList []);
          (py "summary", PyStr summary)].

(** [isinstance(data, dict) and "incidents" in data and "summary" in data] *)
Definition valid_pss (data : value) : bool :=
  match data with
  | PyDict d => dict_has (py "incidents") d && dict_has (py "summary") d
  | _ => false
  end.

(** One turn of the loop over the surfaces: the entry for [surface] and
    whether it is a valid summary. *)
Definition load_pss (surface : str) : M (value * bool) :=
  let* found := path_exists (pss_file surface) in
  if found then
    try_except
      (let* text := read_text (pss_file surface) in
       let* data := loads (Some text) in
       if valid_pss data then ret (data, true)
       else ret (placeholder (py "Invalid structure in " ++ pss_file surface) [], false))
      (fun e =>
         match exn_kind e with
         | JSONDecodeError =>
             ret (placeholder (py "Invalid JSON in " ++ pss_file surface) [], false)
         | _ => ret (placeholder (exn_msg e) [], false)
         end)
  else
    ret (placeholder (py "File not found: " ++ pss_file surface)
           (py "Data not available"), false).

(** The loop: [platform_data_for_llm] and [found_any_pss] after it. *)
Fixpoint load_all (surfaces : list str) (platform_data_for_llm : list (str * value))
    (found_any_pss : bool) : M (list (str * value) * bool) :=
  match surfaces with
  | [] => ret (platform_data_for_llm, found_any_pss)
  | surface :: rest =>
      let* (data, valid) := load_pss surface in
      load_all rest (dict_set surface data platform_data_for_llm)
        (found_any_pss || valid)
  end.

Definition action (tier : Z) (justification : str) : value :=
  PyDict [(py "tier", PyInt tier); (py "justification", PyStr justification)].

Definition no_pss_qsr : value :=
  PyDict [(py "narrative",
           PyStr (py "Failed to generate QSR: No valid platform summaries were found or loaded."));
          (py "risk_vector", PyDict []); (py "macro_patterns", PyList []);
          (py "recommended_action", action (-1) (py "No platform data."));
          (py "error", PyBool true)].

Definition error_qsr (e : exn) : value :=
  PyDict [(py "narrative", PyStr (py "Error generating QSR: " ++ exn_msg e));
          (py "risk_vector", PyDict []); (py "macro_patterns", PyList []);
          (py "recommended_action", action (-1) (py "Error in QSR generation."));
          (py "error", PyBool true)].

(** [obj.get(key, default)]: only a [dict] has the method. *)
Definition get (key : str) (otherwise : value) (obj : value) : exn + value :=
  match obj with
  | PyDict d => inr (default otherwise (dict_lookup key d))
  | _ => inl (Exn AttributeError (py "object has no attribute 'get'"))
  end.

(** The five values [main] binds to the [INSERT]: the four fields, a
    missing one replaced by its default, and the whole report; all but the
    narrative go through [json.dumps]. *)
Definition report_values (qsr_data : value) : exn + (value * str * str * str * str) :=
  let+ error := get (py "error") PyNone qsr_data in
  let+ narrative_val :=
    get (py "narrative")
      (PyStr (if Json.truthy error then py "N/A due to error" else [])) qsr_data in
  let+ risk_vector_val := get (py "risk_vector") (PyDict []) qsr_data in
  let+ macro_patterns_val := get (py "macro_patterns") (PyList []) qsr_data in
  let+ error' := get (py "error") PyNone qsr_data in
  let+ recommended_action_val :=
    get (py "recommended_action")
      (if Json.truthy error' then action (-1) (py "N/A due to error") else PyDict [])
      qsr_data in
  inr (narrative_val, Json.dumps None risk_vector_val,
       Json.dumps None macro_patterns_val, Json.dumps None recommended_action_val,
       Json.dumps None qsr_data).

(** [duckdb.connect(..., read_only=False)] makes the database file when
    there is none. *)
Definition connect_rw : M unit :=
  let* _ := duckdb (Connect false) in
  fun w =>
    match database w with
    | Some _ => (Ok tt, w)
    | None => (Ok tt, set_database (Some {| tables := []; qsr_reports := None |}) w)
    end.

(** [CREATE TABLE IF NOT EXISTS qsr_reports (...)] *)
Definition create_reports : M unit :=
  let* _ := duckdb CreateReports in
  fun w =>
    match database w with
    | Some db =>
        match qsr_reports db with
        | Some _ => (Ok tt, w)
        | None =>
            (Ok tt, set_database (Some {| tables := tables db; qsr_reports := Some [] |}) w)
        end
    | None => (Raise (Exn LibraryError (py "connection is closed")), w)
    end.

(** [INSERT INTO qsr_reports (...) VALUES (?, ?, ?, ?, ?)]; [report_ts]
    takes its default, [now()]. *)
Definition insert_report (narrative : value) (risk macro action raw : str) : M unit :=
  let* _ := duckdb (InsertReport narrative risk macro action raw) in
  fun w =>
    match database w with
    | Some db =>
        match qsr_reports db with
        | Some rows =>
            (Ok tt,
             set_database
               (Some {| tables := tables db;
                        qsr_reports :=
                          Some (rows ++ [{| report_ts := now w; narrative := narrative;
                                            risk_vector := risk; macro_patterns := macro;
                                            recommended_action := action;
                                            raw_json := raw |}]) |}) w)
        | None => (Raise (Exn LibraryError (py "table does not exist")), w)
        end
    | None => (Raise (Exn LibraryError (py "connection is closed")), w)
    end.

(** The last [try] of [main]: the report goes into the database, and an
    exception on the way is printed and dropped. *)
Definition persist (qsr_data : value) : M unit :=
  try_except
    (let* _ := connect_rw in
     let* _ := create_reports in
     let* (narrative_val, risk, macro, action, raw) := lift (report_values qsr_data) in
     insert_report narrative_val risk macro action raw)
    (fun e => ret tt).

(** The start of [main]: the prompt template and its two halves. *)
Definition prepare (aggregate_prompt_file : str) : M (str * str) :=
  let* found := path_exists aggregate_prompt_file in
  if negb found then sys_exit 1
  else
    let* aggregate_prompt_template := read_text aggregate_prompt_file in
    let* system_prompt_content := lift (system_prompt_content aggregate_prompt_template) in
    let* user_task_instruction := lift (user_task_instruction aggregate_prompt_template) in
    ret (system_prompt_content, user_task_instruction).

(** The middle of [main]: [qsr_data], fixed when no summary is valid, else
    from the LLM or from the exception on the way. *)
Definition aggregate (system_prompt_content user_task_instruction : str)
    (platform_data_for_llm : list (str * value)) (found_any_pss : bool) : M value :=
  if negb found_any_pss then ret no_pss_qsr
  else
    let combined_pss_json_str := Json.dumps None (PyDict platform_data_for_llm) in
    let user_content_for_llm :=
      py "Aggregate the following platform safety summaries (provided as a JSON object where keys are platform names):"
      ++ nl ++ combined_pss_json_str ++ nl ++ nl ++ user_task_instruction in
    try_except
      (let* (client, model_name, llm_provider) := get_llm_client_and_model in
       let* raw_qsr_str :=
         query_llm client model_name llm_provider
           system_prompt_content user_content_for_llm in
       loads raw_qsr_str)
      (fun e => ret (error_qsr e)).

(** [main], given the path of the prompt template and that of the report. *)
Definition main (aggregate_prompt_file output_qsr_file : str) : M unit :=
  let* (system_prompt_content, user_task_instruction) := prepare aggregate_prompt_file in
  let* (platform_data_for_llm, found_any_pss) := load_all PLATFORM_SURFACES [] false in
  let* qsr_data :=
    aggregate system_prompt_content user_task_instruction
      platform_data_for_llm found_any_pss in
  let* _ := dump_to output_qsr_file qsr_data in
  persist qsr_data.

End Aggregate.

(** ** Worlds for examples, and the words of the specification *)
Module Spec.
Import Shared.

(** A world with nothing in it: no files, no database, no environment
    variable, no provider library; every request to a provider raises. *)
Definition bare : World :=
  {| environ := ∅; openai_installed := false; genai_installed := false;
     openai_create := fun _ _ _ => inl (Exn LibraryError (py "connection error"));
     generate_content := fun _ _ => inl (Exn LibraryError (py "connection error"));
     decode_error := fun _ => py "Expecting value";
     duckdb_fault := fun _ => None; now := 0;
     files := ∅; database := None; log := [] |}.

Definition with_environ (e : gmap str str) (w : World) : World :=
  {| environ := e; openai_installed := openai_installed w;
     genai_installed := genai_installed w; openai_create := openai_create w;
     generate_content := generate_content w; decode_error := decode_error w;
     duckdb_fault := duckdb_fault w; now := now w;
     files := files w; database := database w; log := log w |}.

(** The world [w] with the two provider libraries installed or not, and
    with the answers of the two providers. *)
Definition with_providers (openai genai : bool)
    (create : str -> str -> str -> exn + option str)
    (generate : str -> str -> exn + gemini_response) (w : World) : World :=
  {| environ := environ w; openai_installed := openai; genai_installed := genai;
     openai_create := create; generate_content := generate;
     decode_error := decode_error w;
     duckdb_fault := duckdb_fault w; now := now w;
     files := files w; database := database w; log := log w |}.


(** The content a Markdown code fence encloses, found by looking for the
    fences: what stands between the opening fence at the head of the
    stripped text and the next fence after it (the end of the text when
    there is none), stripped.  [None] when the text opens with no fence. *)
Definition enclosed_content (text : str) : option str :=
  let t := PyStr.strip text in
  if PyStr.startswith (py "```json") t
  then Some (PyStr.strip (PyStr.piece (py "```") (skipn 7 t)))
  else if PyStr.startswith (py "```") t
  then Some (PyStr.strip (PyStr.piece (py "```") (skipn 3 t)))
  else None.

(** A world with the key ["k"], the model name [model], and the OpenAI
    library alone. *)
Definition openai_only (model : str) : World :=
  with_environ (<[py "LLM_API_KEY" := py "k"]> (<[py "LLM_MODEL" := model]> ∅))
    (with_providers true false (openai_create bare) (generate_content bare) bare).

Definition with_files (f : gmap str file) (w : World) : World := set_files f w.
Definition with_database (d : option Database) (w : World) : World := set_database d w.

(** A world in which both programs can run: the two prompt templates, a
    database whose [search_24h] has one row and whose [imagen_24h] has
    none, the key and the OpenAI library, and an OpenAI that answers every
    request with [answer]. *)
Definition demo_files : gmap str file :=
  <[py "prompts/platform_prompt.txt" :=
      Text (py "You are the {surface} analyst. TASK: list the incidents as JSON.")]>
  (<[py "prompts/aggregate_prompt.txt" :=
      Text (py "You write the safety report. TASK: aggregate as JSON.")]> ∅).

Definition demo_database : Database :=
  {| tables := [(py "search_24h", [pyq "{'user_id':'demo_user','text':'how to scam'}"]);
                (py "imagen_24h", [])];
     qsr_reports := None |}.

Definition demo (answer : option str) : World :=
  with_files demo_files
    (with_database (Some demo_database)
       (with_environ (<[py "LLM_API_KEY" := py "k"]> ∅)
          (with_providers true false (fun _ _ _ => inr answer)
             (generate_content bare) bare))).

(** The same with a valid summary for [search] on disk; the two other
    summaries are missing. *)
Definition demo_with_pss (answer : option str) : World :=
  with_files
    (<[py "search.pss.json" :=
         Text (pyq "{'incidents': ['scam query'], 'summary': 'one incident'}")]> demo_files)
    (demo answer).


(** Answers of an LLM that are JSON and not what the prompt asks for. *)
Definition tier_seven : str := pyq "{'recommended_action': {'tier': 7}}".
Definition tier_high : str :=
  pyq "{'narrative': 'ok', 'recommended_action': {'tier': 'high'}}".

(** A Gemini response whose [text] is [t]. *)
Definition text_response (t : str) : gemini_response :=
  {| resp_text := AttrStr t; resp_parts := None; resp_prompt_feedback := None |}.

(** A world in which only the Gemini library is installed and every
    request is answered with the text [t]. *)
Definition gemini_says (t : str) : World :=
  with_providers false true (openai_create bare)
    (fun _ _ => inr (text_response t)) bare.

(** A fenced answer with a remark after the closing fence, and one whose
    fence is never closed. *)
Definition fenced_then_remark : str :=
  py "```json" ++ nl ++ py "{}" ++ nl ++ py "```" ++ nl ++ py "Done.".
Definition fence_left_open : str := py "```json" ++ nl ++ pyq "{'tier': 1}".

(** The summary file of [surface] is on disk and holds an object with the
    keys ["incidents"] and ["summary"]. *)
Definition valid_summary_on_disk (w : World) (surface : str) : Prop :=
  exists text d,
    files w !! Aggregate.pss_file surface = Some (Text text)
    /\ Json.loads text = Some (PyDict d)
    /\ dict_has (py "incidents") d = true
    /\ dict_has (py "summary") d = true.

(** The rows of the reports table, none when the table or the database is
    yet to be made, and the windowed tables. *)
Definition report_rows (w : World) : list report_row :=
  match database w with
  | Some db => default [] (qsr_reports db)
  | None => []
  end.






(** The world [w] after the events [evs], and nothing else, were added. *)
Definition after (evs : list event) (w : World) : World := set_log (log w ++ evs) w.

End Spec.

(** ** [src/run_sql_duckdb.py]: a script of SQL run on the database *)
Module RunSql.
Local Open Scope run_scope.

(** [con.execute(sql_script)].  What DuckDB makes of a script is not
    modelled: [execute] gives, for a script and the database it is run on,
    the exception the call ends with, if any, and the database it leaves
    behind, which need not be the one it found even when the call raises. *)
Definition run_script (execute : str -> Database -> option exn * Database)
    (sql_script : str) : M unit :=
  fun w =>
    match database w with
    | Some db =>
        (match fst (execute sql_script db) with
         | Some e => Raise e
         | None => Ok tt
         end,
         set_database (Some (snd (execute sql_script db))) w)
    | None => (Raise (Exn LibraryError (py "connection is closed")), w)
    end.

(** [main], given [sys.argv]. *)
Definition main (execute : str -> Database -> option exn * Database)
    (argv : list str) : M unit :=
  match argv with
  | _ :: sql_file_path :: _ =>
      let* found := path_exists sql_file_path in
      if negb found then sys_exit 1
      else
        try_except
          (let* _ := Aggregate.connect_rw in
           let* sql_script := read_text sql_file_path in
           run_script execute sql_script)
          (fun e => sys_exit 1)
  | _ => sys_exit 1
  end.

End RunSql.

(** ** [tests/test_pipeline.py]: the checks that follow [make demo] *)
Module PipelineTest.

(** The assertion that does not hold. *)
Inductive failure : Type :=
| OutputMissing
| NotJson
| FieldMissing (name : str)
| TierMissing
| TierNotInt
| TierOutOfRange
| DatabaseMissing.

(** How the test ends after [make demo] has run: it passes, an assertion
    fails (or [pytest.fail] is called), or an exception escapes. *)
Inductive verdict : Type :=
| Passed
| Failed (f : failure)
| Errored (e : exn).

(** [type(v).__name__] *)
Definition type_name (v : value) : str :=
  match v with
  | PyNone => py "NoneType"
  | PyBool _ => py "bool"
  | PyInt _ => py "int"
  | PyFloat _ => py "float"
  | PyStr _ => py "str"
  | PyList _ => py "list"
  | PyDict _ => py "dict"
  end.

(** [key in obj] for a string [key]: a key of a [dict], an item of a
    [list], a part of a [str]; other values are not containers. *)
Definition contains_key (key : str) (obj : value) : exn + bool :=
  match obj with
  | PyDict d => inr (dict_has key d)
  | PyList l => inr (existsb (fun x => if x is PyStr s then str_eqb s key else false) l)
  | PyStr s => inr (PyStr.contains key s)
  | _ =>
      inl (Exn TypeError
             (py "argument of type '" ++ type_name obj ++ py "' is not iterable"))
  end.

(** [assert name in qsr_data], then [rest]. *)
Definition assert_field (name : str) (qsr_data : value) (rest : verdict) : verdict :=
  match contains_key name qsr_data with
  | inl e => Errored e
  | inr false => Failed (FieldMissing name)
  | inr true => rest
  end.

(** [isinstance(tier, int)] and [-1 <= tier <= 3]: a [bool] is an [int],
    0 or 1. *)
Definition assert_tier (tier : value) : verdict :=
  match tier with
  | PyInt z => if ((-1 <=? z) && (z <=? 3))%Z then Passed else Failed TierOutOfRange
  | PyBool _ => Passed
  | _ => Failed TierNotInt
  end.

(** The assertions on the parsed report. *)
Definition check_report (qsr_data : value) : verdict :=
  assert_field (py "narrative") qsr_data
    (assert_field (py "risk_vector") qsr_data
       (assert_field (py "macro_patterns") qsr_data
          (assert_field (py "recommended_action") qsr_data
             match Aggregate.get (py "recommended_action") (PyDict []) qsr_data with
             | inl e => Errored e
             | inr recommended_action =>
                 match contains_key (py "tier") recommended_action with
                 | inl e => Errored e
                 | inr false => Failed TierMissing
                 | inr true =>
                     match Aggregate.get (py "tier") PyNone recommended_action with
                     | inl e => Errored e
                     | inr tier => assert_tier tier
                     end
                 end
             end))).


End PipelineTest.

(** * Properties *)

(** ** Strings *)
Section StrFacts.
Import PyStr.

Lemma eqc_true (a b : N) : eqc a b = true <-> a = b.
Proof. unfold eqc. apply N.eqb_eq. Qed.

Lemma startswith_app (p r : str) : startswith p (p ++ r) = true.
Proof.
  induction p as [|a p IH]; simpl; [reflexivity|].
  rewrite IH. unfold eqc. now rewrite N.eqb_refl.
Qed.

Lemma startswith_true (p s : str) :
  startswith p s = true <-> exists r, s = p ++ r.
Proof.
  split.
  - revert s. induction p as [|a p IH]; intros s H.
    + now exists s.
    + destruct s as [|b s]; simpl in H; [discriminate|].
      apply andb_true_iff in H as [Hab Hps].
      apply eqc_true in Hab. subst b.
      destruct (IH _ Hps) as [r ->]. now exists r.
  - intros [r ->]. apply startswith_app.
Qed.

Lemma startswith_length (p s : str) :
  startswith p s = true -> length p <= length s.
Proof.
  intros H. apply startswith_true in H as [r ->].
  rewrite length_app. lia.
Qed.

Lemma lstrip_app_space (a s : str) :
  forallb isspace a = true -> lstrip (a ++ s) = lstrip s.
Proof.
  induction a as [|c a IH]; simpl; [reflexivity|].
  intros H. apply andb_true_iff in H as [Hc Ha].
  rewrite Hc. now apply IH.
Qed.

Lemma lstrip_all_space (a : str) : forallb isspace a = true -> lstrip a = [].
Proof.
  intros H. rewrite <- (app_nil_r a). now rewrite lstrip_app_space.
Qed.

Lemma lstrip_app_word (s b : str) :
  forallb isspace s = false -> lstrip (s ++ b) = lstrip s ++ b.
Proof.
  induction s as [|c s IH]; simpl; [discriminate|].
  destruct (isspace c) eqn:Hc; simpl; [apply IH | reflexivity].
Qed.

Lemma forallb_rev_eq (f : N -> bool) (l : str) : forallb f (rev l) = forallb f l.
Proof.
  induction l as [|c l IH]; simpl; [reflexivity|].
  rewrite forallb_app, IH. simpl. rewrite andb_true_r. apply andb_comm.
Qed.

Lemma rstrip_app_space (s b : str) :
  forallb isspace b = true -> rstrip (s ++ b) = rstrip s.
Proof.
  intros H. unfold rstrip. rewrite rev_app_distr.
  rewrite lstrip_app_space; [reflexivity|].
  now rewrite forallb_rev_eq.
Qed.

Lemma rstrip_nil : rstrip [] = [].
Proof. reflexivity. Qed.

(** White space around a text does not change what [strip] makes of it. *)
Lemma strip_app_space (a s b : str) :
  forallb isspace a = true -> forallb isspace b = true ->
  strip (a ++ s ++ b) = strip s.
Proof.
  intros Ha Hb. unfold strip. rewrite lstrip_app_space by assumption.
  destruct (forallb isspace s) eqn:Hs.
  - rewrite (lstrip_all_space s Hs).
    rewrite lstrip_all_space; [reflexivity|].
    rewrite forallb_app, Hs, Hb. reflexivity.
  - rewrite lstrip_app_word by assumption. now apply rstrip_app_space.
Qed.

Lemma lstrip_word (c : N) (s : str) : isspace c = false -> lstrip (c :: s) = c :: s.
Proof. intros H. simpl. now rewrite H. Qed.

Lemma rstrip_word (s : str) (c : N) : isspace c = false -> rstrip (s ++ [c]) = s ++ [c].
Proof.
  intros H. unfold rstrip. rewrite rev_app_distr. simpl. rewrite H.
  simpl. now rewrite rev_involutive.
Qed.

(** A text that neither starts nor ends with white space is its own
    [strip]. *)
Lemma strip_word (c d : N) (s : str) :
  isspace c = false -> isspace d = false -> strip (c :: s ++ [d]) = c :: s ++ [d].
Proof.
  intros Hc Hd. unfold strip. rewrite lstrip_word by assumption.
  change (c :: s ++ [d]) with ((c :: s) ++ [d]). now apply rstrip_word.
Qed.

Lemma slice_app (a b : nat) (x m y : str) :
  length x = a -> length y = b -> slice a b (x ++ m ++ y) = m.
Proof.
  intros <- <-. unfold slice.
  rewrite skipn_app, skipn_all, Nat.sub_diag. simpl.
  rewrite !length_app.
  replace (length x + (length m + length y) - length y - length x)
    with (length m) by lia.
  change (drop 0 (m ++ y)) with (m ++ y).
  rewrite firstn_app, firstn_all, Nat.sub_diag. simpl. apply app_nil_r.
Qed.

(** *** [cut], [contains] and [split] *)

Lemma cut_Some (sep s a b : str) : cut sep s = Some (a, b) -> s = a ++ sep ++ b.
Proof.
  revert a b. induction s as [|c s IH]; intros a b H.
  - simpl in H. destruct (startswith sep []) eqn:Hs; [|discriminate].
    injection H as <- <-. apply startswith_true in Hs as [r Hr].
    destruct sep; [reflexivity | discriminate].
  - simpl in H. destruct (startswith sep (c :: s)) eqn:Hs.
    + injection H as <- <-. apply startswith_true in Hs as [r Hr].
      rewrite Hr. rewrite skipn_app, skipn_all, Nat.sub_diag. reflexivity.
    + destruct (cut sep s) as [[a' b']|] eqn:Hc; [|discriminate].
      injection H as <- <-. simpl. f_equal. now apply IH.
Qed.

Lemma cut_None (sep s : str) : cut sep s = None <-> contains sep s = false.
Proof.
  induction s as [|c s IH]; simpl.
  - destruct (startswith sep []); simpl; split; congruence.
  - destruct (startswith sep (c :: s)); simpl; [split; congruence|].
    destruct (cut sep s) as [[a b]|]; [|tauto].
    split; [discriminate|]. intros H. apply IH in H. discriminate.
Qed.

Lemma contains_unfold (p s : str) :
  contains p s
  = startswith p s || match s with [] => false | _ :: s' => contains p s' end.
Proof. destruct s; reflexivity. Qed.


Lemma split_fuel_head (fuel : nat) (sep s : str) :
  nth_error (split_fuel fuel sep s) 0 = Some (piece sep s).
Proof.
  unfold piece. destruct fuel; simpl; destruct (cut sep s) as [[a b]|]; reflexivity.
Qed.

Lemma split_head (sep s : str) : nth_error (split sep s) 0 = Some (piece sep s).
Proof. apply split_fuel_head. Qed.

Lemma split_second_None (sep s : str) :
  cut sep s = None -> nth_error (split sep s) 1 = None.
Proof.
  intros H. unfold split. destruct (length s); simpl; rewrite H; reflexivity.
Qed.

Lemma split_second_Some (sep s a b : str) :
  sep <> [] -> cut sep s = Some (a, b) ->
  nth_error (split sep s) 1 = Some (piece sep b).
Proof.
  intros Hsep H. unfold split.
  assert (Hlen : length s <> 0).
  { apply cut_Some in H. subst s. rewrite !length_app.
    destruct sep; [congruence | simpl; lia]. }
  destruct (length s) as [|f]; [congruence|].
  simpl. rewrite H. simpl. apply split_fuel_head.
Qed.

End StrFacts.

(** ** The split of a prompt template *)
Section TemplateSplit.
Import PyStr Shared.

Lemma occurrences_app_ge (p a s : str) : occurrences p s <= occurrences p (a ++ s).
Proof.
  induction a as [|c a IH]; [apply Nat.le_refl|].
  change ((c :: a) ++ s) with (c :: a ++ s). simpl occurrences.
  destruct (startswith p (c :: a ++ s)); lia.
Qed.

Lemma occurrences_at_head (p s : str) :
  p <> [] -> startswith p s = true ->
  exists c s', s = c :: s' /\ occurrences p s = 1 + occurrences p s'.
Proof.
  intros Hp Hs. destruct s as [|c s'].
  - destruct p; [congruence | discriminate].
  - exists c, s'. split; [reflexivity|]. simpl occurrences. now rewrite Hs.
Qed.

Lemma occurrences_zero (p s : str) : occurrences p s = 0 -> contains p s = false.
Proof.
  induction s as [|c s IH]; rewrite contains_unfold; simpl occurrences.
  - destruct (startswith p []); [discriminate | reflexivity].
  - destruct (startswith p (c :: s)); [discriminate|].
    simpl. exact IH.
Qed.

(** When the separator occurs once, the cut falls at that occurrence and
    the text after it has none. *)
Lemma cut_once (p a b : str) :
  p <> [] -> occurrences p (a ++ p ++ b) = 1 ->
  cut p (a ++ p ++ b) = Some (a, b) /\ cut p b = None.
Proof.
  intros Hp. induction a as [|c a IH]; intros H.
  - simpl app in *.
    destruct (occurrences_at_head p (p ++ b) Hp (startswith_app p b))
      as (c & s' & Hs & Ho).
    split.
    + destruct (p ++ b) eqn:E; [destruct p; [congruence|discriminate]|].
      simpl cut. rewrite <- E, startswith_app.
      now rewrite skipn_app, skipn_all, Nat.sub_diag.
    + apply cut_None, occurrences_zero.
      destruct p as [|c0 p']; [congruence|].
      injection Hs as <- <-.
      pose proof (occurrences_app_ge (c0 :: p') p' b). lia.
  - change ((c :: a) ++ p ++ b) with (c :: a ++ p ++ b) in *.
    simpl occurrences in H.
    pose proof (occurrences_app_ge p a (p ++ b)) as Hge.
    destruct (occurrences_at_head p (p ++ b) Hp (startswith_app p b))
      as (c' & s' & _ & Ho).
    destruct (startswith p (c :: a ++ p ++ b)) eqn:Hs; [lia|].
    destruct (IH ltac:(lia)) as [Hc Hb].
    split; [|exact Hb].
    simpl cut. now rewrite Hs, Hc.
Qed.

Lemma split_fuel_None (f : nat) (sep s : str) :
  cut sep s = None -> split_fuel f sep s = [s].
Proof. intros H. destruct f; simpl; now rewrite H. Qed.

Lemma split_fuel_Some (f : nat) (sep s a b : str) :
  cut sep s = Some (a, b) -> split_fuel (S f) sep s = a :: split_fuel f sep b.
Proof. intros H. simpl. now rewrite H. Qed.

Lemma split_once (p a b : str) :
  p <> [] -> occurrences p (a ++ p ++ b) = 1 -> split p (a ++ p ++ b) = [a; b].
Proof.
  intros Hp H. destruct (cut_once p a b Hp H) as [Hc Hb].
  unfold split.
  assert (Hlen : exists f, length (a ++ p ++ b) = S f).
  { rewrite !length_app. destruct p; [congruence|].
    simpl. exists (length a + (length p + length b)). lia. }
  destruct Hlen as [f ->].
  rewrite (split_fuel_Some _ _ _ _ _ Hc). now rewrite split_fuel_None.
Qed.

Lemma lstrip_decompose (s : str) :
  exists l, forallb isspace l = true /\ s = l ++ lstrip s.
Proof.
  induction s as [|c s (l & Hl & IH)]; [now exists []|].
  simpl. destruct (isspace c) eqn:Hc.
  - exists (c :: l). simpl. rewrite Hc, Hl. split; [reflexivity|]. now f_equal.
  - now exists [].
Qed.

(** [strip] only takes white space away, from the two ends. *)
Lemma strip_decompose (s : str) :
  exists l r, forallb isspace l = true /\ forallb isspace r = true
              /\ s = l ++ strip s ++ r.
Proof.
  destruct (lstrip_decompose s) as (l & Hl & Hs).
  destruct (lstrip_decompose (rev (lstrip s))) as (r & Hr & Hrs).
  exists l, (rev r). repeat split; [exact Hl | now rewrite forallb_rev_eq |].
  unfold strip, rstrip. rewrite <- rev_app_distr, <- Hrs, rev_involutive. exact Hs.
Qed.

Lemma TASK_not_nil : TASK <> [].
Proof. discriminate. Qed.

End TemplateSplit.

(** ** C6: the split of the prompt template at the marker *)
Section MarkerSplit.
Import PyStr Shared.

(** C6, as amended.  For every template in which the marker ["TASK"]
    occurs exactly once, [a] being the text before it and [b] the text after
    it: the Aggregator's system prompt is [a] stripped, the Summarizer's is
    [a] with ["{surface}"] replaced by the capitalized surface and then
    stripped, and both take as task instruction the marker followed by [b]
    stripped.  Prefix, marker and remainder put the template together
    again up to the white space that was stripped. *)
Theorem template_split_once (a b surface : str) :
  occurrences TASK (a ++ TASK ++ b) = 1 ->
  Aggregate.system_prompt_content (a ++ TASK ++ b) = inr (strip a)
  /\ Platform.system_prompt_content (a ++ TASK ++ b) surface
     = inr (strip (replace (py "{surface}") (capitalize surface) a))
  /\ Aggregate.user_task_instruction (a ++ TASK ++ b) = inr (TASK ++ strip b)
  /\ Platform.user_task_instruction (a ++ TASK ++ b) = inr (TASK ++ strip b)
  /\ exists l1 r1 l2 r2,
       forallb isspace (l1 ++ r1 ++ l2 ++ r2) = true
       /\ a ++ TASK ++ b = l1 ++ strip a ++ r1 ++ TASK ++ l2 ++ strip b ++ r2.
Proof.
  intros H.
  pose proof (split_once TASK a b TASK_not_nil H) as Hs.
  unfold Aggregate.system_prompt_content, Platform.system_prompt_content,
    Aggregate.user_task_instruction, Platform.user_task_instruction.
  rewrite Hs. simpl. repeat split.
  destruct (strip_decompose a) as (l1 & r1 & Hl1 & Hr1 & Ha).
  destruct (strip_decompose b) as (l2 & r2 & Hl2 & Hr2 & Hb).
  exists l1, r1, l2, r2. split.
  - rewrite !forallb_app, Hl1, Hr1, Hl2, Hr2. reflexivity.
  - rewrite Ha at 1. rewrite Hb at 1. now rewrite <- !app_assoc.
Qed.

(** A template with one marker, and what the two programs make of it. *)
Lemma template_split_once_witness :
  occurrences TASK (py "You are the {surface} analyst. " ++ TASK ++ py ": list   ") = 1
  /\ Platform.system_prompt_content
       (py "You are the {surface} analyst. " ++ TASK ++ py ": list   ") (py "search")
     = inr (py "You are the Search analyst.")
  /\ Aggregate.user_task_instruction
       (py "You are the {surface} analyst. " ++ TASK ++ py ": list   ")
     = inr (py "TASK: list").
Proof.
  split; [reflexivity|].
  destruct (template_split_once (py "You are the {surface} analyst. ")
              (py ": list   ") (py "search") eq_refl)
    as (_ & Hp & Hu & _).
  split; [exact Hp | exact Hu].
Defined.

(** C6 as stated fails: in a template with two markers the task
    instruction stops before the second one, so it is neither the text from
    the first marker onward, stripped, nor the marker followed by the rest,
    stripped. *)
Lemma template_split_twice :
  contains TASK (py "A TASK B TASK C") = true
  /\ cut TASK (py "A TASK B TASK C") = Some (py "A ", py " B TASK C")
  /\ Aggregate.user_task_instruction (py "A TASK B TASK C") = inr (py "TASKB")
  /\ Platform.user_task_instruction (py "A TASK B TASK C") = inr (py "TASKB")
  /\ py "TASKB" <> strip (TASK ++ py " B TASK C")
  /\ py "TASKB" <> TASK ++ strip (py " B TASK C").
Proof. vm_compute. repeat split; discriminate. Qed.

End MarkerSplit.

(** ** C7: the Markdown code fence around a Gemini response *)
Section CodeFence.
Import PyStr Shared.

Lemma strip_fenced (pre fence m post : str) :
  forallb isspace pre = true -> forallb isspace post = true ->
  strip (pre ++ ((96%N :: fence) ++ m ++ py "```") ++ post)
  = (96%N :: fence) ++ m ++ py "```".
Proof.
  intros Hpre Hpost. rewrite strip_app_space by assumption.
  change (py "```") with ([96%N; 96%N] ++ [96%N]).
  change ((96%N :: fence) ++ m ++ [96%N; 96%N] ++ [96%N])
    with (96%N :: (fence ++ m ++ [96%N; 96%N] ++ [96%N])).
  rewrite !app_assoc. rewrite <- !app_assoc at 1.
  rewrite (app_assoc fence), (app_assoc (fence ++ m)).
  now apply strip_word.
Qed.

(** A text that opens with [```json] and closes with [```] is cut down to
    what stands between the two. *)
Lemma clean_markdown_json (pre m post : str) :
  forallb isspace pre = true -> forallb isspace post = true ->
  clean_markdown (pre ++ (py "```json" ++ m ++ py "```") ++ post) = strip m.
Proof.
  intros Hpre Hpost. unfold clean_markdown.
  assert (Hs : strip (pre ++ (py "```json" ++ m ++ py "```") ++ post)
               = py "```json" ++ m ++ py "```")
    by exact (strip_fenced pre (py "``json") m post Hpre Hpost).
  rewrite !Hs.
  rewrite startswith_app. f_equal. now apply slice_app.
Qed.

(** The same for the bare fence, when the text does not go on with
    [json] after it. *)
Lemma clean_markdown_bare (pre m post : str) :
  forallb isspace pre = true -> forallb isspace post = true ->
  startswith (py "json") (m ++ py "```") = false ->
  clean_markdown (pre ++ (py "```" ++ m ++ py "```") ++ post) = strip m.
Proof.
  intros Hpre Hpost Hm. unfold clean_markdown.
  assert (Hs : strip (pre ++ (py "```" ++ m ++ py "```") ++ post)
               = py "```" ++ m ++ py "```")
    by exact (strip_fenced pre (py "``") m post Hpre Hpost).
  rewrite !Hs.
  assert (Hj : startswith (py "```json") (py "```" ++ m ++ py "```") = false).
  { change (py "```json") with (py "```" ++ py "json").
    simpl. unfold eqc. simpl. exact Hm. }
  rewrite Hj, startswith_app. f_equal. now apply slice_app.
Qed.

Lemma query_llm_google (extract : gemini_response -> exn + str) (no_text : str)
    (w : World) (key name model sys user text : str) (resp : gemini_response) :
  generate_content w name (sys ++ nl ++ nl ++ user) = inr resp ->
  extract resp = inr text -> text <> [] ->
  query_llm_with extract no_text (GenerativeModel key name) model GoogleProvider sys user w
  = (Ok (Some (clean_markdown text)),
     add_event (LLMRequest GoogleProvider name sys user) w).
Proof.
  intros Hg He Ht. unfold query_llm_with, bind, record, ask, lift.
  simpl. simpl in Hg. rewrite Hg. simpl. rewrite He. simpl.
  rewrite bool_decide_eq_false_2 by exact Ht. reflexivity.
Qed.

Lemma response_text_agree (resp : gemini_response) (text : str) :
  resp_text resp = AttrStr text -> text <> [] ->
  Platform.response_text resp = inr text /\ Aggregate.response_text resp = inr text.
Proof.
  intros H Ht. unfold Platform.response_text, Aggregate.response_text.
  rewrite H. simpl. rewrite bool_decide_eq_false_2 by exact Ht. now split.
Qed.

(** C7, as amended.  When the text of a Gemini response, white space
    around it apart, is a payload [p] between a line [```json] (or a bare
    [```]) and a closing line [```], [query_llm] returns [p] stripped of the
    white space around it, for every payload [p], in both programs. *)
Theorem query_llm_fenced (w : World) (key name model sys user pre p post : str)
    (resp : gemini_response) :
  forallb isspace pre = true -> forallb isspace post = true ->
  generate_content w name (sys ++ nl ++ nl ++ user) = inr resp ->
  resp_text resp = AttrStr (pre ++ (py "```json" ++ (nl ++ p ++ nl) ++ py "```") ++ post)
  \/ resp_text resp = AttrStr (pre ++ (py "```" ++ (nl ++ p ++ nl) ++ py "```") ++ post) ->
  fst (Platform.query_llm (GenerativeModel key name) model GoogleProvider sys user w)
  = Ok (Some (strip p))
  /\ fst (Aggregate.query_llm (GenerativeModel key name) model GoogleProvider sys user w)
     = Ok (Some (strip p)).
Proof.
  intros Hpre Hpost Hg Ht.
  assert (Hp : strip (nl ++ p ++ nl) = strip p) by now apply strip_app_space.
  assert (Hne : forall f x, pre ++ (py "```" ++ f ++ x) ++ post <> []).
  { intros f x E. apply app_eq_nil in E as [_ E]. discriminate E. }
  unfold Platform.query_llm, Aggregate.query_llm.
  destruct Ht as [Ht | Ht].
  - destruct (response_text_agree resp _ Ht (Hne (py "json") _)) as [H1 H2].
    rewrite (query_llm_google _ _ _ _ _ _ _ _ _ _ Hg H1 (Hne (py "json") _)).
    rewrite (query_llm_google _ _ _ _ _ _ _ _ _ _ Hg H2 (Hne (py "json") _)).
    cbn [fst]. rewrite clean_markdown_json by assumption. now rewrite Hp.
  - destruct (response_text_agree resp _ Ht (Hne [] _)) as [H1 H2].
    rewrite (query_llm_google _ _ _ _ _ _ _ _ _ _ Hg H1 (Hne [] _)).
    rewrite (query_llm_google _ _ _ _ _ _ _ _ _ _ Hg H2 (Hne [] _)).
    cbn [fst]. rewrite clean_markdown_bare by (assumption || reflexivity).
    now rewrite Hp.
Qed.

(** A fenced answer with white space around the payload, in the world
    where Gemini gives it. *)
Lemma query_llm_fenced_witness :
  fst (Platform.query_llm (GenerativeModel (py "k") (py "gemini-pro")) (py "gemini-pro")
         GoogleProvider (py "s") (py "u")
         (Spec.gemini_says
            (nl ++ (py "```json" ++ (nl ++ pyq " {'incidents': []} " ++ nl) ++ py "```")
             ++ nl)))
  = Ok (Some (pyq "{'incidents': []}")).
Proof.
  refine (proj1 (query_llm_fenced _ _ _ _ _ _ nl (pyq " {'incidents': []} ") nl
                   (Spec.text_response _) _ _ _ _)).
  - reflexivity.
  - reflexivity.
  - reflexivity.
  - left. reflexivity.
Defined.

(** C7 as stated fails: a response that opens with a fence need not end
    with one, and the last three characters go all the same.  With a remark
    after the closing fence the result keeps that fence and part of the
    remark; with the fence left open the payload loses its end. *)
Lemma clean_markdown_cuts_blindly :
  startswith (py "```json") (strip Spec.fenced_then_remark) = true
  /\ Spec.enclosed_content Spec.fenced_then_remark = Some (py "{}")
  /\ fst (Platform.query_llm (GenerativeModel (py "k") (py "gemini-pro")) (py "gemini-pro")
            GoogleProvider (py "s") (py "u") (Spec.gemini_says Spec.fenced_then_remark))
     = Ok (Some (py "{}" ++ nl ++ py "```" ++ nl ++ py "Do"))
  /\ fst (Aggregate.query_llm (GenerativeModel (py "k") (py "gemini-pro")) (py "gemini-pro")
            GoogleProvider (py "s") (py "u") (Spec.gemini_says Spec.fenced_then_remark))
     = Ok (Some (py "{}" ++ nl ++ py "```" ++ nl ++ py "Do"))
  /\ py "{}" ++ nl ++ py "```" ++ nl ++ py "Do" <> py "{}"
  /\ startswith (py "```json") (strip Spec.fence_left_open) = true
  /\ Spec.enclosed_content Spec.fence_left_open = Some (pyq "{'tier': 1}")
  /\ clean_markdown Spec.fence_left_open = pyq "{'tier':"
  /\ pyq "{'tier':" <> pyq "{'tier': 1}".
Proof. vm_compute. repeat split; discriminate. Qed.

End CodeFence.

(** ** C8: the choice of the provider *)
Section ProviderSelection.
Import PyStr Shared.

(** What [get_llm_client_and_model] returns, as a function of what it read. *)
Lemma get_llm_client_and_model_with_eq (no_key no_library : str) (w : World) :
  fst (get_llm_client_and_model_with no_key no_library w)
  = let api_key := environ w !! py "LLM_API_KEY" in
    let model := default DEFAULT_LLM_MODEL (environ w !! py "LLM_MODEL") in
    if unset api_key then Raise (Exn ValueError no_key)
    else if startswith (py "gpt") model && openai_installed w
    then Ok (OpenAIClient (default [] api_key), model, OpenAIProvider)
    else if startswith (py "gemini") model && genai_installed w
    then Ok (GenerativeModel (default [] api_key) model, model, GoogleProvider)
    else if openai_installed w
    then Ok (OpenAIClient (default [] api_key), model, OpenAIProvider)
    else if genai_installed w
    then Ok (GenerativeModel (default [] api_key)
               (if startswith (py "gemini") model then model else py "gemini-pro"),
             if startswith (py "gemini") model then model else py "gemini-pro",
             GoogleProvider)
    else Raise (Exn ValueError no_library).
Proof.
  unfold get_llm_client_and_model_with, bind, getenv, ask, add_event.
  cbn [environ set_log openai_installed genai_installed].
  repeat (match goal with |- context [if ?b then _ else _] => destruct b end;
          try reflexivity).
Qed.

Lemma gemini_is_not_gpt (model : str) :
  startswith (py "gemini") model = true -> startswith (py "gpt") model = false.
Proof.
  intros H. apply startswith_true in H as [r ->]. reflexivity.
Qed.

(** C8, as amended.  With [key] the value of [LLM_API_KEY] and [model] that
    of [LLM_MODEL] (["gpt-4o-mini"] when unset), in both programs:
    the call raises exactly when the key is unset or empty, or neither
    library is installed; otherwise a model name that starts with ["gpt"]
    and the OpenAI library give OpenAI with that name, a name that starts
    with ["gemini"] and the Gemini library give Gemini with that name, and
    in every other case the OpenAI library, when installed, is used with the
    configured name as it is, and else Gemini with the name ["gemini-pro"]. *)
Theorem provider_selection (w : World) (get : M (client * str * provider)) :
  let model := default DEFAULT_LLM_MODEL (environ w !! py "LLM_MODEL") in
  get = Platform.get_llm_client_and_model \/ get = Aggregate.get_llm_client_and_model ->
  ((exists e, fst (get w) = Raise e)
   <-> unset (environ w !! py "LLM_API_KEY") = true
       \/ (openai_installed w = false /\ genai_installed w = false))
  /\ forall key, environ w !! py "LLM_API_KEY" = Some key -> key <> [] ->
     (startswith (py "gpt") model = true -> openai_installed w = true ->
      fst (get w) = Ok (OpenAIClient key, model, OpenAIProvider))
     /\ (startswith (py "gemini") model = true -> genai_installed w = true ->
         fst (get w) = Ok (GenerativeModel key model, model, GoogleProvider))
     /\ (startswith (py "gemini") model = false \/ genai_installed w = false ->
         openai_installed w = true ->
         fst (get w) = Ok (OpenAIClient key, model, OpenAIProvider))
     /\ (startswith (py "gemini") model = false ->
         openai_installed w = false -> genai_installed w = true ->
         fst (get w) = Ok (GenerativeModel key (py "gemini-pro"), py "gemini-pro",
                           GoogleProvider)).
Proof.
  intros model Hget.
  assert (Heq : exists no_key no_library,
             get = get_llm_client_and_model_with no_key no_library).
  { destruct Hget as [-> | ->]; eexists _, _; reflexivity. }
  destruct Heq as (no_key & no_library & ->).
  rewrite get_llm_client_and_model_with_eq. cbv zeta. fold model.
  split.
  - destruct (unset (environ w !! py "LLM_API_KEY")) eqn:Hu.
    { split; [now left | intros _; eexists; reflexivity]. }
    destruct (startswith (py "gpt") model) eqn:Hgpt;
      destruct (startswith (py "gemini") model) eqn:Hgem;
      destruct (openai_installed w) eqn:Ho; destruct (genai_installed w) eqn:Hg;
      cbn [andb]; split;
      try (intros [e He]; discriminate He);
      try (intros [Hf | [Hf1 Hf2]]; discriminate);
      try (intros _; eexists; reflexivity);
      try (intros _; right; now split).
  - intros key Hkey Hne. rewrite Hkey.
    assert (Hu : unset (Some key) = false).
    { unfold unset. now apply bool_decide_eq_false_2. }
    rewrite Hu. cbn [default].
    repeat split.
    + intros -> ->. reflexivity.
    + intros Hgem ->. rewrite (gemini_is_not_gpt _ Hgem), Hgem. reflexivity.
    + intros Hno ->. rewrite !andb_true_r.
      destruct (startswith (py "gpt") model); [reflexivity|].
      destruct Hno as [-> | ->]; [reflexivity|]. now rewrite andb_false_r.
    + intros Hgem Ho Hg. rewrite Ho, Hg, Hgem, andb_false_r. reflexivity.
Qed.

(** The Summarizer's choice with the key set, the OpenAI library installed
    and a model name that starts with ["gpt"]. *)
Lemma provider_selection_witness :
  fst (Platform.get_llm_client_and_model (Spec.openai_only (py "gpt-4o")))
  = Ok (OpenAIClient (py "k"), py "gpt-4o", OpenAIProvider).
Proof.
  destruct (provider_selection (Spec.openai_only (py "gpt-4o"))
              Platform.get_llm_client_and_model (or_introl eq_refl)) as [_ H].
  destruct (H (py "k") eq_refl ltac:(discriminate)) as (Hgpt & _).
  exact (Hgpt eq_refl eq_refl).
Defined.

(** C8 as stated fails: with the OpenAI library installed, a model name
    with neither prefix, and even one that names a Gemini model when the
    Gemini library is missing, is passed to OpenAI as it is; no default
    name takes its place. *)
Lemma openai_fallback_keeps_name :
  fst (Platform.get_llm_client_and_model (Spec.openai_only (py "claude-3")))
  = Ok (OpenAIClient (py "k"), py "claude-3", OpenAIProvider)
  /\ fst (Aggregate.get_llm_client_and_model (Spec.openai_only (py "claude-3")))
     = Ok (OpenAIClient (py "k"), py "claude-3", OpenAIProvider)
  /\ fst (Platform.get_llm_client_and_model (Spec.openai_only (py "gemini-1.5-pro")))
     = Ok (OpenAIClient (py "k"), py "gemini-1.5-pro", OpenAIProvider)
  /\ py "claude-3" <> DEFAULT_LLM_MODEL
  /\ py "gemini-1.5-pro" <> DEFAULT_LLM_MODEL.
Proof. vm_compute. repeat split; discriminate. Qed.

End ProviderSelection.

(** ** Runs *)
Section RunFacts.
Import Shared Spec.



Lemma after_after (evs evs' : list event) (w : World) :
  after evs' (after evs w) = after (evs ++ evs') w.
Proof. unfold after. cbn [log set_log]. now rewrite app_assoc. Qed.


Lemma after_files (evs : list event) (w : World) : files (after evs w) = files w.
Proof. reflexivity. Qed.

Lemma after_database (evs : list event) (w : World) : database (after evs w) = database w.
Proof. reflexivity. Qed.




End RunFacts.

(** ** The Summarizer's run *)
Section SummarizerRun.
Import Shared Spec.

Lemma bind_Ok {A B} (m : M A) (k : A -> M B) (w w' : World) (a : A) :
  m w = (Ok a, w') -> bind m k w = k a w'.
Proof. intros H. unfold bind. now rewrite H. Qed.

Lemma bind_Raise {A B} (m : M A) (k : A -> M B) (w w' : World) (e : exn) :
  m w = (Raise e, w') -> bind m k w = (Raise e, w').
Proof. intros H. unfold bind. now rewrite H. Qed.

Lemma bind_SysExit {A B} (m : M A) (k : A -> M B) (w w' : World) (c : Z) :
  m w = (SysExit c, w') -> bind m k w = (SysExit c, w').
Proof. intros H. unfold bind. now rewrite H. Qed.



End SummarizerRun.

(** ** The start of the two programs *)
Section Setup.
Import PyStr Shared Spec.

Lemma system_prompt_content_ok (t surface : str) :
  Platform.system_prompt_content t surface
  = inr (strip (replace (py "{surface}") (capitalize surface) (piece TASK t)))
  /\ Aggregate.system_prompt_content t = inr (strip (piece TASK t)).
Proof.
  unfold Platform.system_prompt_content, Aggregate.system_prompt_content, item.
  now rewrite split_head.
Qed.

Lemma user_task_instruction_agree (t : str) :
  Platform.user_task_instruction t = Aggregate.user_task_instruction t.
Proof. reflexivity. Qed.

Lemma user_task_instruction_no_marker (t : str) :
  contains TASK t = false ->
  Platform.user_task_instruction t = inl (Exn IndexError (py "list index out of range")).
Proof.
  intros H. apply cut_None in H.
  unfold Platform.user_task_instruction, item. now rewrite split_second_None.
Qed.

Lemma user_task_instruction_marker (t : str) :
  contains TASK t = true ->
  exists a b, cut TASK t = Some (a, b)
              /\ Platform.user_task_instruction t = inr (TASK ++ strip (piece TASK b)).
Proof.
  intros H. destruct (cut TASK t) as [[a b]|] eqn:Hc.
  - exists a, b. split; [reflexivity|].
    unfold Platform.user_task_instruction, item.
    now rewrite (split_second_Some TASK t a b TASK_not_nil Hc).
  - apply cut_None in Hc. congruence.
Qed.



Lemma path_exists_Some (w : World) (path : str) (f : file) :
  files w !! path = Some f -> path_exists path w = (Ok true, w).
Proof.
  intros H. unfold path_exists, ask. rewrite H.
  now rewrite bool_decide_eq_true_2 by (now eexists).
Qed.

Lemma read_text_Text (w : World) (path t : str) :
  files w !! path = Some (Text t) -> read_text path w = (Ok t, w).
Proof. intros H. unfold read_text. now rewrite H. Qed.

Lemma duckdb_ok (w : World) (op : db_op) :
  duckdb_fault w op = None -> duckdb op w = (Ok tt, after [Db op] w).
Proof. intros H. unfold duckdb. now rewrite H. Qed.

Lemma duckdb_raises (w : World) (op : db_op) (e : exn) :
  duckdb_fault w op = Some e -> duckdb op w = (Raise e, after [Db op] w).
Proof. intros H. unfold duckdb. now rewrite H. Qed.

Lemma bind_lift_inr {A B} (a : A) (k : A -> M B) (w : World) :
  bind (lift (inr a)) k w = k a w.
Proof. reflexivity. Qed.

Lemma bind_lift_inl {A B} (e : exn) (k : A -> M B) (w : World) :
  bind (lift (inl e)) k w = (Raise e, w).
Proof. reflexivity. Qed.

Lemma ask_database (w : World) (evs : list event) (db : option Database) :
  database w = db -> ask database (after evs w) = (Ok db, after evs w).
Proof. intros <-. reflexivity. Qed.




End Setup.

(** ** C1 and C5: what the Summarizer writes *)
Section SummarizerOutput.
Import PyStr Shared Spec.






End SummarizerOutput.

(** ** The Aggregator's run *)
Section AggregatorRun.
Import PyStr Shared Spec.

Lemma aggregate_prepare_no_marker (w : World) (prompt t : str) :
  files w !! prompt = Some (Text t) -> contains TASK t = false ->
  Aggregate.prepare prompt w = (Raise (Exn IndexError (py "list index out of range")), w).
Proof.
  intros Hfile Hmark. unfold Aggregate.prepare.
  rewrite (bind_Ok _ _ _ _ _ (path_exists_Some w _ _ Hfile)). cbn [negb].
  rewrite (bind_Ok _ _ _ _ _ (read_text_Text w _ _ Hfile)). cbv beta.
  rewrite (proj2 (system_prompt_content_ok t [])), bind_lift_inr.
  rewrite <- user_task_instruction_agree, (user_task_instruction_no_marker t Hmark).
  apply bind_lift_inl.
Qed.


Lemma platform_prepare_no_marker (w : World) (surface t : str) :
  files w !! py "prompts/platform_prompt.txt" = Some (Text t) ->
  contains TASK t = false ->
  Platform.prepare surface w = (Raise (Exn IndexError (py "list index out of range")), w).
Proof.
  intros Hfile Hmark. unfold Platform.prepare. cbv zeta.
  rewrite (bind_Ok _ _ _ _ _ (path_exists_Some w _ _ Hfile)). cbn [negb].
  rewrite (bind_Ok _ _ _ _ _ (read_text_Text w _ _ Hfile)). cbv beta.
  rewrite (proj1 (system_prompt_content_ok t surface)), bind_lift_inr.
  rewrite (user_task_instruction_no_marker t Hmark).
  apply bind_lift_inl.
Qed.

(** One summary file: the world is left as it was, and the entry counts as
    valid exactly when the file holds an object with the two keys. *)
Lemma load_pss_run (w : World) (surface : str) :
  exists data valid,
    Aggregate.load_pss surface w = (Ok (data, valid), w)
    /\ (valid = true <-> valid_summary_on_disk w surface).
Proof.
  unfold Aggregate.load_pss, valid_summary_on_disk.
  destruct (files w !! Aggregate.pss_file surface) as [[text|e]|] eqn:Hfile.
  - rewrite (bind_Ok _ _ _ _ _ (path_exists_Some w _ _ Hfile)).
    unfold try_except.
    rewrite (bind_Ok _ _ _ _ _ (read_text_Text w _ _ Hfile)). cbv beta.
    unfold loads. destruct (Json.loads text) as [v|] eqn:Hv.
    + rewrite (bind_Ok _ _ w w v eq_refl).
      destruct (Aggregate.valid_pss v) eqn:Hvalid.
      * eexists _, true. split; [reflexivity|]. split; [intros _|reflexivity].
        destruct v; try discriminate Hvalid. simpl in Hvalid.
        apply andb_true_iff in Hvalid as [Hi Hs]. now exists text, d.
      * eexists _, false. split; [reflexivity|]. split; [discriminate|].
        intros (text' & d & Ht & Hd & Hi & Hs).
        injection Ht as <-. rewrite Hv in Hd. injection Hd as ->.
        simpl in Hvalid. now rewrite Hi, Hs in Hvalid.
    + unfold bind. cbn [exn_kind].
      eexists _, false. split; [reflexivity|]. split; [discriminate|].
      intros (text' & d & Ht & Hd & _). injection Ht as <-. congruence.
  - rewrite (bind_Ok _ _ _ _ _ (path_exists_Some w _ _ Hfile)).
    unfold try_except, bind, read_text. rewrite Hfile.
    destruct (exn_kind e); eexists _, false;
      (split; [reflexivity|]; split; [discriminate|]);
      intros (text' & d & Ht & _); discriminate Ht.
  - unfold bind, path_exists, ask. rewrite Hfile.
    rewrite bool_decide_eq_false_2 by (intros [x Hx]; discriminate Hx).
    eexists _, false. split; [reflexivity|]. split; [discriminate|].
    intros (text' & d & Ht & _); discriminate Ht.
Qed.

(** The loop over the surfaces: the world is left as it was, and
    [found_any_pss] ends up true exactly when it was, or one of the files
    holds a valid summary. *)
Lemma load_all_run (w : World) (surfaces : list str) (acc : list (str * value))
    (found : bool) :
  exists data found',
    Aggregate.load_all surfaces acc found w = (Ok (data, found'), w)
    /\ (found' = true
        <-> found = true \/ exists s, In s surfaces /\ valid_summary_on_disk w s).
Proof.
  revert acc found. induction surfaces as [|s rest IH]; intros acc found.
  - exists acc, found. split; [reflexivity|]. split; [now left|].
    intros [H | (s & [] & _)]. exact H.
  - cbn [Aggregate.load_all].
    destruct (load_pss_run w s) as (data & valid & Hload & Hvalid).
    rewrite (bind_Ok _ _ _ _ _ Hload).
    destruct (IH (dict_set s data acc) (found || valid)) as (data' & found' & Hrun & Hfound).
    exists data', found'. split; [exact Hrun|].
    rewrite Hfound, orb_true_iff, Hvalid. split.
    + intros [[H | H] | (s' & Hin & Hs')].
      * now left.
      * right. exists s. split; [now left | exact H].
      * right. exists s'. split; [now right | exact Hs'].
    + intros [H | (s' & [<- | Hin] & Hs')].
      * left. now left.
      * left. now right.
      * right. now exists s'.
Qed.


End AggregatorRun.

Section Persist.
Import PyStr Shared Spec.

Ltac norm :=
  cbn [add_event set_log set_database files database duckdb_fault log tables
       qsr_reports default now].



End Persist.

(** ** The Aggregator from start to end *)
Section AggregatorOutput.
Import PyStr Shared Spec.


End AggregatorOutput.

(** ** C4, C3, C2 and C10 *)
Section AggregatorClaims.
Import PyStr Shared Spec.






(** C2 at two inputs the Aggregator can receive: the LLM answers with a
    valid JSON object whose tier is 7, or the string ["high"], and that is
    the tier of the report on disk; nothing between the parse and the write
    looks at it. *)
Lemma tier_is_not_checked :
  files (snd (Aggregate.main (py "prompts/aggregate_prompt.txt") (py "qsr_master.json")
                (demo_with_pss (Some tier_seven)))) !! py "qsr_master.json"
  = Some (Text (Json.dumps (Some 2)
                  (PyDict [(py "recommended_action", PyDict [(py "tier", PyInt 7)])])))
  /\ Json.loads (Json.dumps (Some 2)
                   (PyDict [(py "recommended_action", PyDict [(py "tier", PyInt 7)])]))
     = Some (PyDict [(py "recommended_action", PyDict [(py "tier", PyInt 7)])])
  /\ files (snd (Aggregate.main (py "prompts/aggregate_prompt.txt") (py "qsr_master.json")
                   (demo_with_pss (Some tier_high)))) !! py "qsr_master.json"
     = Some (Text (Json.dumps (Some 2)
                     (PyDict [(py "narrative", PyStr (py "ok"));
                              (py "recommended_action",
                               PyDict [(py "tier", PyStr (py "high"))])])))
  /\ Json.loads (Json.dumps (Some 2)
                   (PyDict [(py "narrative", PyStr (py "ok"));
                            (py "recommended_action",
                             PyDict [(py "tier", PyStr (py "high"))])]))
     = Some (PyDict [(py "narrative", PyStr (py "ok"));
                     (py "recommended_action", PyDict [(py "tier", PyStr (py "high"))])]).
Proof. vm_compute. repeat split. Qed.

(** C10.  A template without the marker makes both programs raise
    [IndexError] at the split, with the world as it was: nothing was asked
    of the database or of an LLM, and nothing was written.  A template with
    the marker never raises there: both halves are computed. *)
Theorem missing_marker_aborts (w : World) (t : str) :
  (contains TASK t = false ->
   (forall surface out,
      files w !! py "prompts/platform_prompt.txt" = Some (Text t) ->
      Platform.main surface out w
      = (Raise (Exn IndexError (py "list index out of range")), w))
   /\ (forall prompt out,
         files w !! prompt = Some (Text t) ->
         Aggregate.main prompt out w
         = (Raise (Exn IndexError (py "list index out of range")), w)))
  /\ (contains TASK t = true ->
      forall surface,
      exists sys sys' task,
        Platform.system_prompt_content t surface = inr sys
        /\ Aggregate.system_prompt_content t = inr sys'
        /\ Platform.user_task_instruction t = inr task
        /\ Aggregate.user_task_instruction t = inr task).
Proof.
  split.
  - intros Hmark. split.
    + intros surface out Hfile. unfold Platform.main.
      apply bind_Raise. now apply platform_prepare_no_marker with (t := t).
    + intros prompt out Hfile. unfold Aggregate.main.
      apply bind_Raise. now apply aggregate_prepare_no_marker with (t := t).
  - intros Hmark surface.
    destruct (user_task_instruction_marker t Hmark) as (a & b & _ & Htask).
    destruct (system_prompt_content_ok t surface) as [Hp Ha].
    eexists _, _, _. repeat split; [exact Hp | exact Ha | exact Htask |].
    rewrite <- user_task_instruction_agree. exact Htask.
Qed.

End AggregatorClaims.

(** ** The fuel of the reader *)
Section JsonFuel.
Import Json.

Lemma scan_once_S (f : nat) (s : str) :
  scan_once (S f) s
  = match s with
    | [] => None
    | c :: r =>
        if (c =? 34)%N then
          match scanstring r with
          | Some (k, t) => Some (PyStr k, t)
          | None => None
          end
        else if (c =? 123)%N then
          match skip_ws r with
          | c' :: r' =>
              if (c' =? 125)%N then Some (PyDict [], r')
              else
                match object_items f (skip_ws r) with
                | Some (pairs, t) => Some (PyDict (dict_of_pairs pairs), t)
                | None => None
                end
          | [] => None
          end
        else if (c =? 91)%N then
          match skip_ws r with
          | c' :: r' =>
              if (c' =? 93)%N then Some (PyList [], r')
              else
                match array_items f (skip_ws r) with
                | Some (l, t) => Some (PyList l, t)
                | None => None
                end
          | [] => None
          end
        else scan_word s
    end.
Proof. reflexivity. Qed.

Lemma array_items_S (f : nat) (s : str) :
  array_items (S f) s
  = match scan_once f s with
    | None => None
    | Some (v, r) =>
        match skip_ws r with
        | c :: r' =>
            if (c =? 93)%N then Some ([v], r')
            else if (c =? 44)%N then
              match array_items f (skip_ws r') with
              | Some (l, t) => Some (v :: l, t)
              | None => None
              end
            else None
        | [] => None
        end
    end.
Proof. reflexivity. Qed.

Lemma object_items_S (f : nat) (s : str) :
  object_items (S f) s
  = match s with
    | q :: r =>
        if (q =? 34)%N then
          match scanstring r with
          | None => None
          | Some (k, r1) =>
              match skip_ws r1 with
              | c :: r2 =>
                  if (c =? 58)%N then
                    match scan_once f (skip_ws r2) with
                    | None => None
                    | Some (v, r3) =>
                        match skip_ws r3 with
                        | c' :: r4 =>
                            if (c' =? 125)%N then Some ([(k, v)], r4)
                            else if (c' =? 44)%N then
                              match object_items f (skip_ws r4) with
                              | Some (d, t) => Some ((k, v) :: d, t)
                              | None => None
                              end
                            else None
                        | [] => None
                        end
                    end
                  else None
              | [] => None
              end
          end
        else None
    | [] => None
    end.
Proof. reflexivity. Qed.

(** More fuel reads the same. *)
Lemma scan_fuel_S (f : nat) :
  (forall s r, scan_once f s = Some r -> scan_once (S f) s = Some r)
  /\ (forall s r, array_items f s = Some r -> array_items (S f) s = Some r)
  /\ (forall s r, object_items f s = Some r -> object_items (S f) s = Some r).
Proof.
  induction f as [|f (IHv & IHl & IHd)]; [repeat split; intros; discriminate|].
  split; [|split]; intros s r H.
  - rewrite scan_once_S in *. destruct s as [|c s]; [discriminate|].
    destruct (c =? 34)%N; [exact H|]. destruct (c =? 123)%N.
    { destruct (skip_ws s) as [|c' r']; [discriminate|].
      destruct (c' =? 125)%N; [exact H|].
      destruct (object_items f (c' :: r')) as [[pairs t]|] eqn:E; [|discriminate].
      now rewrite (IHd _ _ E). }
    destruct (c =? 91)%N; [|exact H].
    destruct (skip_ws s) as [|c' r']; [discriminate|].
    destruct (c' =? 93)%N; [exact H|].
    destruct (array_items f (c' :: r')) as [[l t]|] eqn:E; [|discriminate].
    now rewrite (IHl _ _ E).
  - rewrite array_items_S in *.
    destruct (scan_once f s) as [[v r1]|] eqn:E; [|discriminate].
    rewrite (IHv _ _ E).
    destruct (skip_ws r1) as [|c r']; [discriminate|].
    destruct (c =? 93)%N; [exact H|]. destruct (c =? 44)%N; [|discriminate].
    destruct (array_items f (skip_ws r')) as [[l t]|] eqn:E2; [|discriminate].
    now rewrite (IHl _ _ E2).
  - rewrite object_items_S in *. destruct s as [|q s]; [discriminate|].
    destruct (q =? 34)%N; [|discriminate].
    destruct (scanstring s) as [[k r1]|]; [|discriminate].
    destruct (skip_ws r1) as [|c r2]; [discriminate|].
    destruct (c =? 58)%N; [|discriminate].
    destruct (scan_once f (skip_ws r2)) as [[v r3]|] eqn:E; [|discriminate].
    rewrite (IHv _ _ E).
    destruct (skip_ws r3) as [|c' r4]; [discriminate|].
    destruct (c' =? 125)%N; [exact H|]. destruct (c' =? 44)%N; [|discriminate].
    destruct (object_items f (skip_ws r4)) as [[d t]|] eqn:E2; [|discriminate].
    now rewrite (IHd _ _ E2).
Qed.

Lemma scan_fuel_le (f f' : nat) :
  f <= f' ->
  (forall s r, scan_once f s = Some r -> scan_once f' s = Some r)
  /\ (forall s r, array_items f s = Some r -> array_items f' s = Some r)
  /\ (forall s r, object_items f s = Some r -> object_items f' s = Some r).
Proof.
  induction 1 as [|f' _ (IHv & IHl & IHd)]; [now repeat split|].
  destruct (scan_fuel_S f') as (Hv & Hl & Hd).
  repeat split; intros s r H; auto.
Qed.

(** *** Every value takes a character *)

Lemma skip_ws_length (s : str) : length (skip_ws s) <= length s.
Proof.
  induction s as [|c s IH]; [reflexivity|]. cbn [skip_ws].
  destruct (is_ws c); cbn [length]; lia.
Qed.

Lemma scanstring_length (n : nat) :
  forall s k t, length s <= n -> scanstring s = Some (k, t) -> length t < length s.
Proof.
  induction n as [|n IH]; intros s k t Hn H.
  { destruct s; [discriminate | cbn [length] in Hn; lia]. }
  assert (Hrec : forall r c k' t',
             length r <= n ->
             match scanstring r with
             | Some (k, t) => Some (c :: k, t)
             | None => None
             end = Some (k', t') -> length t' < S (length r)).
  { intros r c k' t' Hr Hm.
    destruct (scanstring r) as [[k0 t0]|] eqn:E; [|discriminate].
    injection Hm as _ <-. apply IH in E; [lia | exact Hr]. }
  destruct s as [|c r]; [discriminate|]. cbn [scanstring] in H. cbn [length] in Hn.
  destruct (c =? 34)%N.
  { injection H as _ <-. cbn [length]. lia. }
  destruct (c =? 92)%N.
  - destruct r as [|e r1]; [discriminate|]. cbn [length] in *.
    destruct (e =? 117)%N.
    + destruct r1 as [|h1 [|h2 [|h3 [|h4 r2]]]]; try discriminate.
      cbn [length] in *.
      destruct (hex4 h1 h2 h3 h4) as [u|]; [|discriminate].
      destruct (if is_high_surrogate u then low_escape r2 else None) as [lo|].
      * destruct r2 as [|a1 [|a2 [|a3 [|a4 [|a5 [|a6 r3]]]]]];
          cbn [length] in *; apply Hrec in H; cbn [length] in *; lia.
      * apply Hrec in H; lia.
    + destruct (simple_escape e) as [x|]; [|discriminate].
      apply Hrec in H; lia.
  - destruct (c <? 32)%N; [discriminate|]. apply Hrec in H; cbn [length]; lia.
Qed.

Lemma span_digits_length (s : str) :
  length (fst (span_digits s)) + length (snd (span_digits s)) = length s.
Proof.
  induction s as [|c s IH]; [reflexivity|]. cbn [span_digits].
  destruct (is_digit c); [|reflexivity].
  destruct (span_digits s) as [ds r]. cbn [fst snd length] in *. lia.
Qed.

Lemma scan_int_length (s i r : str) :
  scan_int s = Some (i, r) -> length r < length s.
Proof.
  destruct s as [|c s]; [discriminate|]. cbn [scan_int].
  destruct (c =? 48)%N.
  { intros H. injection H as _ <-. cbn [length]. lia. }
  destruct (is_digit c) eqn:E; [|discriminate]. cbn [span_digits]. rewrite E.
  pose proof (span_digits_length s) as Hs. destruct (span_digits s) as [ds r'].
  intros H. injection H as _ <-. cbn [fst snd length] in *. lia.
Qed.

Lemma scan_frac_length (s : str) : length (snd (scan_frac s)) <= length s.
Proof.
  destruct s as [|c s]; [reflexivity|]. cbn [scan_frac].
  destruct (c =? 46)%N; [|reflexivity].
  pose proof (span_digits_length s) as Hs.
  destruct (span_digits s) as [[|d ds] r]; cbn [fst snd length] in *; lia.
Qed.

Lemma scan_exp_length (s : str) : length (snd (scan_exp s)) <= length s.
Proof.
  destruct s as [|c s]; [reflexivity|]. cbn [scan_exp].
  destruct ((c =? 101) || (c =? 69))%N; [|reflexivity].
  destruct s as [|g s].
  - cbn. lia.
  - destruct ((g =? 45) || (g =? 43))%N.
    + pose proof (span_digits_length s) as Hs.
      destruct (span_digits s) as [[|d ds] r]; cbn [fst snd length] in *; lia.
    + pose proof (span_digits_length (g :: s)) as Hs.
      destruct (span_digits (g :: s)) as [[|d ds] r]; cbn [fst snd length] in *; lia.
Qed.

Lemma scan_number_length (s : str) (v : value) (r : str) :
  scan_number s = Some (v, r) -> length r < length s.
Proof.
  unfold scan_number.
  assert (Hsign : length (snd (match s with
                               | c :: r => if (c =? 45)%N then ([c], r) else ([], s)
                               | [] => ([], s)
                               end)) <= length s).
  { destruct s as [|c s]; [reflexivity|]. destruct (c =? 45)%N; cbn [snd length]; lia. }
  destruct (match s with
            | c :: r => if (c =? 45)%N then ([c], r) else ([], s)
            | [] => ([], s)
            end) as [sign s1].
  cbn [snd] in Hsign.
  destruct (scan_int s1) as [[int s2]|] eqn:E; [|discriminate].
  apply scan_int_length in E.
  pose proof (scan_frac_length s2) as H3. destruct (scan_frac s2) as [frac s3].
  pose proof (scan_exp_length s3) as H4. destruct (scan_exp s3) as [exp s4].
  cbn [snd] in *.
  destruct frac, exp; intros H; injection H as _ <-; lia.
Qed.

Lemma startswith_shortens (p s : str) :
  PyStr.startswith p s = true -> p <> [] ->
  length (skipn (length p) s) < length s.
Proof.
  intros H Hp. rewrite length_skipn.
  destruct p as [|a p]; [congruence|]. destruct s as [|b s]; [discriminate|].
  cbn [length]. lia.
Qed.

Lemma scan_word_length (s : str) (v : value) (r : str) :
  scan_word s = Some (v, r) -> length r < length s.
Proof.
  unfold scan_word.
  destruct (PyStr.startswith (py "null") s) eqn:E1.
  { intros H. injection H as _ <-. now apply (startswith_shortens (py "null")). }
  destruct (PyStr.startswith (py "true") s) eqn:E2.
  { intros H. injection H as _ <-. now apply (startswith_shortens (py "true")). }
  destruct (PyStr.startswith (py "false") s) eqn:E3.
  { intros H. injection H as _ <-. now apply (startswith_shortens (py "false")). }
  destruct (scan_number s) as [[w t]|] eqn:E.
  { intros H. injection H as _ <-. now apply scan_number_length in E. }
  destruct (PyStr.startswith (py "NaN") s) eqn:E4.
  { intros H. injection H as _ <-. now apply (startswith_shortens (py "NaN")). }
  destruct (PyStr.startswith (py "Infinity") s) eqn:E5.
  { intros H. injection H as _ <-. now apply (startswith_shortens (py "Infinity")). }
  destruct (PyStr.startswith (py "-Infinity") s) eqn:E6; [|discriminate].
  intros H. injection H as _ <-. now apply (startswith_shortens (py "-Infinity")).
Qed.

Lemma scan_length (f : nat) :
  (forall s v r, scan_once f s = Some (v, r) -> length r < length s)
  /\ (forall s l r, array_items f s = Some (l, r) -> length r + 1 < length s)
  /\ (forall s d r, object_items f s = Some (d, r) -> length r + 1 < length s).
Proof.
  induction f as [|f (IHv & IHl & IHd)]; [repeat split; intros; discriminate|].
  split; [|split].
  - intros s v r H. rewrite scan_once_S in H. destruct s as [|c s]; [discriminate|].
    cbn [length]. destruct (c =? 34)%N.
    { destruct (scanstring s) as [[k t]|] eqn:E; [|discriminate].
      injection H as _ <-. apply (scanstring_length (length s)) in E; lia. }
    destruct (c =? 123)%N.
    { pose proof (skip_ws_length s) as Hs.
      destruct (skip_ws s) as [|c' r']; [discriminate|]. cbn [length] in Hs.
      destruct (c' =? 125)%N; [injection H as _ <-; lia|].
      destruct (object_items f (c' :: r')) as [[pairs t]|] eqn:E; [|discriminate].
      injection H as _ <-. apply IHd in E. cbn [length] in E. lia. }
    destruct (c =? 91)%N.
    { pose proof (skip_ws_length s) as Hs.
      destruct (skip_ws s) as [|c' r']; [discriminate|]. cbn [length] in Hs.
      destruct (c' =? 93)%N; [injection H as _ <-; lia|].
      destruct (array_items f (c' :: r')) as [[l t]|] eqn:E; [|discriminate].
      injection H as _ <-. apply IHl in E. cbn [length] in E. lia. }
    apply scan_word_length in H. cbn [length] in H. lia.
  - intros s l r H. rewrite array_items_S in H.
    destruct (scan_once f s) as [[v r1]|] eqn:E; [|discriminate].
    apply IHv in E. pose proof (skip_ws_length r1) as Hs.
    destruct (skip_ws r1) as [|c r']; [discriminate|]. cbn [length] in Hs.
    destruct (c =? 93)%N; [injection H as _ <-; lia|].
    destruct (c =? 44)%N; [|discriminate].
    pose proof (skip_ws_length r') as Hs'.
    destruct (array_items f (skip_ws r')) as [[l' t]|] eqn:E2; [|discriminate].
    injection H as _ <-. apply IHl in E2. lia.
  - intros s d r H. rewrite object_items_S in H. destruct s as [|q s]; [discriminate|].
    cbn [length]. destruct (q =? 34)%N; [|discriminate].
    destruct (scanstring s) as [[k r1]|] eqn:Ek; [|discriminate].
    apply (scanstring_length (length s)) in Ek; [|lia].
    pose proof (skip_ws_length r1) as H1.
    destruct (skip_ws r1) as [|c r2]; [discriminate|]. cbn [length] in H1.
    destruct (c =? 58)%N; [|discriminate].
    pose proof (skip_ws_length r2) as H2.
    destruct (scan_once f (skip_ws r2)) as [[v r3]|] eqn:E; [|discriminate].
    apply IHv in E. pose proof (skip_ws_length r3) as H3.
    destruct (skip_ws r3) as [|c' r4]; [discriminate|]. cbn [length] in H3.
    destruct (c' =? 125)%N; [injection H as _ <-; lia|].
    destruct (c' =? 44)%N; [|discriminate].
    pose proof (skip_ws_length r4) as H4.
    destruct (object_items f (skip_ws r4)) as [[d' t]|] eqn:E2; [|discriminate].
    injection H as _ <-. apply IHd in E2. lia.
Qed.

(** *** Twice the length of the text is fuel enough *)

Lemma scan_fuel (n : nat) :
  forall s, length s <= n ->
    (forall F r, scan_once F s = Some r -> scan_once (2 * n + 1) s = Some r)
    /\ (forall F r, array_items F s = Some r -> array_items (2 * n + 2) s = Some r)
    /\ (forall F r, object_items F s = Some r -> object_items (2 * n + 2) s = Some r).
Proof.
  induction n as [n IH] using lt_wf_ind. intros s Hs.
  assert (Hv : forall F r, scan_once F s = Some r -> scan_once (2 * n + 1) s = Some r).
  { intros [|g] r H; [discriminate|].
    replace (2 * n + 1) with (S (2 * n)) by lia.
    rewrite scan_once_S in *. destruct s as [|c s]; [discriminate|].
    cbn [length] in Hs. pose proof (skip_ws_length s) as Hws.
    destruct (IH (n - 1) ltac:(lia) (skip_ws s) ltac:(lia)) as (_ & IHl & IHd).
    replace (2 * (n - 1) + 2) with (2 * n) in * by lia.
    destruct (c =? 34)%N; [exact H|]. destruct (c =? 123)%N.
    { destruct (skip_ws s) as [|c' r']; [discriminate|].
      destruct (c' =? 125)%N; [exact H|].
      destruct (object_items g (c' :: r')) as [[pairs t]|] eqn:E; [|discriminate].
      now rewrite (IHd _ _ E). }
    destruct (c =? 91)%N; [|exact H].
    destruct (skip_ws s) as [|c' r']; [discriminate|].
    destruct (c' =? 93)%N; [exact H|].
    destruct (array_items g (c' :: r')) as [[l t]|] eqn:E; [|discriminate].
    now rewrite (IHl _ _ E). }
  split; [exact Hv|]. split.
  - intros [|g] r H; [discriminate|].
    replace (2 * n + 2) with (S (2 * n + 1)) by lia.
    rewrite array_items_S in *.
    destruct (scan_once g s) as [[v r1]|] eqn:E; [|discriminate].
    rewrite (Hv _ _ E). destruct (scan_length g) as (Hlen & _). apply Hlen in E.
    pose proof (skip_ws_length r1) as H1.
    destruct (skip_ws r1) as [|c r']; [discriminate|]. cbn [length] in H1.
    destruct (c =? 93)%N; [exact H|]. destruct (c =? 44)%N; [|discriminate].
    pose proof (skip_ws_length r') as H2.
    destruct (array_items g (skip_ws r')) as [[l t]|] eqn:E2; [|discriminate].
    destruct (IH (n - 1) ltac:(lia) (skip_ws r') ltac:(lia)) as (_ & IHl & _).
    apply IHl in E2.
    destruct (scan_fuel_le (2 * (n - 1) + 2) (2 * n + 1) ltac:(lia)) as (_ & Hle & _).
    now rewrite (Hle _ _ E2).
  - intros [|g] r H; [discriminate|].
    replace (2 * n + 2) with (S (2 * n + 1)) by lia.
    rewrite object_items_S in *. destruct s as [|q s]; [discriminate|].
    cbn [length] in Hs. destruct (q =? 34)%N; [|discriminate].
    destruct (scanstring s) as [[k r1]|] eqn:Ek; [|discriminate].
    apply (scanstring_length (length s)) in Ek; [|lia].
    pose proof (skip_ws_length r1) as H1.
    destruct (skip_ws r1) as [|c r2]; [discriminate|]. cbn [length] in H1.
    destruct (c =? 58)%N; [|discriminate].
    pose proof (skip_ws_length r2) as H2.
    destruct (scan_once g (skip_ws r2)) as [[v r3]|] eqn:E; [|discriminate].
    destruct (IH (n - 1) ltac:(lia) (skip_ws r2) ltac:(lia)) as (IHv & _ & _).
    pose proof (IHv _ _ E) as E'.
    destruct (scan_fuel_le (2 * (n - 1) + 1) (2 * n + 1) ltac:(lia)) as (Hle & _ & _).
    rewrite (Hle _ _ E').
    destruct (scan_length g) as (Hlen & _). apply Hlen in E.
    pose proof (skip_ws_length r3) as H3.
    destruct (skip_ws r3) as [|c' r4]; [discriminate|]. cbn [length] in H3.
    destruct (c' =? 125)%N; [exact H|]. destruct (c' =? 44)%N; [|discriminate].
    pose proof (skip_ws_length r4) as H4.
    destruct (object_items g (skip_ws r4)) as [[d t]|] eqn:E2; [|discriminate].
    destruct (IH (n - 1) ltac:(lia) (skip_ws r4) ltac:(lia)) as (_ & _ & IHd).
    apply IHd in E2.
    destruct (scan_fuel_le (2 * (n - 1) + 2) (2 * n + 1) ltac:(lia)) as (_ & _ & Hle').
    now rewrite (Hle' _ _ E2).
Qed.

(** The fuel of [loads] is enough for whatever can be read at all: a text
    it rejects is rejected by the scanner, not by the bound on its steps. *)
Lemma loads_fuel (s : str) (F : nat) (v : value) (r : str) :
  scan_once F (skip_ws s) = Some (v, r) ->
  scan_once (3 * length s + 3) (skip_ws s) = Some (v, r).
Proof.
  intros H. pose proof (skip_ws_length s) as Hs.
  destruct (scan_fuel (length s) (skip_ws s) Hs) as (Hv & _).
  apply Hv in H.
  destruct (scan_fuel_le (2 * length s + 1) (3 * length s + 3) ltac:(lia)) as (Hle & _).
  now apply Hle.
Qed.

Lemma loads_rejects (s : str) :
  Json.loads s = None -> PyStr.startswith [65279%N] s = false ->
  forall F v r, scan_once F (skip_ws s) = Some (v, r) -> skip_ws r <> [].
Proof.
  unfold Json.loads. intros H Hbom F v r Hscan. rewrite Hbom in H.
  rewrite (loads_fuel s F v r Hscan) in H.
  destruct (skip_ws r); [discriminate | congruence].
Qed.

End JsonFuel.

(** ** The reader of [json] on what its writer wrote *)
Section JsonRoundTrip.
Import Json.
Local Open Scope N_scope.

Ltac ndiv := zify; Z.to_euclidean_division_equations; lia.

Ltac ncase :=
  repeat match goal with
    | |- context [(?a <=? ?b)%N] => destruct (N.leb_spec a b); try ndiv
    | |- context [(?a <? ?b)%N] => destruct (N.ltb_spec a b); try ndiv
    | |- context [(?a =? ?b)%N] => destruct (N.eqb_spec a b); try ndiv
    end; cbn [andb orb negb].

Lemma hexval_hexdigit (d : N) : d < 16 -> hexval (hexdigit d) = Some d.
Proof.
  intros H. unfold hexval, hexdigit, is_digit.
  destruct (N.ltb_spec d 10); ncase; f_equal; lia.
Qed.

Lemma hex4_u_escape (c : N) :
  c < 65536 ->
  hex4 (hexdigit (c / 4096)) (hexdigit ((c / 256) mod 16))
    (hexdigit ((c / 16) mod 16)) (hexdigit (c mod 16)) = Some c.
Proof.
  intros H. unfold hex4.
  rewrite !hexval_hexdigit by ndiv. f_equal. ndiv.
Qed.

(** The four ways a character is written. *)
Lemma encode_char_cases (c : N) :
  c <= 1114111 ->
  (exists e, encode_char c = [92; e] /\ e <> 117 /\ simple_escape e = Some c)
  \/ (encode_char c = [c] /\ c <> 34 /\ c <> 92 /\ 32 <= c)
  \/ (c < 65536 /\ encode_char c = u_escape c)
  \/ (65536 <= c
      /\ encode_char c
         = u_escape (55296 + ((c - 65536) / 1024) mod 1024)
           ++ u_escape (56320 + (c - 65536) mod 1024)).
Proof.
  intros Hc. unfold encode_char.
  destruct (N.eqb_spec c 34) as [->|]; [left; now exists 34|].
  destruct (N.eqb_spec c 92) as [->|]; [left; now exists 92|].
  destruct (N.eqb_spec c 10) as [->|]; [left; now exists 110|].
  destruct (N.eqb_spec c 13) as [->|]; [left; now exists 114|].
  destruct (N.eqb_spec c 9) as [->|]; [left; now exists 116|].
  destruct (N.eqb_spec c 8) as [->|]; [left; now exists 98|].
  destruct (N.eqb_spec c 12) as [->|]; [left; now exists 102|].
  destruct ((32 <=? c) && (c <=? 126)) eqn:E.
  - right. left. apply andb_true_iff in E as [E1 E2]. apply N.leb_le in E1.
    now repeat split.
  - destruct (N.ltb_spec c 65536); right; right; [left | right]; now split.
Qed.

Lemma low_escape_u (u : N) (x : str) :
  u < 65536 ->
  low_escape (u_escape u ++ x) = if is_low_surrogate u then Some u else None.
Proof.
  intros H. unfold u_escape. cbn [app low_escape N.eqb Pos.eqb andb].
  now rewrite hex4_u_escape.
Qed.

(** No character but a low surrogate is written as the escape of one. *)
Lemma low_escape_encode (d : N) (x : str) :
  d <= 1114111 -> is_low_surrogate d = false -> low_escape (encode_char d ++ x) = None.
Proof.
  intros Hd Hlow.
  destruct (encode_char_cases d Hd)
    as [(e & -> & He & _) | [(-> & _ & H92 & _) | [(H & ->) | (H & ->)]]].
  - cbn [app low_escape]. destruct (N.eqb_spec e 117); [congruence|].
    now rewrite andb_false_r.
  - cbn [app low_escape]. destruct x; [reflexivity|].
    destruct (N.eqb_spec d 92); [congruence | reflexivity].
  - now rewrite low_escape_u, Hlow.
  - rewrite <- app_assoc, low_escape_u by ndiv.
    unfold is_low_surrogate. ncase; try reflexivity.
Qed.

Lemma scanstring_u (u : N) (more k t : str) :
  u < 65536 ->
  (is_high_surrogate u = true -> low_escape more = None) ->
  scanstring more = Some (k, t) ->
  scanstring (u_escape u ++ more) = Some (u :: k, t).
Proof.
  intros Hu Hhigh Hmore. unfold u_escape.
  cbn [app scanstring N.eqb Pos.eqb].
  rewrite hex4_u_escape by exact Hu.
  destruct (is_high_surrogate u).
  - rewrite (Hhigh eq_refl). now rewrite Hmore.
  - now rewrite Hmore.
Qed.

Lemma scanstring_encode_char (c : N) (more k t : str) :
  c <= 1114111 ->
  (is_high_surrogate c = true -> low_escape more = None) ->
  scanstring more = Some (k, t) ->
  scanstring (encode_char c ++ more) = Some (c :: k, t).
Proof.
  intros Hc Hhigh Hmore.
  destruct (encode_char_cases c Hc)
    as [(e & -> & He & Hs) | [(-> & H34 & H92 & H32) | [(H & ->) | (H & ->)]]].
  - cbn [app scanstring N.eqb Pos.eqb].
    destruct (N.eqb_spec e 117); [congruence|]. now rewrite Hs, Hmore.
  - cbn [app scanstring].
    destruct (N.eqb_spec c 34); [congruence|].
    destruct (N.eqb_spec c 92); [congruence|].
    destruct (N.ltb_spec c 32); [lia|]. now rewrite Hmore.
  - now apply scanstring_u.
  - rewrite <- app_assoc. unfold u_escape at 1.
    cbn [app scanstring N.eqb Pos.eqb].
    rewrite hex4_u_escape by ndiv.
    assert (Hhi : is_high_surrogate (55296 + ((c - 65536) / 1024) mod 1024) = true).
    { unfold is_high_surrogate. ncase; try reflexivity. }
    rewrite Hhi, low_escape_u by ndiv.
    assert (Hlo : is_low_surrogate (56320 + (c - 65536) mod 1024) = true).
    { unfold is_low_surrogate. ncase; try reflexivity. }
    rewrite Hlo. unfold u_escape. cbn [app]. rewrite Hmore.
    do 3 f_equal. unfold join_surrogates. ndiv.
Qed.

Lemma low_escape_quote (rest : str) : low_escape (34 :: rest) = None.
Proof. destruct rest; reflexivity. Qed.

(** A string literal is read back as the string it was written from. *)
Lemma scanstring_encode (s rest : str) :
  forallb (fun c => c <=? 1114111) s = true -> no_surrogate_pair s = true ->
  scanstring (flat_map encode_char s ++ 34 :: rest) = Some (s, rest).
Proof.
  induction s as [|c s IH]; intros Hmax Hpair; [reflexivity|].
  cbn [forallb] in Hmax. apply andb_true_iff in Hmax as [Hc Hmax].
  apply N.leb_le in Hc.
  cbn [no_surrogate_pair] in Hpair. apply andb_true_iff in Hpair as [Hcd Hpair].
  cbn [flat_map]. rewrite <- app_assoc.
  apply scanstring_encode_char; [exact Hc | | now apply IH].
  intros Hhigh. destruct s as [|d s]; [apply low_escape_quote|].
  cbn [flat_map]. rewrite <- app_assoc.
  cbn [forallb] in Hmax. apply andb_true_iff in Hmax as [Hd _]. apply N.leb_le in Hd.
  apply low_escape_encode; [exact Hd|].
  rewrite Hhigh in Hcd. now destruct (is_low_surrogate d).
Qed.

(** *** Integers *)

Lemma digits_fuel_S (fuel : nat) (n : N) (acc : str) :
  digits_fuel (S fuel) n acc
  = if n <? 10 then (48 + n) :: acc
    else digits_fuel fuel (n / 10) ((48 + n mod 10) :: acc).
Proof. reflexivity. Qed.

Lemma digits_fuel_spec (fuel : nat) :
  forall n acc,
    n < 2 ^ N.of_nat fuel ->
    exists c ds,
      digits_fuel (S fuel) n acc = (c :: ds) ++ acc
      /\ forallb is_digit (c :: ds) = true
      /\ (c = 48 -> n = 0)
      /\ exists m, forall a,
           fold_left (fun a d => 10 * a + (d - 48)) (c :: ds) a = a * m + n.
Proof.
  induction fuel as [|fuel IH]; intros n acc Hn.
  - assert (n = 0) as -> by (cbn in Hn; lia).
    exists 48, []. repeat split. exists 10. intros a. cbn. lia.
  - rewrite digits_fuel_S. destruct (N.ltb_spec n 10) as [Hlt|Hge].
    + exists (48 + n), []. split; [reflexivity|]. split.
      { cbn. unfold is_digit. ncase; reflexivity. }
      split; [lia|]. exists 10. intros a. cbn. lia.
    + rewrite Nat2N.inj_succ, N.pow_succ_r' in Hn.
      destruct (IH (n / 10) ((48 + n mod 10) :: acc)) as (c & ds & Hds & Hdig & Hc & m & Hm).
      { ndiv. }
      exists c, (ds ++ [48 + n mod 10]). split.
      { rewrite Hds. cbn [app]. now rewrite <- app_assoc. }
      split.
      { change (c :: ds ++ [48 + n mod 10]) with ((c :: ds) ++ [48 + n mod 10]).
        rewrite forallb_app, Hdig. cbn. unfold is_digit. ncase; reflexivity. }
      split; [intros E; specialize (Hc E); ndiv|].
      exists (10 * m). intros a.
      change (c :: ds ++ [48 + n mod 10]) with ((c :: ds) ++ [48 + n mod 10]).
      rewrite fold_left_app, Hm. cbn [fold_left]. ndiv.
Qed.

Lemma digits_spec (n : N) :
  exists c ds,
    digits n = c :: ds
    /\ forallb is_digit (c :: ds) = true
    /\ (c = 48 -> n = 0)
    /\ digits_value (c :: ds) = n.
Proof.
  destruct (digits_fuel_spec (N.to_nat (N.size n)) n [])
    as (c & ds & Hds & Hdig & Hc & m & Hm).
  { rewrite N2Nat.id. apply N.size_gt. }
  exists c, ds. unfold digits. rewrite Hds, app_nil_r.
  repeat split; try assumption. unfold digits_value. rewrite Hm. lia.
Qed.

(** *** The scanner on a text that goes on *)

Lemma delimited_head (c : N) (tl : str) :
  delimited (c :: tl) = true -> c = 44 \/ c = 10 \/ c = 93 \/ c = 125.
Proof.
  unfold delimited. rewrite !orb_true_iff, !N.eqb_eq. tauto.
Qed.

Lemma span_digits_app (a rest : str) :
  delimited rest = true ->
  span_digits (a ++ rest) = (fst (span_digits a), snd (span_digits a) ++ rest).
Proof.
  intros Hrest. induction a as [|c a IH].
  - destruct rest as [|d tl]; [reflexivity|].
    destruct (delimited_head d tl Hrest) as [-> | [-> | [-> | ->]]]; reflexivity.
  - cbn [app span_digits]. destruct (is_digit c); [|reflexivity].
    rewrite IH. now destruct (span_digits a).
Qed.

Lemma scan_int_app (s rest : str) :
  delimited rest = true ->
  scan_int (s ++ rest)
  = match scan_int s with
    | Some (i, r) => Some (i, r ++ rest)
    | None => None
    end.
Proof.
  intros Hrest. destruct s as [|c s].
  - destruct rest as [|d tl]; [reflexivity|].
    destruct (delimited_head d tl Hrest) as [-> | [-> | [-> | ->]]]; reflexivity.
  - cbn [app scan_int]. destruct (c =? 48); [reflexivity|].
    destruct (is_digit c); [|reflexivity].
    change (c :: s ++ rest) with ((c :: s) ++ rest).
    rewrite span_digits_app by exact Hrest. now destruct (span_digits (c :: s)).
Qed.

Lemma scan_frac_app (s rest : str) :
  delimited rest = true ->
  scan_frac (s ++ rest) = (fst (scan_frac s), snd (scan_frac s) ++ rest).
Proof.
  intros Hrest. destruct s as [|c s].
  - destruct rest as [|d tl]; [reflexivity|].
    destruct (delimited_head d tl Hrest) as [-> | [-> | [-> | ->]]]; reflexivity.
  - cbn [app scan_frac]. destruct (c =? 46); [|reflexivity].
    rewrite span_digits_app by exact Hrest.
    destruct (span_digits s) as [[|d ds] r]; reflexivity.
Qed.

Lemma scan_exp_app (s rest : str) :
  delimited rest = true ->
  scan_exp (s ++ rest) = (fst (scan_exp s), snd (scan_exp s) ++ rest).
Proof.
  intros Hrest. destruct s as [|c s].
  - destruct rest as [|d tl]; [reflexivity|].
    destruct (delimited_head d tl Hrest) as [-> | [-> | [-> | ->]]]; reflexivity.
  - cbn [app scan_exp]. destruct ((c =? 101) || (c =? 69)); [|reflexivity].
    destruct s as [|g s].
    + cbn [app]. destruct rest as [|d tl]; [reflexivity|].
      destruct (delimited_head d tl Hrest) as [-> | [-> | [-> | ->]]]; reflexivity.
    + cbn [app]. destruct ((g =? 45) || (g =? 43)).
      * rewrite span_digits_app by exact Hrest.
        destruct (span_digits s) as [[|d ds] r]; reflexivity.
      * change (g :: s ++ rest) with ((g :: s) ++ rest).
        rewrite span_digits_app by exact Hrest.
        destruct (span_digits (g :: s)) as [[|d ds] r]; reflexivity.
Qed.

Lemma scan_number_app (s rest : str) :
  delimited rest = true ->
  scan_number (s ++ rest)
  = match scan_number s with
    | Some (v, r) => Some (v, r ++ rest)
    | None => None
    end.
Proof.
  intros Hrest. unfold scan_number.
  assert (Hsign :
    (match s ++ rest with
     | c :: r => if c =? 45 then ([c], r) else ([], s ++ rest)
     | [] => ([], s ++ rest)
     end)
    = (fst (match s with
            | c :: r => if c =? 45 then ([c], r) else ([], s)
            | [] => ([], s)
            end),
       snd (match s with
            | c :: r => if c =? 45 then ([c], r) else ([], s)
            | [] => ([], s)
            end) ++ rest)).
  { destruct s as [|c s].
    - destruct rest as [|d tl]; [reflexivity|].
      destruct (delimited_head d tl Hrest) as [-> | [-> | [-> | ->]]]; reflexivity.
    - cbn [app]. destruct (c =? 45); reflexivity. }
  rewrite Hsign.
  destruct (match s with
            | c :: r => if c =? 45 then ([c], r) else ([], s)
            | [] => ([], s)
            end) as [sign s1].
  cbn [fst snd]. rewrite scan_int_app by exact Hrest.
  destruct (scan_int s1) as [[int s2]|]; [|reflexivity].
  rewrite scan_frac_app by exact Hrest.
  destruct (scan_frac s2) as [frac s3]. cbn [fst snd].
  rewrite scan_exp_app by exact Hrest.
  destruct (scan_exp s3) as [exp s4]. cbn [fst snd].
  destruct frac, exp; reflexivity.
Qed.

Lemma span_digits_all (ds : str) :
  forallb is_digit ds = true -> span_digits ds = (ds, []).
Proof.
  induction ds as [|c ds IH]; [reflexivity|]. cbn [forallb span_digits].
  intros H. apply andb_true_iff in H as [-> H]. now rewrite IH.
Qed.

Lemma scan_number_digits (n : N) :
  scan_number (digits n) = Some (PyInt (Z.of_N n), []).
Proof.
  destruct (digits_spec n) as (c & ds & Hds & Hdig & Hc & Hval).
  destruct (N.eqb_spec c 48) as [E|E].
  - rewrite (Hc E). reflexivity.
  - rewrite Hds. unfold scan_number.
    assert (H45 : (c =? 45) = false).
    { cbn [forallb] in Hdig. apply andb_true_iff in Hdig as [Hd _].
      unfold is_digit in Hd. apply andb_true_iff in Hd as [H1 H2].
      apply N.leb_le in H1, H2. apply N.eqb_neq. lia. }
    rewrite H45. unfold scan_int.
    apply N.eqb_neq in E. rewrite E.
    pose proof Hdig as Hdig'. cbn [forallb] in Hdig'.
    apply andb_true_iff in Hdig' as [-> _].
    rewrite (span_digits_all _ Hdig). cbn [scan_frac scan_exp]. now rewrite Hval.
Qed.

Lemma digits_head (n : N) :
  exists c ds, digits n = c :: ds /\ is_digit c = true.
Proof.
  destruct (digits_spec n) as (c & ds & Hds & Hdig & _).
  exists c, ds. split; [exact Hds|].
  cbn [forallb] in Hdig. now apply andb_true_iff in Hdig as [-> _].
Qed.

Lemma scan_number_neg (n : N) :
  scan_number (45 :: digits n) = Some (PyInt (- Z.of_N n), []).
Proof.
  pose proof (scan_number_digits n) as H.
  destruct (digits_head n) as (c & ds & Hds & Hc).
  rewrite Hds in *. unfold scan_number in *. cbn [N.eqb Pos.eqb].
  assert (H45 : (c =? 45) = false).
  { unfold is_digit in Hc. apply andb_true_iff in Hc as [H1 H2].
    apply N.leb_le in H1, H2. apply N.eqb_neq. lia. }
  rewrite H45 in H.
  destruct (scan_int (c :: ds)) as [[int s2]|]; [|discriminate].
  destruct (scan_frac s2) as [frac s3]. destruct (scan_exp s3) as [exp s4].
  destruct frac, exp; try discriminate.
  injection H as H ->. apply Nat2Z.inj in H || idtac.
  do 3 f_equal. lia.
Qed.

(** An integer is read back as it was written. *)
Lemma scan_number_encode_int (z : Z) :
  scan_number (encode_int z) = Some (PyInt z, []).
Proof.
  unfold encode_int. destruct (Z.ltb_spec z 0).
  - rewrite scan_number_neg. do 3 f_equal. lia.
  - rewrite scan_number_digits. do 3 f_equal. lia.
Qed.

(** A number starts with a sign or a digit. *)
Lemma scan_number_start (s : str) (v : value) (r : str) :
  scan_number s = Some (v, r) ->
  exists c tl, s = c :: tl /\ (c = 45 \/ is_digit c = true).
Proof.
  destruct s as [|c tl]; [discriminate|]. intros H. exists c, tl. split; [reflexivity|].
  unfold scan_number in H. destruct (N.eqb_spec c 45) as [E|E]; [now left|].
  right. unfold scan_int in H. destruct (c =? 48) eqn:E48.
  - apply N.eqb_eq in E48. now subst c.
  - destruct (is_digit c); [reflexivity | discriminate].
Qed.

Lemma number_start_value_start (c : N) :
  c = 45 \/ is_digit c = true -> value_start c = true.
Proof.
  intros [-> | H]; [reflexivity|]. unfold value_start. rewrite H.
  now rewrite !orb_true_r.
Qed.

(** Where a number is read, no word of the scanner is tried before it. *)
Lemma scan_word_number (s : str) (v : value) (r : str) :
  scan_number s = Some (v, r) -> scan_word s = Some (v, r).
Proof.
  intros H. destruct (scan_number_start s v r H) as (c & tl & -> & Hc).
  unfold scan_word. rewrite H.
  assert (Hn : (110 =? c) = false /\ (116 =? c) = false /\ (102 =? c) = false).
  { destruct Hc as [-> | Hc]; [now repeat split|].
    unfold is_digit in Hc. apply andb_true_iff in Hc as [H1 H2].
    apply N.leb_le in H1, H2. repeat split; apply N.eqb_neq; lia. }
  destruct Hn as (H1 & H2 & H3).
  change (py "null") with [110; 117; 108; 108].
  change (py "true") with [116; 114; 117; 101].
  change (py "false") with [102; 97; 108; 115; 101].
  cbn [PyStr.startswith]. unfold PyStr.eqc.
  now rewrite H1, H2, H3.
Qed.

(** *** White space and the heads of values *)

Lemma skip_ws_app (ws x : str) :
  forallb is_ws ws = true -> skip_ws (ws ++ x) = skip_ws x.
Proof.
  induction ws as [|c ws IH]; [reflexivity|]. cbn [forallb app skip_ws].
  intros H. apply andb_true_iff in H as [-> H]. now apply IH.
Qed.

Lemma skip_ws_start (c : N) (tl : str) :
  is_ws c = false -> skip_ws (c :: tl) = c :: tl.
Proof. intros H. cbn [skip_ws]. now rewrite H. Qed.

Lemma newline_indent_ws (i : option nat) (lvl : nat) :
  forallb is_ws (newline_indent i lvl) = true.
Proof.
  destruct i as [n|]; [|reflexivity]. cbn [newline_indent forallb].
  change (is_ws 10) with true. cbn [andb].
  induction (n * lvl)%nat as [|k IH]; [reflexivity|]. cbn [repeat forallb].
  now rewrite IH.
Qed.

Lemma item_separator_eq (i : option nat) (lvl : nat) :
  exists ws, item_separator i lvl = 44 :: ws /\ forallb is_ws ws = true.
Proof.
  destruct i as [n|].
  - exists (newline_indent (Some n) lvl). split; [reflexivity|].
    apply newline_indent_ws.
  - now exists [32].
Qed.

Lemma value_start_cases (c : N) :
  value_start c = true ->
  is_ws c = false /\ c <> 93 /\ c <> 125 /\ c <> 65279 /\ (c <? 32) = false.
Proof.
  unfold value_start. rewrite !orb_true_iff. unfold is_digit, is_ws.
  rewrite andb_true_iff, !N.eqb_eq, !N.leb_le.
  intros H. assert (Hc : 32 < c /\ c < 124 /\ c <> 93) by lia. clear H.
  repeat split; try lia.
  - rewrite !orb_false_iff, !N.eqb_neq. lia.
  - apply N.ltb_ge. lia.
Qed.

Lemma delimited_close (i : option nat) (lvl : nat) (c : N) (rest : str) :
  c = 93 \/ c = 125 -> delimited (newline_indent i lvl ++ c :: rest) = true.
Proof.
  intros Hc. destruct i as [n|]; [reflexivity|].
  destruct Hc as [-> | ->]; reflexivity.
Qed.

Lemma skip_ws_close (i : option nat) (lvl : nat) (c : N) (rest : str) :
  c = 93 \/ c = 125 -> skip_ws (newline_indent i lvl ++ c :: rest) = c :: rest.
Proof.
  intros Hc. rewrite skip_ws_app by apply newline_indent_ws.
  destruct Hc as [-> | ->]; reflexivity.
Qed.

(** What is written for a value starts with a character that only a
    value starts with. *)
Lemma encode_head (i : option nat) (lvl : nat) (v : value) :
  representable v = true ->
  exists c tl, encode i lvl v = c :: tl /\ value_start c = true.
Proof.
  intros Hv. destruct v as [| [|] | z | lit | s | [|x l] | [|[k x] d]];
    try (now eexists _, _; split; [reflexivity|]).
  - cbn [encode]. unfold encode_int. destruct (z <? 0)%Z.
    + now eexists _, _; split; [reflexivity|].
    + destruct (digits_head (Z.to_N z)) as (c & ds & -> & Hc).
      exists c, ds. split; [reflexivity|]. apply number_start_value_start. now right.
  - cbn [representable] in Hv. unfold float_literal in Hv.
    destruct (scan_number lit) as [[w r]|] eqn:E; [|discriminate].
    destruct (scan_number_start _ _ _ E) as (c & tl & -> & Hc).
    exists c, tl. split; [reflexivity|]. now apply number_start_value_start.
Qed.

Lemma encode_length (i : option nat) (lvl : nat) (v : value) :
  representable v = true -> (1 <= length (encode i lvl v))%nat.
Proof.
  intros Hv. destruct (encode_head i lvl v Hv) as (c & tl & -> & _).
  cbn [length]. lia.
Qed.

(** Past white space, a value. *)
Lemma skip_ws_value (i : option nat) (lvl : nat) (v : value) (ws more : str) :
  representable v = true -> forallb is_ws ws = true ->
  skip_ws (ws ++ encode i lvl v ++ more) = encode i lvl v ++ more.
Proof.
  intros Hv Hws. rewrite skip_ws_app by exact Hws.
  destruct (encode_head i lvl v Hv) as (c & tl & -> & Hc).
  apply skip_ws_start. now apply value_start_cases.
Qed.

Lemma skip_ws_encode (i : option nat) (lvl : nat) (v : value) (more : str) :
  representable v = true ->
  skip_ws (encode i lvl v ++ more) = encode i lvl v ++ more.
Proof. intros Hv. now apply (skip_ws_value i lvl v [] more). Qed.

(** *** The items of a list and of a dict *)

Local Abbreviation more_items i lvl l :=
  (flat_map (fun y => item_separator i lvl ++ encode i lvl y) l).

Local Abbreviation more_pairs i lvl d :=
  (flat_map (fun kv : str * value =>
               item_separator i lvl ++ encode_str (fst kv) ++ [58; 32]
               ++ encode i lvl (snd kv)) d).

Lemma encode_list (i : option nat) (lvl : nat) (x : value) (l : list value) :
  encode i lvl (PyList (x :: l))
  = 91 :: newline_indent i (S lvl) ++ encode i (S lvl) x
    ++ more_items i (S lvl) l ++ newline_indent i lvl ++ [93].
Proof.
  cbn [encode]. change (py "[") with [91]. change (py "]") with [93].
  cbn [app]. do 4 f_equal.
  induction l as [|y l IH]; [reflexivity|].
  cbn [flat_map]. rewrite <- app_assoc. now rewrite IH.
Qed.

Lemma encode_dict (i : option nat) (lvl : nat) (k : str) (x : value)
    (d : list (str * value)) :
  encode i lvl (PyDict ((k, x) :: d))
  = 123 :: newline_indent i (S lvl) ++ encode_str k ++ [58; 32]
    ++ encode i (S lvl) x
    ++ more_pairs i (S lvl) d ++ newline_indent i lvl ++ [125].
Proof.
  cbn [encode]. change (py "{") with [123]. change (py "}") with [125].
  change (py ": ") with [58; 32].
  cbn [app]. do 7 f_equal.
  induction d as [|[k' y] d IH]; [reflexivity|].
  cbn [flat_map fst snd]. rewrite <- !app_assoc. cbn [app]. now rewrite IH.
Qed.

(** *** A dict from pairs with distinct keys *)

Lemma dict_set_fresh (k : str) (v : value) (d : list (str * value)) :
  k ∉ map fst d -> dict_set k v d = d ++ [(k, v)].
Proof.
  induction d as [|[k' v'] d IH]; [reflexivity|]. cbn [map fst dict_set app].
  intros H. apply not_elem_of_cons in H as [Hne H]. unfold str_eqb.
  rewrite bool_decide_eq_false_2 by exact Hne. now rewrite IH.
Qed.

Lemma dict_of_pairs_app (d acc : list (str * value)) :
  NoDup (map fst (acc ++ d)) ->
  fold_left (fun d kv => dict_set (fst kv) (snd kv) d) d acc = acc ++ d.
Proof.
  revert acc. induction d as [|[k v] d IH]; intros acc H.
  - now rewrite app_nil_r.
  - cbn [fold_left fst snd].
    assert (Hk : k ∉ map fst acc).
    { rewrite map_app in H. apply NoDup_app in H as (_ & H & _).
      intros Hin. apply (H k Hin). cbn [map fst]. apply elem_of_cons. now left. }
    rewrite (dict_set_fresh k v acc Hk), IH; rewrite <- app_assoc; [reflexivity|].
    exact H.
Qed.

Lemma dict_of_pairs_nodup (d : list (str * value)) :
  NoDup (map fst d) -> dict_of_pairs d = d.
Proof. intros H. unfold dict_of_pairs. now rewrite dict_of_pairs_app. Qed.

(** *** Values *)

Lemma scan_once_number (f : nat) (s : str) (v : value) (rest : str) :
  scan_number s = Some (v, []) -> delimited rest = true ->
  scan_once (S f) (s ++ rest) = Some (v, rest).
Proof.
  intros Hs Hrest.
  assert (H : scan_number (s ++ rest) = Some (v, rest)).
  { rewrite scan_number_app by exact Hrest. now rewrite Hs. }
  destruct (scan_number_start _ _ _ Hs) as (c & tl & -> & Hc).
  apply scan_word_number in H. cbn [app] in *. cbn [scan_once].
  assert (Hn : (c =? 34) = false /\ (c =? 123) = false /\ (c =? 91) = false).
  { destruct Hc as [-> | Hc]; [now repeat split|].
    unfold is_digit in Hc. apply andb_true_iff in Hc as [H1 H2].
    apply N.leb_le in H1, H2. repeat split; apply N.eqb_neq; lia. }
  destruct Hn as (-> & -> & ->). exact H.
Qed.

Lemma list_body (f : nat) (text : str) (l : list value) (rest : str) :
  (exists c tl, text = c :: tl /\ c <> 93) ->
  array_items f text = Some (l, rest) ->
  match text with
  | c' :: r' =>
      if c' =? 93 then Some (PyList [], r')
      else
        match array_items f text with
        | Some (l, t) => Some (PyList l, t)
        | None => None
        end
  | [] => None
  end = Some (PyList l, rest).
Proof.
  intros (c & tl & -> & Hc) ->. apply N.eqb_neq in Hc. now rewrite Hc.
Qed.

Lemma dict_body (f : nat) (text : str) (d : list (str * value)) (rest : str) :
  (exists c tl, text = c :: tl /\ c <> 125) ->
  object_items f text = Some (d, rest) ->
  match text with
  | c' :: r' =>
      if c' =? 125 then Some (PyDict [], r')
      else
        match object_items f text with
        | Some (pairs, t) => Some (PyDict (dict_of_pairs pairs), t)
        | None => None
        end
  | [] => None
  end = Some (PyDict (dict_of_pairs d), rest).
Proof.
  intros (c & tl & -> & Hc) ->. apply N.eqb_neq in Hc. now rewrite Hc.
Qed.

(** What follows an item: the separator and the next item, or the line
    break before the closing bracket. *)
Lemma delimited_items (i : option nat) (lvl : nat) (l : list value)
    (c : N) (rest : str) :
  c = 93 \/ c = 125 ->
  delimited (more_items i (S lvl) l ++ newline_indent i lvl ++ c :: rest) = true.
Proof.
  intros Hc. destruct l as [|y l]; [now apply delimited_close|].
  cbn [flat_map]. destruct (item_separator_eq i (S lvl)) as (ws & -> & _).
  reflexivity.
Qed.

Lemma delimited_pairs (i : option nat) (lvl : nat) (d : list (str * value))
    (c : N) (rest : str) :
  c = 93 \/ c = 125 ->
  delimited (more_pairs i (S lvl) d ++ newline_indent i lvl ++ c :: rest) = true.
Proof.
  intros Hc. destruct d as [|y d]; [now apply delimited_close|].
  cbn [flat_map]. destruct (item_separator_eq i (S lvl)) as (ws & -> & _).
  reflexivity.
Qed.

Lemma encode_str_app (k t : str) :
  encode_str k ++ t = 34 :: flat_map encode_char k ++ 34 :: t.
Proof. unfold encode_str. cbn [app]. now rewrite <- app_assoc. Qed.

Lemma skip_ws_str (k t : str) : skip_ws (encode_str k ++ t) = encode_str k ++ t.
Proof. rewrite encode_str_app. reflexivity. Qed.

Ltac flatten := repeat (progress (rewrite <- ?app_assoc; cbn [app])).

(** The reader on what the writer wrote, with fuel for the text. *)
Lemma scan_encode (i : option nat) (fuel : nat) :
  (forall v lvl rest,
      (length (encode i lvl v) <= fuel)%nat ->
      representable v = true -> delimited rest = true ->
      scan_once fuel (encode i lvl v ++ rest) = Some (v, rest))
  /\ (forall x l lvl rest,
        (length (encode i (S lvl) x ++ more_items i (S lvl) l) < fuel)%nat ->
        forallb representable (x :: l) = true ->
        array_items fuel
          (encode i (S lvl) x ++ more_items i (S lvl) l
           ++ newline_indent i lvl ++ 93 :: rest)
        = Some (x :: l, rest))
  /\ (forall k x d lvl rest,
        (length (encode_str k ++ [58; 32]%N ++ encode i (S lvl) x
                 ++ more_pairs i (S lvl) d) < fuel)%nat ->
        forallb (fun kv => text_ok (fst kv) && representable (snd kv))
          ((k, x) :: d) = true ->
        object_items fuel
          (encode_str k ++ [58; 32] ++ encode i (S lvl) x
           ++ more_pairs i (S lvl) d ++ newline_indent i lvl ++ 125 :: rest)
        = Some ((k, x) :: d, rest)).
Proof.
  induction fuel as [|f (IHv & IHl & IHd)].
  { split; [|split; intros; lia].
    intros v lvl rest Hlen Hv _. pose proof (encode_length i lvl v Hv). lia. }
  split; [|split].
  - intros v lvl rest Hlen Hv Hrest.
    destruct v as [| [|] | z | lit | s | [|x l] | [|[k x] d]]; try reflexivity.
    + apply scan_once_number; [apply scan_number_encode_int | exact Hrest].
    + apply scan_once_number; [|exact Hrest].
      cbn [representable] in Hv. unfold float_literal in Hv. cbn [encode].
      destruct (scan_number lit) as [[[] [|]]|]; try discriminate.
      apply bool_decide_eq_true_1 in Hv. now subst.
    + cbn [representable] in Hv. unfold text_ok in Hv.
      apply andb_true_iff in Hv as [H1 H2].
      cbn [encode]. rewrite encode_str_app. cbn [app scan_once N.eqb Pos.eqb].
      now rewrite scanstring_encode.
    + rewrite encode_list in *. cbn [representable] in Hv.
      pose proof Hv as Hx. cbn [forallb] in Hx. apply andb_true_iff in Hx as [Hx _].
      cbn [app scan_once N.eqb Pos.eqb]. flatten.
      rewrite (skip_ws_value i (S lvl) x _ _ Hx (newline_indent_ws i (S lvl))).
      apply list_body.
      * destruct (encode_head i (S lvl) x Hx) as (c & tl & -> & Hc).
        exists c, (tl ++ more_items i (S lvl) l ++ newline_indent i lvl ++ 93 :: rest).
        split; [reflexivity|]. now apply value_start_cases.
      * apply IHl; [|exact Hv]. cbn [length] in Hlen.
        rewrite !length_app in Hlen. cbn [length] in Hlen. rewrite length_app. lia.
    + rewrite encode_dict in *. cbn [representable] in Hv.
      apply andb_true_iff in Hv as [Hv Hnd]. apply bool_decide_eq_true_1 in Hnd.
      cbn [app scan_once N.eqb Pos.eqb]. flatten.
      rewrite skip_ws_app by apply newline_indent_ws.
      rewrite skip_ws_str.
      replace (PyDict ((k, x) :: d)) with (PyDict (dict_of_pairs ((k, x) :: d)))
        by now rewrite dict_of_pairs_nodup.
      apply dict_body.
      * rewrite encode_str_app. now eexists _, _.
      * apply IHd; [|exact Hv]. cbn [length] in Hlen.
        rewrite !length_app in Hlen. cbn [length] in Hlen.
        rewrite !length_app. cbn [length]. lia.
  - intros x l lvl rest Hlen Hv.
    cbn [forallb] in Hv. apply andb_true_iff in Hv as [Hx Hl].
    cbn [array_items].
    rewrite IHv; [| rewrite length_app in Hlen; lia | exact Hx
                 | apply delimited_items; now left].
    destruct l as [|y l].
    + cbn [flat_map app]. rewrite skip_ws_close by now left.
      reflexivity.
    + cbn [forallb] in Hl. apply andb_true_iff in Hl as [Hy Hl].
      cbn [flat_map] in *.
      destruct (item_separator_eq i (S lvl)) as (ws & Hsep & Hws).
      assert (Happ : forall t, item_separator i (S lvl) ++ t = 44 :: ws ++ t)
        by (intros t; now rewrite Hsep).
      assert (Hlen' : (length (encode i (S lvl) y ++ more_items i (S lvl) l) < f)%nat).
      { pose proof (encode_length i (S lvl) x Hx).
        rewrite !length_app in *. lia. }
      flatten. rewrite Happ.
      cbn [skip_ws]. change (is_ws 44) with false. cbn [N.eqb Pos.eqb].
      rewrite (skip_ws_value i (S lvl) y ws _ Hy Hws).
      rewrite IHl; [reflexivity | exact Hlen' |].
      cbn [forallb]. now rewrite Hy, Hl.
  - intros k x d lvl rest Hlen Hv.
    cbn [forallb fst snd] in Hv. apply andb_true_iff in Hv as [Hkx Hd].
    apply andb_true_iff in Hkx as [Hk Hx].
    unfold text_ok in Hk. apply andb_true_iff in Hk as [Hk1 Hk2].
    assert (Hx' : (length (encode i (S lvl) x) <= f)%nat).
    { rewrite !length_app in Hlen. unfold encode_str in Hlen.
      cbn [length app] in Hlen. lia. }
    rewrite encode_str_app. cbn [app object_items N.eqb Pos.eqb].
    rewrite scanstring_encode by assumption.
    cbn [skip_ws]. change (is_ws 58) with false. cbn [N.eqb Pos.eqb].
    cbn [skip_ws]. change (is_ws 32) with true. cbv iota.
    rewrite (skip_ws_encode i (S lvl) x _ Hx).
    rewrite IHv; [| exact Hx' | exact Hx | apply delimited_pairs; now right].
    destruct d as [|[k' y] d].
    + cbn [flat_map app]. rewrite skip_ws_close by now right.
      reflexivity.
    + cbn [flat_map fst snd] in *.
      destruct (item_separator_eq i (S lvl)) as (ws & Hsep & Hws).
      assert (Happ : forall t, item_separator i (S lvl) ++ t = 44 :: ws ++ t)
        by (intros t; now rewrite Hsep).
      assert (Hlen' : (length (encode_str k' ++ [58; 32]%N ++ encode i (S lvl) y
                               ++ more_pairs i (S lvl) d) < f)%nat).
      { rewrite !length_app in *. cbn [length] in *. lia. }
      flatten. rewrite Happ.
      cbn [skip_ws]. change (is_ws 44) with false. cbn [N.eqb Pos.eqb].
      rewrite skip_ws_app by exact Hws. rewrite skip_ws_str.
      change (58 :: 32 :: ?t) with ([58; 32] ++ t).
      rewrite IHd; [reflexivity | exact Hlen' | exact Hd].
Qed.

(** [json.loads(json.dumps(v, indent=...))] is [v]. *)
Lemma loads_dumps (i : option nat) (v : value) :
  representable v = true -> Json.loads (Json.dumps i v) = Some v.
Proof.
  intros Hv. unfold Json.loads, Json.dumps.
  destruct (encode_head i 0 v Hv) as (c & tl & E & Hc).
  destruct (value_start_cases c Hc) as (Hws & _ & _ & Hbom & _).
  assert (Hskip : skip_ws (encode i 0 v) = encode i 0 v).
  { rewrite E. now apply skip_ws_start. }
  assert (Hb : PyStr.startswith [65279] (encode i 0 v) = false).
  { rewrite E. cbn [PyStr.startswith]. unfold PyStr.eqc.
    rewrite andb_true_r. apply N.eqb_neq. congruence. }
  rewrite Hb, Hskip.
  destruct (scan_encode i (3 * length (encode i 0 v) + 3)) as (H & _).
  specialize (H v 0%nat [] ltac:(lia) Hv eq_refl). rewrite app_nil_r in H.
  now rewrite H.
Qed.

End JsonRoundTrip.

(** ** C9 *)
Section ReportRoundTrip.
Import PyStr Shared Spec.

(** What the reader makes of a high surrogate right before a low one: the
    two are written as two escapes and read as one character, so such a
    string is not among the values that come back as they went. *)
Lemma surrogates_are_joined :
  Json.dumps (Some 2) (PyStr [55357; 56832]%N) = pyq "'\ud83d\ude00'"
  /\ Json.loads (pyq "'\ud83d\ude00'") = Some (PyStr [128512%N]).
Proof. split; reflexivity. Qed.


(** C9.  Whatever report [qsr_data] the Aggregator hands to the writer, if
    it is a value of JSON (its strings are Unicode text in which no high
    surrogate stands right before a low one, its floats are numbers and
    not [NaN] or an infinity, the keys of each of its objects are
    distinct), then the writer ends normally, the output file can be read,
    and parsing its text as JSON gives back [qsr_data] itself; so what
    [.get] finds there under ["narrative"], ["risk_vector"],
    ["macro_patterns"] and ["recommended_action"] (and under any other key)
    is what it finds in [qsr_data]. *)
Theorem qsr_round_trip (w : World) (output_qsr_file : str) (qsr_data : value) :
  Json.representable qsr_data = true ->
  exists w' text back,
    dump_to output_qsr_file qsr_data w = (Ok tt, w')
    /\ read_text output_qsr_file w' = (Ok text, w')
    /\ Json.loads text = Some back
    /\ back = qsr_data
    /\ Forall (fun key => forall otherwise,
                 Aggregate.get key otherwise back
                 = Aggregate.get key otherwise qsr_data)
         [py "narrative"; py "risk_vector"; py "macro_patterns";
          py "recommended_action"].
Proof.
  intros Hqsr.
  exists (set_files (<[output_qsr_file := Text (Json.dumps (Some 2) qsr_data)]> (files w)) w),
    (Json.dumps (Some 2) qsr_data), qsr_data.
  split; [reflexivity|]. split.
  { unfold read_text. cbn [files set_files]. now rewrite lookup_insert_eq. }
  split; [now apply loads_dumps|]. split; [reflexivity|].
  repeat constructor.
Qed.

(** A report with a float, a negative number, nested values and text
    outside ASCII, written to [qsr_master.json] and read back. *)
Lemma qsr_round_trip_witness :
  exists w' text,
    dump_to (py "qsr_master.json")
      (PyDict [(py "narrative", PyStr ([233; 128512]%N ++ pyq "'quoted' \ line"));
               (py "risk_vector",
                PyDict [(py "self_harm", PyFloat (py "0.25"));
                        (py "fraud", PyFloat (py "1e-3"))]);
               (py "macro_patterns", PyList [PyStr (py "a"); PyNone; PyList []]);
               (py "recommended_action", Aggregate.action (-1) (py "none"))])
      (demo None)
    = (Ok tt, w')
    /\ read_text (py "qsr_master.json") w' = (Ok text, w')
    /\ Json.loads text
       = Some
           (PyDict [(py "narrative", PyStr ([233; 128512]%N ++ pyq "'quoted' \ line"));
                    (py "risk_vector",
                     PyDict [(py "self_harm", PyFloat (py "0.25"));
                             (py "fraud", PyFloat (py "1e-3"))]);
                    (py "macro_patterns", PyList [PyStr (py "a"); PyNone; PyList []]);
                    (py "recommended_action", Aggregate.action (-1) (py "none"))]).
Proof.
  destruct (qsr_round_trip (demo None) (py "qsr_master.json")
              (PyDict [(py "narrative", PyStr ([233; 128512]%N ++ pyq "'quoted' \ line"));
                       (py "risk_vector",
                        PyDict [(py "self_harm", PyFloat (py "0.25"));
                                (py "fraud", PyFloat (py "1e-3"))]);
                       (py "macro_patterns", PyList [PyStr (py "a"); PyNone; PyList []]);
                       (py "recommended_action", Aggregate.action (-1) (py "none"))])
              eq_refl)
    as (w' & text & back & Hdump & Hread & Hloads & -> & _).
  exists w', text. repeat split; assumption.
Defined.

End ReportRoundTrip.

(** ** How the Summarizer ends *)
Section SummarizerExit.
Import PyStr Shared Spec.

Lemma path_exists_None (w : World) (path : str) :
  files w !! path = None -> path_exists path w = (Ok false, w).
Proof.
  intros H. unfold path_exists, ask. rewrite H.
  now rewrite bool_decide_eq_false_2 by (intros [x Hx]; discriminate Hx).
Qed.


(** The setup of the Summarizer once the template is read and has the
    marker: without a database it exits, with one whatever the [try] around
    it raises becomes exit status 1. *)
Lemma platform_prepare_from (w : World) (surface t : str) :
  files w !! py "prompts/platform_prompt.txt" = Some (Text t) ->
  contains TASK t = true ->
  exists sys task,
    Platform.prepare surface w
    = match database w with
      | None => (SysExit 1, w)
      | Some _ =>
          match Platform.read_window surface w with
          | (Ok rows, w') => (Ok (sys, task, rows), w')
          | (Raise _, w') => (SysExit 1, w')
          | (SysExit c, w') => (SysExit c, w')
          end
      end.
Proof.
  intros Hfile Hmark.
  destruct (user_task_instruction_marker t Hmark) as (a & b & _ & Htask).
  destruct (system_prompt_content_ok t surface) as [Hsys _].
  eexists _, _.
  unfold Platform.prepare. cbv zeta.
  rewrite (bind_Ok _ _ _ _ _ (path_exists_Some w _ _ Hfile)). cbn [negb].
  rewrite (bind_Ok _ _ _ _ _ (read_text_Text w _ _ Hfile)). cbv beta.
  rewrite Hsys, Htask. rewrite !bind_lift_inr.
  unfold bind at 1. unfold ask at 1.
  destruct (database w) as [db|].
  - rewrite bool_decide_eq_true_2 by (now eexists). cbn [negb].
    unfold bind, try_except.
    destruct (Platform.read_window surface w) as [[rows|e|c] w']; reflexivity.
  - rewrite bool_decide_eq_false_2 by (intros [x Hx]; discriminate Hx). reflexivity.
Qed.




End SummarizerExit.

(** ** Runs without a usable LLM configuration *)
Section WithoutLLM.
Import PyStr Shared Spec.





End WithoutLLM.

(** ** How the Aggregator ends *)
Section AggregatorExit.
Import PyStr Shared Spec.



Ltac norm :=
  cbn [add_event set_log set_database files database duckdb_fault log tables
       qsr_reports default now raise ret fst snd].






End AggregatorExit.

(** ** The summaries the Aggregator loads *)
Section SummariesLoaded.
Import PyStr Shared Spec.

(** One turn of the loop, by what is on disk. *)
Lemma load_pss_cases (w : World) (surface : str) :
  Aggregate.load_pss surface w
  = (Ok match files w !! Aggregate.pss_file surface with
        | None =>
            (Aggregate.placeholder (py "File not found: " ++ Aggregate.pss_file surface)
               (py "Data not available"), false)
        | Some (Unreadable e) =>
            (Aggregate.placeholder
               (if exn_kind e is JSONDecodeError
                then py "Invalid JSON in " ++ Aggregate.pss_file surface
                else exn_msg e) [], false)
        | Some (Text text) =>
            match Json.loads text with
            | None =>
                (Aggregate.placeholder
                   (py "Invalid JSON in " ++ Aggregate.pss_file surface) [], false)
            | Some data =>
                if Aggregate.valid_pss data then (data, true)
                else (Aggregate.placeholder
                        (py "Invalid structure in " ++ Aggregate.pss_file surface) [],
                      false)
            end
        end, w).
Proof.
  unfold Aggregate.load_pss.
  destruct (files w !! Aggregate.pss_file surface) as [[text|e]|] eqn:Hfile.
  - rewrite (bind_Ok _ _ _ _ _ (path_exists_Some w _ _ Hfile)).
    unfold try_except.
    rewrite (bind_Ok _ _ _ _ _ (read_text_Text w _ _ Hfile)). cbv beta.
    unfold loads. destruct (Json.loads text) as [v|].
    + rewrite (bind_Ok _ _ w w v eq_refl). now destruct (Aggregate.valid_pss v).
    + reflexivity.
  - rewrite (bind_Ok _ _ _ _ _ (path_exists_Some w _ _ Hfile)).
    unfold try_except, bind, read_text. rewrite Hfile. now destruct (exn_kind e).
  - now rewrite (bind_Ok _ _ _ _ _ (path_exists_None w _ Hfile)).
Qed.

(** Whatever is on disk, the entry has the two keys. *)
Lemma load_pss_shape (w : World) (surface : str) :
  exists data valid,
    Aggregate.load_pss surface w = (Ok (data, valid), w)
    /\ Aggregate.valid_pss data = true.
Proof.
  rewrite load_pss_cases.
  destruct (files w !! Aggregate.pss_file surface) as [[text|e]|].
  - destruct (Json.loads text) as [v|]; [|now eexists _, _].
    destruct (Aggregate.valid_pss v) eqn:Hv; now eexists _, _.
  - now eexists _, _.
  - now eexists _, _.
Qed.

Lemma load_all_shape (w : World) (surfaces : list str) :
  forall acc found,
    NoDup (map fst acc ++ surfaces) ->
    Forall (fun kv => Aggregate.valid_pss (snd kv) = true) acc ->
    exists data found',
      Aggregate.load_all surfaces acc found w = (Ok (data, found'), w)
      /\ map fst data = map fst acc ++ surfaces
      /\ Forall (fun kv => Aggregate.valid_pss (snd kv) = true) data.
Proof.
  induction surfaces as [|s rest IH]; intros acc found Hnd Hacc.
  - exists acc, found. rewrite app_nil_r. now repeat split.
  - cbn [Aggregate.load_all].
    destruct (load_pss_shape w s) as (data & valid & Hload & Hshape).
    rewrite (bind_Ok _ _ _ _ _ Hload).
    assert (Hfresh : s ∉ map fst acc).
    { apply NoDup_app in Hnd as (_ & Hnd & _). intros Hin. apply (Hnd s Hin).
      apply elem_of_cons. now left. }
    rewrite (dict_set_fresh s data acc Hfresh).
    destruct (IH (acc ++ [(s, data)]) (found || valid)) as (data' & found' & Hrun & Hkeys & Hall).
    + rewrite map_app. cbn [map fst]. rewrite <- app_assoc. exact Hnd.
    + apply Forall_app. split; [exact Hacc|]. now repeat constructor.
    + exists data', found'. split; [exact Hrun|]. split; [|exact Hall].
      rewrite Hkeys, map_app. cbn [map fst]. now rewrite <- app_assoc.
Qed.

(** The object the Aggregator puts before the LLM has the three surfaces
    as its keys, in the order of [PLATFORM_SURFACES], whatever is on disk;
    each of its entries, loaded or made up, is an object with the keys
    ["incidents"] and ["summary"]; the loop changes nothing; and
    [found_any_pss] says whether one of the three files holds a valid
    summary. *)
Theorem summaries_for_llm (w : World) :
  exists data found,
    Aggregate.load_all Aggregate.PLATFORM_SURFACES [] false w = (Ok (data, found), w)
    /\ map fst data = [py "gemini"; py "imagen"; py "search"]
    /\ Forall (fun kv => exists d,
                 snd kv = PyDict d
                 /\ dict_has (py "incidents") d = true
                 /\ dict_has (py "summary") d = true) data
    /\ (found = true
        <-> exists s, In s Aggregate.PLATFORM_SURFACES /\ valid_summary_on_disk w s).
Proof.
  destruct (load_all_shape w Aggregate.PLATFORM_SURFACES [] false)
    as (data & found & Hrun & Hkeys & Hall).
  { cbn [map app]. unfold Aggregate.PLATFORM_SURFACES.
    repeat (apply NoDup_cons; split; [rewrite ?elem_of_cons, elem_of_nil; intros H;
                                      repeat (destruct H as [H | H]; try discriminate H);
                                      exact H|]).
    apply NoDup_nil_2. }
  { constructor. }
  destruct (load_all_run w Aggregate.PLATFORM_SURFACES [] false)
    as (data' & found' & Hrun' & Hfound).
  rewrite Hrun in Hrun'. injection Hrun' as <- <-.
  exists data, found. split; [exact Hrun|]. split; [exact Hkeys|]. split.
  - eapply Forall_impl; [exact Hall|]. intros [k v] Hv. cbn [snd] in *.
    destruct v; try discriminate Hv. cbn [Aggregate.valid_pss] in Hv.
    apply andb_true_iff in Hv as [Hi Hs]. now exists d.
  - rewrite Hfound. split.
    + intros [H | H]; [discriminate | exact H].
    + intros H. now right.
Qed.

(** One summary file, by what is on disk: a missing file, one that cannot
    be read, one that is not JSON and one that is JSON of another shape
    each give their own placeholder, with empty incidents and an [error]
    text that names the cause, and do not count as valid; a file that
    holds an object with the two keys is taken as it is.  The world is
    left as it was. *)
Theorem summary_entry (w : World) (surface : str) :
  Aggregate.load_pss surface w
  = (Ok match files w !! Aggregate.pss_file surface with
        | None =>
            (PyDict [(py "error", PyStr (py "File not found: " ++ Aggregate.pss_file surface));
                     (py "incidents", PyList []);
                     (py "summary", PyStr (py "Data not available"))], false)
        | Some (Unreadable e) =>
            (PyDict [(py "error",
                      PyStr (if exn_kind e is JSONDecodeError
                             then py "Invalid JSON in " ++ Aggregate.pss_file surface else exn_msg e));
                     (py "incidents", PyList []); (py "summary", PyStr [])], false)
        | Some (Text text) =>
            match Json.loads text with
            | None =>
                (PyDict [(py "error", PyStr (py "Invalid JSON in " ++ Aggregate.pss_file surface));
                         (py "incidents", PyList []); (py "summary", PyStr [])], false)
            | Some (PyDict d) =>
                if dict_has (py "incidents") d && dict_has (py "summary") d
                then (PyDict d, true)
                else (PyDict [(py "error", PyStr (py "Invalid structure in " ++ Aggregate.pss_file surface));
                              (py "incidents", PyList []); (py "summary", PyStr [])], false)
            | Some _ =>
                (PyDict [(py "error", PyStr (py "Invalid structure in " ++ Aggregate.pss_file surface));
                         (py "incidents", PyList []); (py "summary", PyStr [])], false)
            end
        end, w).
Proof.
  rewrite load_pss_cases. unfold Aggregate.placeholder.
  destruct (files w !! Aggregate.pss_file surface) as [[text|e]|]; try reflexivity.
  destruct (Json.loads text) as [[]|]; reflexivity.
Qed.

End SummariesLoaded.

(** ** From the Summarizer to the Aggregator *)
Section SummaryHandedOn.
Import PyStr Shared Spec.

Lemma text_ok_app (a b : str) :
  Json.text_ok a = true -> Json.text_ok b = true ->
  (forall c d, last a = Some c -> head b = Some d ->
               Json.is_high_surrogate c && Json.is_low_surrogate d = false) ->
  Json.text_ok (a ++ b) = true.
Proof.
  unfold Json.text_ok. intros Ha Hb Hjoin.
  apply andb_true_iff in Ha as [Ha1 Ha2]. apply andb_true_iff in Hb as [Hb1 Hb2].
  rewrite forallb_app, Ha1, Hb1. cbn [andb].
  induction a as [|c a IH]; [exact Hb2|].
  cbn [app Json.no_surrogate_pair] in *.
  apply andb_true_iff in Ha1 as [_ Ha1]. apply andb_true_iff in Ha2 as [Hc Ha2].
  destruct a as [|c' a].
  - cbn [app]. destruct b as [|d b]; [reflexivity|].
    rewrite (Hjoin c d eq_refl eq_refl). cbn [negb andb]. exact Hb2.
  - cbn [app] in *. rewrite Hc. cbn [andb]. apply IH; [exact Ha1 | exact Ha2 |].
    intros x d Hx Hd. apply Hjoin; [|exact Hd]. exact Hx.
Qed.

(** A text of ASCII before any text that comes back gives a text that
    comes back. *)
Lemma text_ok_literal (lit : string) (s : str) :
  forallb (fun c => (c <? 128)%N) (py lit) = true ->
  Json.text_ok s = true -> Json.text_ok (py lit ++ s) = true.
Proof.
  intros Hlit Hs.
  assert (Hok : forall a, forallb (fun c => (c <? 128)%N) a = true ->
                          Json.text_ok (a ++ s) = true).
  { clear Hlit. induction a as [|c a IH]; [intros _; exact Hs|].
    cbn [forallb]. intros H. apply andb_true_iff in H as [Hc Ha].
    specialize (IH Ha). apply N.ltb_lt in Hc.
    unfold Json.text_ok in *. apply andb_true_iff in IH as [H1 H2].
    cbn [app forallb Json.no_surrogate_pair]. rewrite H1, H2, !andb_true_r.
    apply andb_true_iff. split; [apply N.leb_le; lia|].
    destruct (a ++ s) as [|d r]; [reflexivity|].
    unfold Json.is_high_surrogate.
    destruct (N.leb_spec 55296 c); [lia | reflexivity]. }
  now apply Hok.
Qed.

(** What the Summarizer writes without the help of an LLM is a valid
    summary to the Aggregator: the summary of an empty table, and the
    error summary too, [error: true] and all.  With either on disk for a
    surface, the Aggregator loads it as it was written and counts it as
    valid, so that [found_any_pss] is set and the LLM is asked to aggregate
    it. *)
Theorem own_summary_counts_as_valid (w : World) (surface name : str) (e : exn)
    (summary_data : value) :
  Json.text_ok name = true -> Json.text_ok (exn_msg e) = true ->
  summary_data = Platform.empty_summary name
  \/ summary_data = Platform.error_summary name e ->
  files w !! Aggregate.pss_file surface = Some (Text (Json.dumps (Some 2) summary_data)) ->
  Aggregate.load_pss surface w = (Ok (summary_data, true), w).
Proof.
  intros Hname Hmsg Hdata Hfile.
  assert (Hrep : Json.representable summary_data = true).
  { destruct Hdata as [-> | ->].
    - unfold Platform.empty_summary. cbn [Json.representable forallb fst snd].
      assert (H : Json.text_ok
                    (py "No activity recorded for " ++ name ++ py " in the last 24 hours.")
                  = true).
      { apply text_ok_literal; [reflexivity|].
        apply text_ok_app; [exact Hname | reflexivity |].
        intros c d _ Hd. injection Hd as <-. apply andb_false_r. }
      rewrite H. reflexivity.
    - unfold Platform.error_summary. cbn [Json.representable forallb fst snd].
      assert (H : Json.text_ok
                    (py "Error processing data for " ++ name ++ py ": " ++ exn_msg e)
                  = true).
      { apply text_ok_literal; [reflexivity|].
        apply text_ok_app; [exact Hname | now apply text_ok_literal |].
        intros c d _ Hd. injection Hd as <-. apply andb_false_r. }
      rewrite H. reflexivity. }
  rewrite load_pss_cases, Hfile, (loads_dumps (Some 2) summary_data Hrep).
  now destruct Hdata as [-> | ->].
Qed.

(** The error summary of [search] on disk, as the Summarizer writes it
    when no key is set. *)
Lemma own_summary_counts_as_valid_witness :
  Aggregate.load_pss (py "search")
    (with_files
       (<[py "search.pss.json" :=
            Text (Json.dumps (Some 2)
                    (Platform.error_summary (py "search")
                       (Exn ValueError (py "LLM_API_KEY environment variable not set."))))]>
          demo_files)
       (demo None))
  = (Ok (Platform.error_summary (py "search")
           (Exn ValueError (py "LLM_API_KEY environment variable not set.")), true),
     with_files
       (<[py "search.pss.json" :=
            Text (Json.dumps (Some 2)
                    (Platform.error_summary (py "search")
                       (Exn ValueError (py "LLM_API_KEY environment variable not set."))))]>
          demo_files)
       (demo None)).
Proof.
  apply (own_summary_counts_as_valid _ (py "search") (py "search")
           (Exn ValueError (py "LLM_API_KEY environment variable not set."))).
  - reflexivity.
  - reflexivity.
  - now right.
  - vm_compute. reflexivity.
Defined.

End SummaryHandedOn.

(** ** The two copies of [query_llm] *)
Section TwoCopies.
Import PyStr Shared Spec.

Lemma first_none_None (items : list attr) (i : nat) :
  ~ In AttrNone items -> Aggregate.first_none items i = None.
Proof.
  revert i. induction items as [|a items IH]; intros i Hno; [reflexivity|].
  cbn [Aggregate.first_none].
  destruct a; try (apply IH; intros H; apply Hno; now right).
  destruct Hno. now left.
Qed.

Lemma first_none_Some (items : list attr) (i : nat) :
  In AttrNone items -> exists j, Aggregate.first_none items i = Some j.
Proof.
  revert i. induction items as [|a items IH]; intros i Hin; [destruct Hin|].
  cbn [Aggregate.first_none]. destruct a.
  - destruct Hin as [H | H]; [discriminate H | now apply IH].
  - now exists i.
  - destruct Hin as [H | H]; [discriminate H | now apply IH].
Qed.

(** The texts of the parts put together: the empty ones add nothing. *)
Lemma concat_texts (parts : list attr) :
  concat (map attr_str (filter (fun a => has_attr a = true) parts))
  = concat (map attr_str (filter (fun a => attr_truthy a = true) parts)).
Proof.
  induction parts as [|a parts IH]; [reflexivity|].
  destruct a as [| |s].
  - exact IH.
  - rewrite filter_cons_True by reflexivity. rewrite filter_cons_False by discriminate.
    cbn [map concat attr_str app]. exact IH.
  - rewrite filter_cons_True by reflexivity. destruct s as [|c s].
    + rewrite filter_cons_False by discriminate. cbn [map concat attr_str app]. exact IH.
    + rewrite filter_cons_True by reflexivity. cbn [map concat attr_str]. now rewrite IH.
Qed.

Lemma in_filter_has_attr (parts : list attr) :
  In AttrNone (filter (fun a => has_attr a = true) parts) <-> In AttrNone parts.
Proof.
  rewrite <- !list_elem_of_In, list_elem_of_filter. split; [now intros [_ H]|].
  intros H. now split.
Qed.

(** How the two copies read the text of a Gemini response.  They agree
    whenever the response has a text of its own, or none of its parts has
    [None] for a text.  Where they differ is a response without a text
    whose parts include one with the text [None]: the Summarizer skips that
    part and puts the others together, the Aggregator, whose comment calls
    its copy identical, raises [TypeError] at the join. *)
Theorem response_text_copies (resp : gemini_response) :
  (attr_truthy (resp_text resp) = true
   \/ (forall parts, resp_parts resp = Some parts -> ~ In AttrNone parts) ->
   Aggregate.response_text resp = Platform.response_text resp)
  /\ (forall parts,
        attr_truthy (resp_text resp) = false ->
        resp_parts resp = Some parts -> In AttrNone parts ->
        Platform.response_text resp
        = inr (concat (map attr_str (filter (fun a => attr_truthy a = true) parts)))
        /\ exists i,
             Aggregate.response_text resp
             = inl (Exn TypeError
                      (py "sequence item " ++ Json.digits (N.of_nat i)
                       ++ py ": expected str instance, NoneType found"))).
Proof.
  unfold Aggregate.response_text, Platform.response_text. split.
  - intros [Ht | Hparts]; [now rewrite Ht|].
    destruct (attr_truthy (resp_text resp)); [reflexivity|].
    destruct (resp_parts resp) as [[|a parts]|]; try reflexivity.
    unfold Aggregate.join_parts.
    rewrite first_none_None.
    + now rewrite concat_texts.
    + rewrite in_filter_has_attr. now apply Hparts.
  - intros parts -> -> Hin. split; [reflexivity|].
    destruct parts as [|a parts]; [destruct Hin|].
    unfold Aggregate.join_parts.
    destruct (first_none_Some (filter (fun a => has_attr a = true) (a :: parts)) 0)
      as (i & ->); [now apply in_filter_has_attr|].
    now exists i.
Qed.

(** A response with the parts ["{"], a part whose text is [None], and
    ["}"]. *)
Lemma response_text_copies_witness :
  Platform.response_text
    {| resp_text := NoAttr;
       resp_parts := Some [AttrStr (py "{"); AttrNone; AttrStr (py "}")];
       resp_prompt_feedback := None |}
  = inr (py "{}")
  /\ Aggregate.response_text
       {| resp_text := NoAttr;
          resp_parts := Some [AttrStr (py "{"); AttrNone; AttrStr (py "}")];
          resp_prompt_feedback := None |}
     = inl (Exn TypeError (py "sequence item 1: expected str instance, NoneType found")).
Proof.
  destruct (response_text_copies
              {| resp_text := NoAttr;
                 resp_parts := Some [AttrStr (py "{"); AttrNone; AttrStr (py "}")];
                 resp_prompt_feedback := None |}) as [_ H].
  destruct (H [AttrStr (py "{"); AttrNone; AttrStr (py "}")] eq_refl eq_refl)
    as (Hp & i & Ha).
  - right. now left.
  - split; [exact Hp|]. reflexivity.
Defined.

End TwoCopies.

(** ** The columns of a report row *)
Section ReportColumns.
Import PyStr Shared Spec.

Lemma representable_lookup (k : str) (d : list (str * value)) (v : value) :
  forallb (fun kv => Json.text_ok (fst kv) && Json.representable (snd kv)) d = true ->
  dict_lookup k d = Some v -> Json.representable v = true.
Proof.
  induction d as [|[k' v'] d IH]; [discriminate|].
  cbn [forallb dict_lookup fst snd]. intros H.
  apply andb_true_iff in H as [Hkv Hd]. apply andb_true_iff in Hkv as [_ Hv'].
  destruct (str_eqb k k'); [intros E; now injection E as <- | now apply IH].
Qed.

Lemma representable_get (k : str) (d : list (str * value)) (otherwise : value) :
  Json.representable (PyDict d) = true -> Json.representable otherwise = true ->
  Json.representable (default otherwise (dict_lookup k d)) = true.
Proof.
  cbn [Json.representable]. intros Hd Ho. apply andb_true_iff in Hd as [Hd _].
  destruct (dict_lookup k d) as [v|] eqn:E; [|exact Ho].
  now apply representable_lookup with (k := k) (d := d).
Qed.

(** For a report that is an object of JSON, the five values of the
    [INSERT] are always there, and each text column parses back, with
    [json.loads], to the value it was made from: the raw column to the
    whole report, the three others to the field of the report, or to its
    default when the report lacks the field. *)
Theorem report_columns_parse_back (d : list (str * value)) :
  Json.representable (PyDict d) = true ->
  exists narrative_val risk macro action raw,
    Aggregate.report_values (PyDict d) = inr (narrative_val, risk, macro, action, raw)
    /\ Json.loads raw = Some (PyDict d)
    /\ Json.loads risk = Some (default (PyDict []) (dict_lookup (py "risk_vector") d))
    /\ Json.loads macro = Some (default (PyList []) (dict_lookup (py "macro_patterns") d))
    /\ Json.loads action
       = Some (default
                 (if Json.truthy (default PyNone (dict_lookup (py "error") d))
                  then PyDict [(py "tier", PyInt (-1));
                               (py "justification", PyStr (py "N/A due to error"))]
                  else PyDict [])
                 (dict_lookup (py "recommended_action") d))
    /\ narrative_val
       = default
           (PyStr (if Json.truthy (default PyNone (dict_lookup (py "error") d))
                   then py "N/A due to error" else []))
           (dict_lookup (py "narrative") d).
Proof.
  intros Hd. eexists _, _, _, _, _. split; [reflexivity|].
  split; [now apply loads_dumps|].
  split; [apply loads_dumps; now apply representable_get|].
  split; [apply loads_dumps; now apply representable_get|].
  split; [|reflexivity].
  apply loads_dumps. apply representable_get; [exact Hd|].
  now destruct (Json.truthy _).
Qed.

(** The report whose tier is 7, as the LLM may give it. *)
Lemma report_columns_parse_back_witness :
  exists narrative_val risk macro action raw,
    Aggregate.report_values
      (PyDict [(py "recommended_action", PyDict [(py "tier", PyInt 7)])])
    = inr (narrative_val, risk, macro, action, raw)
    /\ Json.loads raw
       = Some (PyDict [(py "recommended_action", PyDict [(py "tier", PyInt 7)])])
    /\ Json.loads risk = Some (PyDict [])
    /\ Json.loads action = Some (PyDict [(py "tier", PyInt 7)])
    /\ narrative_val = PyStr [].
Proof.
  destruct (report_columns_parse_back
              [(py "recommended_action", PyDict [(py "tier", PyInt 7)])] eq_refl)
    as (n & r & m & a & raw & Hv & Hraw & Hr & _ & Ha & Hn).
  exists n, r, m, a, raw. repeat split; assumption.
Defined.

End ReportColumns.

(** ** A prompt that Gemini blocks *)
Section Blocked.
Import PyStr Shared Spec.





End Blocked.

(** ** The script runner *)
Section ScriptRunner.
Import PyStr Shared Spec.

Variable execute : str -> Database -> option exn * Database.




End ScriptRunner.

(** ** The checks of the pipeline test *)
Section PipelineChecks.
Import PyStr Shared Spec PipelineTest.

Lemma dict_has_lookup (k : str) (d : list (str * value)) :
  dict_has k d = true <-> exists v, dict_lookup k d = Some v.
Proof.
  induction d as [|[k' v'] d IH]; cbn [dict_has dict_lookup].
  - split; [discriminate | intros [v H]; discriminate H].
  - destruct (str_eqb k k'); cbn [orb]; [|exact IH].
    split; [intros _; now exists v' | reflexivity].
Qed.

Lemma assert_tier_passes (tier : value) :
  assert_tier tier = Passed
  <-> (exists b, tier = PyBool b) \/ exists z, tier = PyInt z /\ (-1 <= z <= 3)%Z.
Proof.
  destruct tier; cbn [assert_tier];
    try (split; [discriminate | intros [[b H] | (z' & H & _)]; discriminate H]).
  - split; [intros _; left; now exists b | reflexivity].
  - destruct (Z.leb_spec (-1) z) as [Hlo|Hlo], (Z.leb_spec z 3) as [Hhi|Hhi];
      cbn [andb]; split;
      try discriminate; try reflexivity;
      try (intros _; right; exists z; split; [reflexivity | lia]);
      intros [[b Hx] | (z' & Hx & Hz)]; try discriminate Hx; injection Hx as <-; lia.
Qed.

(** The assertions of the test hold of exactly these reports: objects
    that have the keys ["narrative"], ["risk_vector"], ["macro_patterns"]
    and ["recommended_action"], whose recommended action is an object with
    a ["tier"] that is an integer from -1 to 3 or a boolean (which Python
    counts as the integer 0 or 1).  For any other value an assertion fails
    or an exception escapes; what the fields hold, the tier apart, is not
    looked at. *)
Theorem check_report_passes_iff (qsr_data : value) :
  check_report qsr_data = Passed
  <-> exists d a tier,
        qsr_data = PyDict d
        /\ dict_has (py "narrative") d = true
        /\ dict_has (py "risk_vector") d = true
        /\ dict_has (py "macro_patterns") d = true
        /\ dict_lookup (py "recommended_action") d = Some (PyDict a)
        /\ dict_lookup (py "tier") a = Some tier
        /\ ((exists b, tier = PyBool b)
            \/ exists z, tier = PyInt z /\ (-1 <= z <= 3)%Z).
Proof.
  split.
  - unfold check_report, assert_field.
    destruct qsr_data as [| | | | s | l | d]; cbn [contains_key Aggregate.get];
      try discriminate.
    + repeat (match goal with |- context [if ?b then _ else _] => destruct b end;
              try discriminate).
    + repeat (match goal with |- context [if ?b then _ else _] => destruct b end;
              try discriminate).
    + destruct (dict_has (py "narrative") d) eqn:H1; [|discriminate].
      destruct (dict_has (py "risk_vector") d) eqn:H2; [|discriminate].
      destruct (dict_has (py "macro_patterns") d) eqn:H3; [|discriminate].
      destruct (dict_has (py "recommended_action") d) eqn:H4; [|discriminate].
      apply dict_has_lookup in H4 as [ra Hra]. rewrite Hra.
      change (default (PyDict []) (Some ra)) with ra.
      destruct ra as [| | | | s | l | a]; cbn [contains_key Aggregate.get];
        try discriminate.
      { match goal with |- context [if ?b then _ else _] => destruct b end; discriminate. }
      { match goal with |- context [if ?b then _ else _] => destruct b end; discriminate. }
      destruct (dict_has (py "tier") a) eqn:H5; [|discriminate].
      apply dict_has_lookup in H5 as [tier Htier]. rewrite Htier.
      change (default PyNone (Some tier)) with tier.
      intros Hpass. apply assert_tier_passes in Hpass.
      now exists d, a, tier.
  - intros (d & a & tier & -> & H1 & H2 & H3 & Hra & Htier & Hpass).
    unfold check_report, assert_field. cbn [contains_key Aggregate.get].
    rewrite H1, H2, H3.
    rewrite (proj2 (dict_has_lookup _ _) (ex_intro _ _ Hra)), Hra.
    change (default (PyDict []) (Some (PyDict a))) with (PyDict a).
    cbn [contains_key Aggregate.get].
    rewrite (proj2 (dict_has_lookup _ _) (ex_intro _ _ Htier)), Htier.
    change (default PyNone (Some tier)) with tier.
    now apply assert_tier_passes.
Qed.

Ltac norm :=
  cbn [add_event set_log set_database files database duckdb_fault log tables
       qsr_reports default now raise ret fst snd].






End PipelineChecks.

(** ** Runs with OpenAI as the provider *)
Section WithOpenAI.
Import PyStr Shared Spec.







End WithOpenAI.

(** ** A fence with another language tag *)
Section OtherTag.
Import PyStr Shared Spec.

(** Stripping leaves a text that starts with a character that is not
    white space its first character. *)
Lemma strip_keeps_head (c : N) (x : str) :
  isspace c = false -> exists y, strip (c :: x) = c :: y.
Proof.
  intros Hc. unfold strip. rewrite (lstrip_word c x Hc). unfold rstrip.
  assert (H : forall s, exists y, rev (lstrip (s ++ [c])) = c :: y).
  { induction s as [|d s IH].
    - exists []. cbn [app lstrip]. now rewrite Hc.
    - cbn [app lstrip]. destruct (isspace d); [exact IH|].
      exists (rev (d :: s)). change (d :: s ++ [c]) with ((d :: s) ++ [c]).
      now rewrite rev_app_distr. }
  cbn [rev]. apply H.
Qed.

(** No JSON text starts with a character that starts no value. *)
Lemma loads_bad_start (c : N) (s : str) :
  Json.is_ws c = false -> Json.value_start c = false -> Json.loads (c :: s) = None.
Proof.
  intros Hws Hstart. unfold Json.value_start in Hstart.
  repeat (apply orb_false_iff in Hstart as [Hstart ?]).
  unfold Json.loads. cbn [startswith]. unfold eqc.
  destruct (65279 =? c)%N; [reflexivity|]. cbn [andb].
  cbn [Json.skip_ws]. rewrite Hws.
  destruct (3 * length (c :: s) + 3) as [|f] eqn:E; [cbn [length] in E; lia|].
  cbn [Json.scan_once].
  repeat match goal with H : (c =? _)%N = false |- _ => rewrite H end.
  unfold Json.scan_word, Json.scan_number, Json.scan_int.
  change (py "null") with [110; 117; 108; 108]%N.
  change (py "true") with [116; 114; 117; 101]%N.
  change (py "false") with [102; 97; 108; 115; 101]%N.
  change (py "NaN") with [78; 97; 78]%N.
  change (py "Infinity") with [73; 110; 102; 105; 110; 105; 116; 121]%N.
  change (py "-Infinity") with [45; 73; 110; 102; 105; 110; 105; 116; 121]%N.
  cbn [startswith]. unfold eqc.
  repeat match goal with
         | H : (c =? ?k)%N = false |- context [(?k =? c)%N] =>
             rewrite (N.eqb_sym k c), H
         end.
  cbn [andb].
  repeat match goal with H : (c =? _)%N = false |- _ => rewrite H end.
  destruct (c =? 48)%N eqn:E0.
  { apply N.eqb_eq in E0. subst c. discriminate. }
  match goal with H : Json.is_digit c = false |- _ => rewrite H end.
  reflexivity.
Qed.

(** A Gemini answer fenced with a language tag other than [json], such as
    [```python] or [```JSON], keeps the tag: only the three backticks at
    either end go.  The tag starts no JSON value, so what [query_llm]
    returns does not parse. *)
Theorem fence_with_other_tag (c : N) (m : str) :
  isspace c = false -> Json.value_start c = false ->
  startswith (py "json") (c :: m ++ py "```") = false ->
  exists rest,
    clean_markdown (py "```" ++ (c :: m) ++ py "```") = c :: rest
    /\ Json.loads (c :: rest) = None.
Proof.
  intros Hc Hstart Hjson.
  pose proof (clean_markdown_bare [] (c :: m) [] eq_refl eq_refl Hjson) as Hclean.
  rewrite app_nil_r in Hclean. cbn [app] in Hclean.
  destruct (strip_keeps_head c m Hc) as (rest & Hstrip).
  exists rest. split.
  - cbn [app]. rewrite Hclean. exact Hstrip.
  - apply loads_bad_start; [|exact Hstart].
    unfold isspace in Hc. unfold Json.is_ws.
    repeat (apply orb_false_iff in Hc as [Hc ?]).
    destruct (N.eqb_spec c 32) as [->|]; [discriminate|].
    destruct (N.eqb_spec c 9) as [->|]; [discriminate|].
    destruct (N.eqb_spec c 10) as [->|]; [discriminate|].
    destruct (N.eqb_spec c 13) as [->|]; [discriminate|].
    reflexivity.
Qed.

(** An answer fenced as [```python]. *)
Lemma fence_with_other_tag_witness :
  exists rest,
    clean_markdown (py "```" ++ py "python" ++ nl ++ py "{}" ++ nl ++ py "```")
    = 112%N :: rest
    /\ Json.loads (112%N :: rest) = None.
Proof.
  destruct (fence_with_other_tag 112 (py "ython" ++ nl ++ py "{}" ++ nl)
              eq_refl eq_refl eq_refl) as (rest & Hclean & Hloads).
  exists rest. split; [exact Hclean | exact Hloads].
Defined.

End OtherTag.

(** ** A report that is not an object *)
Section NotAnObject.
Import PyStr Shared Spec.

Ltac norm :=
  cbn [add_event set_log set_database files database duckdb_fault log tables
       qsr_reports default now raise ret fst snd].

Ltac same Hdb Hrows :=
  norm; rewrite ?Hdb, ?Hrows; norm; now repeat split.

(** When the LLM answers with JSON that is not an object (a list, a
    string, a number, [null]), the Aggregator has written it to the output
    file as it is, and the last [try] stores nothing: [.get] raises
    [AttributeError], which is caught, after the connection was made and
    the table created.  The rows of [qsr_reports] are as they were, and the
    run goes on to end normally. *)
Theorem non_object_report_not_stored (qsr : value) (w : World) :
  (forall d, qsr <> PyDict d) ->
  fst (Aggregate.persist qsr w) = Ok tt
  /\ report_rows (snd (Aggregate.persist qsr w)) = report_rows w
  /\ files (snd (Aggregate.persist qsr w)) = files w
  /\ Aggregate.report_values qsr
     = inl (Exn AttributeError (py "object has no attribute 'get'")).
Proof.
  intros Hqsr.
  assert (Hvals : Aggregate.report_values qsr
                  = inl (Exn AttributeError (py "object has no attribute 'get'"))).
  { destruct qsr; try reflexivity. now destruct (Hqsr d). }
  unfold Aggregate.persist, try_except, bind, Aggregate.connect_rw,
    Aggregate.create_reports, Aggregate.insert_report, duckdb, lift, bind,
    report_rows.
  rewrite Hvals. cbv beta.
  destruct (duckdb_fault w (Connect false)) as [e|] eqn:Hc; [same Hc Hc|].
  norm.
  destruct (database w) as [db|] eqn:Hdb; norm.
  - destruct (duckdb_fault w CreateReports) as [e|] eqn:Hcr; [same Hdb Hdb|].
    norm. rewrite Hdb.
    destruct (qsr_reports db) as [rows|] eqn:Hrows; same Hdb Hrows.
  - destruct (duckdb_fault w CreateReports) as [e|] eqn:Hcr; same Hdb Hdb.
Qed.

(** A report that is a list, in a world with a database. *)
Lemma non_object_report_not_stored_witness :
  fst (Aggregate.persist (PyList [PyStr (py "no report")]) (demo None)) = Ok tt
  /\ report_rows (snd (Aggregate.persist (PyList [PyStr (py "no report")]) (demo None)))
     = report_rows (demo None).
Proof.
  destruct (non_object_report_not_stored (PyList [PyStr (py "no report")]) (demo None))
    as (Hok & Hrows & _).
  - discriminate.
  - split; [exact Hok | exact Hrows].
Defined.

End NotAnObject.

(** ** A table that is listed and is not there *)
Section ListedNotThere.
Import PyStr Shared Spec.

(** The Summarizer's check of the table is weaker than its query: it
    passes when some listed name contains the name of the table, letter
    case apart, so another table, say a backup of it, is enough.  The
    [SELECT] is then sent, fails for want of the table itself, and the run
    ends with exit status 1 after its three requests, having written
    nothing. *)
Theorem listed_is_not_there (w : World) (surface out t : str) (db : Database) :
  files w !! py "prompts/platform_prompt.txt" = Some (Text t) ->
  contains TASK t = true ->
  database w = Some db ->
  existsb (fun name => contains (lower (surface ++ py "_24h")) (lower name))
    (Platform.show_tables db) = true ->
  Platform.find_table (surface ++ py "_24h") (tables db) = None ->
  duckdb_fault w (Connect true) = None ->
  duckdb_fault w ShowTables = None ->
  Platform.main surface out w
  = (SysExit 1,
     after [Db (Connect true); Db ShowTables; Db (SelectAll (surface ++ py "_24h"))] w).
Proof.
  intros Hfile Hmark Hdb Hlisted Hfind Hc Hs.
  destruct (platform_prepare_from w surface t Hfile Hmark) as (sys & task & Hprep).
  rewrite Hdb in Hprep.
  assert (Hwin : exists r,
             Platform.read_window surface w
             = (r, after [Db (Connect true); Db ShowTables;
                          Db (SelectAll (surface ++ py "_24h"))] w)
             /\ exists e, r = Raise e).
  { unfold Platform.read_window.
    rewrite (bind_Ok _ _ _ _ _ (duckdb_ok w _ Hc)). cbv beta.
    rewrite (bind_Ok _ _ _ _ _ (ask_database w _ _ Hdb)). cbv beta.
    rewrite (bind_Ok _ _ _ _ _ (duckdb_ok (after [Db (Connect true)] w) ShowTables Hs)).
    cbv beta. rewrite Hlisted. cbn [negb]. rewrite Hfind, !after_after. cbn [app].
    destruct (duckdb_fault w (SelectAll (surface ++ py "_24h"))) as [e|] eqn:Hq.
    - rewrite (bind_Raise _ _ _ _ _
                 (duckdb_raises (after [Db (Connect true); Db ShowTables] w) _ e Hq)).
      rewrite after_after. eexists. split; [reflexivity | now eexists].
    - rewrite (bind_Ok _ _ _ _ _
                 (duckdb_ok (after [Db (Connect true); Db ShowTables] w) _ Hq)).
      cbv beta. rewrite after_after. eexists. split; [reflexivity | now eexists]. }
  destruct Hwin as (r & Hwin & e & ->). rewrite Hwin in Hprep.
  unfold Platform.main. now rewrite (bind_SysExit _ _ _ _ _ Hprep).
Qed.

(** A database that holds [search_24h_old] and no [search_24h]. *)
Lemma listed_is_not_there_witness :
  Platform.main (py "search") (py "search.pss.json")
    (with_database (Some {| tables := [(py "SEARCH_24h_old", [])]; qsr_reports := None |})
       (demo None))
  = (SysExit 1,
     after [Db (Connect true); Db ShowTables; Db (SelectAll (py "search" ++ py "_24h"))]
       (with_database (Some {| tables := [(py "SEARCH_24h_old", [])]; qsr_reports := None |})
          (demo None))).
Proof.
  apply (listed_is_not_there _ (py "search") (py "search.pss.json")
           (py "You are the {surface} analyst. TASK: list the incidents as JSON.")
           {| tables := [(py "SEARCH_24h_old", [])]; qsr_reports := None |});
    reflexivity.
Defined.

End ListedNotThere.
